(** * The timeline core of the Frigate card: a shallow embedding

    This development embeds the logic of
    [src/components/timeline-core.ts] (the [FrigateCardTimelineCore]
    element) and states the properties of its window arithmetic, its
    clustering policy, its click and range-change handlers and its
    view synchronisation cycle.

    Conventions.
    - A JavaScript [Date] is represented by its time value, an integer
      number of milliseconds ([getTime()]), as a [Z].
    - A JavaScript [number] that may be fractional (a count of seconds)
      is an exact rational [Q]; the double-precision rounding of the
      original is not represented.
    - [undefined] and [null] are both [None].
    - The element is a record of its fields; a handler is a function from
      the element to the new element together with the list of effects
      it issued on its collaborators, in order. An [async] handler is
      run to completion in one piece: no other handler interleaves at
      its [await]s. *)

From Stdlib Require Import ZArith QArith Qround Lia.
From stdpp Require Import base option list strings pretty gmap.

Local Open Scope Z_scope.

(** ** date-fns (version 2) *)

Module DateFns.

Definition Date : Type := Z.

(** The only field of a [Duration] the element ever passes. *)
Record Duration : Type := { seconds : Q }.

Definition Qlt_bool (x y : Q) : bool := negb (Qle_bool y x).

(** [_lib/toInteger]: [number < 0 ? Math.ceil(number) : Math.floor(number)]. *)
Definition toInteger (number : Q) : Z :=
  if Qlt_bool number 0 then Qceiling number else Qfloor number.

(** [add(date, {seconds})]: the seconds are first made an integer, and
    [new Date(date.getTime() + seconds * 1000)] is returned. *)
Definition add (date : Date) (duration : Duration) : Date :=
  let seconds := toInteger (seconds duration) in
  let msToAdd := seconds * 1000 in
  date + msToAdd.

(** [sub(date, {seconds})], likewise. *)
Definition sub (date : Date) (duration : Duration) : Date :=
  let seconds := toInteger (seconds duration) in
  let mstoSub := seconds * 1000 in
  date - mstoSub.

Definition differenceInMilliseconds (dateLeft dateRight : Date) : Z :=
  dateLeft - dateRight.

(** [differenceInSeconds]: the difference in milliseconds over 1000,
    rounded by the default method, [trunc]. *)
Definition differenceInSeconds (dateLeft dateRight : Date) : Z :=
  let diff := (inject_Z (differenceInMilliseconds dateLeft dateRight) / 1000)%Q in
  toInteger diff.

End DateFns.

Import DateFns.

(** ** Data *)

(** [TimelineWindow] of vis-timeline: [{start: Date, end: Date}]. *)
Record TimelineWindow : Type := {
  start : Date;
  end_ : Date;
}.

#[global] Instance TimelineWindow_eq_dec : EqDecision TimelineWindow.
Proof. solve_decision. Defined.

(** The length of a window, in milliseconds. *)
Definition len (w : TimelineWindow) : Z := end_ w - start w.

(** [IdType] of vis-timeline: [string | number]. *)
Inductive IdType : Type :=
| IdString (s : string)
| IdNumber (n : Z).

#[global] Instance IdType_eq_dec : EqDecision IdType.
Proof. solve_decision. Defined.

(** JavaScript truthiness of an id: neither the empty string nor zero. *)
Definition IdType_truthy (i : IdType) : bool :=
  match i with
  | IdString s => negb (String.eqb s "")
  | IdNumber n => negb (n =? 0)
  end.

(** Modelled from the spec: the media type tag of [view/media.ts], which is
    not among the sources. The spec gives a media item "a type tag
    distinguishing event vs recording". *)
Inductive ViewMediaType : Type :=
| EventMedia
| RecordingMedia.

(** Modelled from the spec: [ViewMedia] of [view/media.ts], which is not
    among the sources: "the core only needs id, startTime, optional
    endTime, cameraID and a type tag". Each accessor the element calls
    ([getID], [getStartTime], [getEndTime], [getCameraID]) is a field; the
    element itself tests every one of them for presence. *)
Record ViewMedia : Type := {
  getMediaType : ViewMediaType;
  getID : option string;
  getStartTime : option Date;
  getEndTime : option Date;
  getCameraID : string;
}.

#[global] Instance ViewMediaType_eq_dec : EqDecision ViewMediaType.
Proof. solve_decision. Defined.

#[global] Instance ViewMedia_eq_dec : EqDecision ViewMedia.
Proof. solve_decision. Defined.

(** Modelled from the spec: [ViewMediaClassifier] of
    [view/media-classifier.ts], which is not among the sources; it reads
    the type tag. *)
Module ViewMediaClassifier.
Definition isEvent (media : ViewMedia) : bool :=
    bool_decide (getMediaType media = EventMedia).
Definition isRecording (media : ViewMedia) : bool :=
    bool_decide (getMediaType media = RecordingMedia).
End ViewMediaClassifier.

(** Strict equality [media.getID() === id] of a media id and a widget id. *)
Definition mediaID_is (mediaID : option string) (id : IdType) : bool :=
  match mediaID, id with
  | Some s, IdString s' => String.eqb s s'
  | _, _ => false
  end.

(** ** Window arithmetic *)

(** [_getPrefetchWindow] *)
Definition _getPrefetchWindow (window : TimelineWindow) : TimelineWindow :=
  let delta := differenceInSeconds (end_ window) (start window) in
  {| start := sub (start window) {| seconds := inject_Z delta |};
     end_ := add (end_ window) {| seconds := inject_Z delta |} |}.

(** The body of [_getPerfectWindowFromMedia], given the value of
    [this._getConfiguredWindowSeconds()]. Seconds are rationals here and
    floating-point numbers in the code; the two agree on whole numbers of
    seconds, for which the theorems about this function are stated. *)
Definition perfectWindowFromMedia (windowSeconds : Q) (media : ViewMedia)
  : option TimelineWindow :=
  let startTime := getStartTime media in
  let endTime := getEndTime media in
  if ViewMediaClassifier.isEvent media then
    match startTime, endTime with
    | Some startTime, Some endTime =>
        if Qlt_bool (windowSeconds * 1000) (inject_Z (endTime - startTime)) then
          Some {| start := sub endTime {| seconds := windowSeconds |};
                  end_ := endTime |}
        else
          let gap := (windowSeconds - inject_Z (endTime - startTime) / 1000)%Q in
          Some {| start := sub startTime {| seconds := gap / 2 |};
                  end_ := add endTime {| seconds := gap / 2 |} |}
    | Some startTime, None =>
        Some {| start := sub startTime {| seconds := windowSeconds / 2 |};
                end_ := add startTime {| seconds := windowSeconds / 2 |} |}
    | None, _ => None
    end
  else if ViewMediaClassifier.isRecording media then
    match startTime, endTime with
    | Some startTime, Some endTime =>
        Some {| start := startTime; end_ := endTime |}
    | _, _ => None
    end
  else None.

(** ** The view and its collaborators *)

(** JavaScript truthiness of an optional boolean and of an optional number. *)
Definition truthy_bool (b : option bool) : bool := default false b.

Definition truthy_number (n : option Q) : bool :=
  match n with
  | Some q => negb (Qeq_bool q 0)
  | None => false
  end.

(** [Array.prototype.findIndex]: the index of the first element that
    satisfies [func]. *)
Fixpoint findIndex {A : Type} (func : A -> bool) (l : list A) : option nat :=
  match l with
  | [] => None
  | x :: l' => if func x then Some O else S <$> findIndex func l'
  end.

(** Modelled from the spec: the query results of
    [view/media-queries-results.ts], which is not among the sources: "an
    ordered sequence of media items, with an optional single selected
    index", with a timestamp of the results. *)
Record MediaQueriesResults : Type := {
  getResults : option (list ViewMedia);
  getSelectedIndex : option nat;
  getResultsTimestamp : option Date;
}.

Definition getSelectedResult (r : MediaQueriesResults) : option ViewMedia :=
  match getResults r, getSelectedIndex r with
  | Some l, Some i => l !! i
  | _, _ => None
  end.

Definition hasResults (r : MediaQueriesResults) : bool :=
  match getResults r with
  | Some (_ :: _) => true
  | _ => false
  end.

Definition hasSelectedResult (r : MediaQueriesResults) : bool :=
  bool_decide (is_Some (getSelectedResult r)).

Definition resetSelectedResult (r : MediaQueriesResults) : MediaQueriesResults :=
  {| getResults := getResults r;
     getSelectedIndex := None;
     getResultsTimestamp := getResultsTimestamp r |}.

(** Modelled from the spec: [selectResultIfFound(predicate)] of
    [view/media-queries-results.ts], which is not among the sources. The
    spec uses it to "find the clicked id in the current result set; if
    found, select it in place": the first result that satisfies the
    predicate becomes the selected one, and the selection is left as it is
    when no result does. *)
Definition selectResultIfFound (func : ViewMedia -> bool) (r : MediaQueriesResults)
  : MediaQueriesResults :=
  match getResults r with
  | Some l =>
      match findIndex func l with
      | Some i =>
          {| getResults := getResults r;
             getSelectedIndex := Some i;
             getResultsTimestamp := getResultsTimestamp r |}
      | None => r
      end
  | None => r
  end.

(** The [timeline] and [mediaViewer] entries of a [ViewContext]. *)
Record TimelineViewContext : Type := { window : option TimelineWindow }.
Record MediaViewerContext : Type := { seek : option Date }.
Record ViewContext : Type := {
  timeline : option TimelineViewContext;
  mediaViewer : option MediaViewerContext;
}.

(** The recursive merge of two optional entries, the right one winning. *)
Definition merge_with {A : Type} (f : A -> A -> A) (old new : option A) : option A :=
  match old, new with
  | Some a, Some b => Some (f a b)
  | None, Some b => Some b
  | o, None => o
  end.

Definition merge_leaf {A : Type} (old new : option A) : option A :=
  match new with
  | Some b => Some b
  | None => old
  end.

Definition mergeContext (old new : ViewContext) : ViewContext :=
  {| timeline :=
       merge_with (fun a b => {| window := merge_leaf (window a) (window b) |})
                  (timeline old) (timeline new);
     mediaViewer :=
       merge_with (fun a b => {| seek := merge_leaf (seek a) (seek b) |})
                  (mediaViewer old) (mediaViewer new) |}.

Inductive ClipsOrSnapshotsOrAll : Type := clips | snapshots | all.

(** The fields of [TimelineCoreConfig] the element reads. *)
Record TimelineCoreConfig : Type := {
  window_seconds : option Q;
  clustering_threshold : option Q;
  show_recordings : option bool;
  media : option ClipsOrSnapshotsOrAll;
}.

(** The [what] of a vis-timeline click. *)
Inductive WhatType : Type :=
| item_ | background | axis | group_label | custom_time | current_time.

#[global] Instance WhatType_eq_dec : EqDecision WhatType.
Proof. solve_decision. Defined.

(** [TimelineEventPropertiesResult] of vis-timeline, the fields read. *)
Record TimelineEventPropertiesResult : Type := {
  what : option WhatType;
  item : option IdType;
  group : option IdType;
  time : Date;
}.

(** The event of a range change: its [type] and hammer.js [additionalEvent]. *)
Record RangeChangeEvent : Type := {
  type : string;
  additionalEvent : option string;
}.

(** [TimelineRangeChange extends TimelineWindow]. *)
Record TimelineRangeChange : Type := {
  range : TimelineWindow;
  event : RangeChangeEvent;
  byUser : bool;
}.

(** The type of [_pointerHeld] when it is not null. *)
Record PointerHeld : Type := {
  held : TimelineEventPropertiesResult;
  held_window : option TimelineWindow;
}.

Definition TIMELINE_TARGET_BAR_ID : string := "target_bar".

(** The vis-timeline widget, by what the element reads and writes of it:
    its window, its selection and its custom time bars. *)
Record Timeline : Type := {
  getWindow : TimelineWindow;
  getSelection : list IdType;
  customTimes : gmap string Date;
}.

Definition setWindow (w : TimelineWindow) (t : Timeline) : Timeline :=
  {| getWindow := w; getSelection := getSelection t; customTimes := customTimes t |}.

Definition setSelection (ids : list IdType) (t : Timeline) : Timeline :=
  {| getWindow := getWindow t; getSelection := ids; customTimes := customTimes t |}.

Definition setCustomTime (time : Date) (id : string) (t : Timeline) : Timeline :=
  {| getWindow := getWindow t; getSelection := getSelection t;
     customTimes := <[id := time]> (customTimes t) |}.

Definition removeCustomTime (id : string) (t : Timeline) : Timeline :=
  {| getWindow := getWindow t; getSelection := getSelection t;
     customTimes := delete id (customTimes t) |}.

(** A [TimelineItem] as the data source builds it
    ([FrigateCardTimelineItem]): the vis-timeline fields and the media it
    was made from. *)
Record FrigateCardTimelineItem : Type := {
  item_id : IdType;
  item_type : option string;
  item_start : Z;
  item_end : option Z;
  item_media : option ViewMedia;
}.

(** [String(id)] *)
Definition IdType_to_string (i : IdType) : string :=
  match i with
  | IdString s => s
  | IdNumber n => pretty n
  end.

(** ** The element *)

Section TimelineCore.

(** Collaborators the element holds and hands on without looking into
    them, and the queries of the camera manager, which it compares with
    lodash's deep [isEqual]. *)
Context {ExtendedHomeAssistant CameraManager CameraConfig : Type}.
Context {TimelineDataSource : Type}.
Context {MediaQuery : Type} `{EqDecision MediaQuery}.

(** Modelled from the spec: the query of a view, [view/media-queries.ts],
    which is not among the sources: a list of camera manager queries (or
    none yet), of the event kind or of the recording kind. *)
Inductive MediaQueriesType : Type := EventQueries | RecordingQueries.

Record MediaQueries : Type := {
  queriesType : MediaQueriesType;
  getQueries : option (list MediaQuery);
}.

(** [new EventMediaQueries(queries)] *)
Definition EventMediaQueries (queries : list MediaQuery) : MediaQueries :=
  {| queriesType := EventQueries; getQueries := Some queries |}.

(** Modelled from the spec: [MediaQueriesClassifier.areRecordingQueries] of
    [view/media-queries-classifier.ts], which is not among the sources:
    whether "the View's query is a recordings-type query". *)
Definition areRecordingQueries (q : option MediaQueries) : bool :=
  match q with
  | Some q => match queriesType q with RecordingQueries => true | EventQueries => false end
  | None => false
  end.

(** Modelled from the spec: the [View] of [view/view.ts], which is not among
    the sources: "a query specification, a query-results collection and a
    free-form context mapping", under the name of the view. *)
Record View : Type := {
  view_name : string;
  query : option MediaQueries;
  queryResults : option MediaQueriesResults;
  context : option ViewContext;
}.

(** [view.is(name)] *)
Definition is_ (name : string) (v : View) : bool := String.eqb (view_name v) name.

(** [view.evolve({queryResults: r})] *)
Definition evolve_queryResults (r : MediaQueriesResults) (v : View) : View :=
  {| view_name := view_name v; query := query v;
     queryResults := Some r; context := context v |}.

(** [view.queryResults?.selectResultIfFound(func)], on the view that holds
    the results. *)
Definition select_in_view (func : ViewMedia -> bool) (v : View) : View :=
  {| view_name := view_name v; query := query v;
     queryResults := selectResultIfFound func <$> queryResults v;
     context := context v |}.

(** [view.mergeInContext(ctx)]: the context of the view becomes the merge of
    its context with [ctx]. *)
Definition mergeInContext (ctx : ViewContext) (v : View) : View :=
  {| view_name := view_name v; query := query v; queryResults := queryResults v;
     context := Some (match context v with
                      | Some old => mergeContext old ctx
                      | None => ctx
                      end) |}.

(** The options of [createViewForEvents] and [createViewForRecordings]. *)
Record EventsOptions : Type := {
  eo_query : MediaQueries;
  eo_targetView : option string;
  eo_mediaType : option ClipsOrSnapshotsOrAll;
}.

Record RecordingsOptions : Type := {
  ro_cameraIDs : option (gset string);
  ro_start : option Date;
  ro_end : option Date;
  ro_targetTime : Date;
}.

(** Functions of the repository and of its libraries that are called here
    and defined elsewhere. *)
Variable rangesOverlap : TimelineWindow -> TimelineWindow -> bool.
Variable isGroupableWith : ViewMedia -> ViewMedia -> bool.
Variable refresh :
  ExtendedHomeAssistant -> TimelineWindow -> TimelineDataSource -> TimelineDataSource.
Variable rewriteEvent : string -> TimelineDataSource -> TimelineDataSource.
Variable getCacheFriendlyEventWindow :
  TimelineDataSource -> TimelineWindow -> TimelineWindow.
Variable getTimelineEventQueries :
  TimelineDataSource -> TimelineWindow -> option (list MediaQuery).
Variable dataset_get : TimelineDataSource -> IdType -> option FrigateCardTimelineItem.
Variable areMediaQueriesResultsFresh : CameraManager -> list MediaQuery -> Date -> bool.
Variable createViewForEvents :
  ExtendedHomeAssistant -> CameraManager -> gmap string CameraConfig -> View ->
  EventsOptions -> option View.
Variable createViewForRecordings :
  ExtendedHomeAssistant -> CameraManager -> gmap string CameraConfig -> View ->
  RecordingsOptions -> option View.
Variable startOfHour endOfHour : Date -> Date.

(** [frigateCardConfigDefaults.timeline.window_seconds] *)
Variable default_window_seconds : Q.

(** The fields of [FrigateCardTimelineCore]. *)
Record FrigateCardTimelineCore : Type := {
  hass : option ExtendedHomeAssistant;
  view : option View;
  cameras : option (gmap string CameraConfig);
  timelineConfig : option TimelineCoreConfig;
  mini : bool;
  cameraIDs : option (gset string);
  cameraManager : option CameraManager;
  _locked : bool;
  _targetBarVisible : bool;
  _timeline : option Timeline;
  _timelineSource : option TimelineDataSource;
  _pointerHeld : option PointerHeld;
  _ignoreClick : bool;
}.

Definition set__targetBarVisible (b : bool) (this : FrigateCardTimelineCore) :=
  {| hass := hass this; view := view this; cameras := cameras this;
     timelineConfig := timelineConfig this; mini := mini this;
     cameraIDs := cameraIDs this; cameraManager := cameraManager this;
     _locked := _locked this; _targetBarVisible := b;
     _timeline := _timeline this; _timelineSource := _timelineSource this;
     _pointerHeld := _pointerHeld this; _ignoreClick := _ignoreClick this |}.

Definition set__timeline (t : option Timeline) (this : FrigateCardTimelineCore) :=
  {| hass := hass this; view := view this; cameras := cameras this;
     timelineConfig := timelineConfig this; mini := mini this;
     cameraIDs := cameraIDs this; cameraManager := cameraManager this;
     _locked := _locked this; _targetBarVisible := _targetBarVisible this;
     _timeline := t; _timelineSource := _timelineSource this;
     _pointerHeld := _pointerHeld this; _ignoreClick := _ignoreClick this |}.

Definition set__timelineSource (d : option TimelineDataSource)
    (this : FrigateCardTimelineCore) :=
  {| hass := hass this; view := view this; cameras := cameras this;
     timelineConfig := timelineConfig this; mini := mini this;
     cameraIDs := cameraIDs this; cameraManager := cameraManager this;
     _locked := _locked this; _targetBarVisible := _targetBarVisible this;
     _timeline := _timeline this; _timelineSource := d;
     _pointerHeld := _pointerHeld this; _ignoreClick := _ignoreClick this |}.

Definition set__pointerHeld (p : option PointerHeld) (this : FrigateCardTimelineCore) :=
  {| hass := hass this; view := view this; cameras := cameras this;
     timelineConfig := timelineConfig this; mini := mini this;
     cameraIDs := cameraIDs this; cameraManager := cameraManager this;
     _locked := _locked this; _targetBarVisible := _targetBarVisible this;
     _timeline := _timeline this; _timelineSource := _timelineSource this;
     _pointerHeld := p; _ignoreClick := _ignoreClick this |}.

Definition set__ignoreClick (b : bool) (this : FrigateCardTimelineCore) :=
  {| hass := hass this; view := view this; cameras := cameras this;
     timelineConfig := timelineConfig this; mini := mini this;
     cameraIDs := cameraIDs this; cameraManager := cameraManager this;
     _locked := _locked this; _targetBarVisible := _targetBarVisible this;
     _timeline := _timeline this; _timelineSource := _timelineSource this;
     _pointerHeld := _pointerHeld this; _ignoreClick := b |}.

(** What a handler does to its collaborators, other than the widget. *)
Inductive Effect : Type :=
| Refresh (hass_ : ExtendedHomeAssistant) (w : TimelineWindow)
| RewriteEvent (id : string)
| ViewChange (v : View)
| FrigateCardEvent (name : string)
| StopEventFromActivatingCardWideActions
| ThrottledSetViewDuringRangeChange (targetTime : Date) (properties : TimelineRangeChange).

Definition is_Refresh (e : Effect) : bool :=
  match e with Refresh _ _ => true | _ => false end.
Definition is_RewriteEvent (e : Effect) : bool :=
  match e with RewriteEvent _ => true | _ => false end.
Definition is_ViewChange (e : Effect) : bool :=
  match e with ViewChange _ => true | _ => false end.

(** A method that may change the element and issue effects. *)
Definition M (A : Type) : Type :=
  FrigateCardTimelineCore -> A * FrigateCardTimelineCore * list Effect.

Definition ret {A : Type} (a : A) : M A := fun this => (a, this, []).

Definition bind {A B : Type} (m : M A) (f : A -> M B) : M B :=
  fun this =>
    let '(a, this1, log1) := m this in
    let '(b, this2, log2) := f a this1 in
    (b, this2, log1 ++ log2).

Definition gets {A : Type} (f : FrigateCardTimelineCore -> A) : M A :=
  fun this => (f this, this, []).

Definition modify (f : FrigateCardTimelineCore -> FrigateCardTimelineCore) : M unit :=
  fun this => (tt, f this, []).

Definition emit (e : Effect) : M unit := fun this => (tt, this, [e]).

Definition when (b : bool) (m : M unit) : M unit := if b then m else ret tt.

Notation "'let*' x ':=' c1 'in' c2" := (bind c1 (fun x => c2))
  (at level 10, x name, c1 at level 100, c2 at level 200).
Notation "c1 ';;' c2" := (bind c1 (fun _ => c2))
  (at level 100, c2 at level 200, right associativity).

(** Calls on the data source and on the widget, each through the field
    that holds it ([this._timelineSource?.], [this._timeline?.]). *)
Definition source_refresh (hass_ : ExtendedHomeAssistant) (w : TimelineWindow) : M unit :=
  let* source := gets _timelineSource in
  match source with
  | Some d => modify (set__timelineSource (Some (refresh hass_ w d))) ;; emit (Refresh hass_ w)
  | None => ret tt
  end.

Definition source_rewriteEvent (id : string) : M unit :=
  let* source := gets _timelineSource in
  match source with
  | Some d => modify (set__timelineSource (Some (rewriteEvent id d))) ;; emit (RewriteEvent id)
  | None => ret tt
  end.

Definition on_timeline (f : Timeline -> Timeline) : M unit :=
  modify (fun this => set__timeline (f <$> _timeline this) this).

(** [view.dispatchChangeEvent(this)] *)
Definition dispatchChangeEvent (v : View) : M unit := emit (ViewChange v).

(** [_getAllCameraIDs] and [_getTimelineCameraIDs] *)
Definition _getAllCameraIDs (this : FrigateCardTimelineCore) : gset string :=
  match cameras this with
  | Some m => dom m
  | None => ∅
  end.

Definition _getTimelineCameraIDs (this : FrigateCardTimelineCore) : gset string :=
  match cameraIDs this with
  | Some ids => ids
  | None => _getAllCameraIDs this
  end.

(** [_getConfiguredWindowSeconds] *)
Definition _getConfiguredWindowSeconds (this : FrigateCardTimelineCore) : Q :=
  match timelineConfig this ≫= window_seconds with
  | Some s => s
  | None => default_window_seconds
  end.

(** [_getPerfectWindowFromMedia] *)
Definition _getPerfectWindowFromMedia (this : FrigateCardTimelineCore)
    (media_ : ViewMedia) : option TimelineWindow :=
  perfectWindowFromMedia (_getConfiguredWindowSeconds this) media_.

(** [_isClustering] *)
Definition _isClustering (this : FrigateCardTimelineCore) : bool :=
  match timelineConfig this with
  | Some config =>
      truthy_number (clustering_threshold config) &&
      match clustering_threshold config with
      | Some t => Qlt_bool 0 t
      | None => false
      end
  | None => false
  end.

(** The [clusterCriteria] of the options that [_getOptions] builds. *)
Definition clusterCriteria (this : FrigateCardTimelineCore)
    (first second : FrigateCardTimelineItem) : bool :=
  match cameras this with
  | None => false
  | Some _ =>
      let media_ := (view this ≫= queryResults) ≫= getSelectedResult in
      let selectedId := media_ ≫= getID in
      let firstMedia := item_media first in
      let secondMedia := item_media second in
      negb (bool_decide (item_type first = Some "background")) &&
      bool_decide (item_type first = item_type second) &&
      negb (mediaID_is selectedId (item_id first)) &&
      negb (mediaID_is selectedId (item_id second)) &&
      match firstMedia, secondMedia with
      | Some firstMedia, Some secondMedia =>
          ViewMediaClassifier.isEvent firstMedia &&
          ViewMediaClassifier.isEvent secondMedia &&
          isGroupableWith firstMedia secondMedia
      | _, _ => false
      end
  end.

(** [_removeTargetBar] *)
Definition _removeTargetBar : M unit :=
  let* visible := gets _targetBarVisible in
  if visible then
    on_timeline (removeCustomTime TIMELINE_TARGET_BAR_ID) ;;
    modify (set__targetBarVisible false)
  else ret tt.

(** [_setTargetBarAppropriately] *)
Definition _setTargetBarAppropriately (targetTime : Date) : M unit :=
  let* this := gets id in
  match _timeline this with
  | None => ret tt
  | Some timeline_ =>
      let targetBarOn :=
        negb (_locked this) ||
        (mini this &&
         existsb (fun id_ =>
                    match _timelineSource this ≫= (fun d => dataset_get d id_) with
                    | Some it =>
                        negb (item_start it =? 0) &&
                        match item_end it with
                        | Some e =>
                            negb (e =? 0) &&
                            (item_start it <=? targetTime) && (targetTime <=? e)
                        | None => false
                        end
                    | None => false
                    end)
                 (getSelection timeline_)) in
      if targetBarOn then
        (* [addCustomTime] when the bar is not shown yet, [setCustomTime]
           when it is: either way the bar is then at [targetTime]. *)
        on_timeline (setCustomTime targetTime TIMELINE_TARGET_BAR_ID) ;;
        modify (set__targetBarVisible true)
      else _removeTargetBar
  end.

(** The [targetTime] that [_timelineRangeChangeHandler] computes. *)
Definition rangeChangeTargetTime (this : FrigateCardTimelineCore)
    (properties : TimelineRangeChange) : Date :=
  match _pointerHeld this ≫= (fun p => (fun w => (p, w)) <$> held_window p) with
  | Some (p, w) =>
      add (start (range properties))
          {| seconds := inject_Z (time (held p) - start w) / 1000 |}
  | None => end_ (range properties)
  end.

(** Whether a range change passes the filter of [_timelineRangeChangeHandler]:
    made by the user, and neither a wheel nor a pinch zoom. *)
Definition rangeChangeIsPan (properties : TimelineRangeChange) : bool :=
  byUser properties &&
  negb (String.eqb (type (event properties)) "wheel") &&
  negb (bool_decide (additionalEvent (event properties) = Some "pinchin")) &&
  negb (bool_decide (additionalEvent (event properties) = Some "pinchout")).

(** [_timelineRangeChangeHandler]. The call through the throttle is
    recorded as an effect. *)
Definition _timelineRangeChangeHandler (properties : TimelineRangeChange) : M unit :=
  let* pointerHeld := gets _pointerHeld in
  when (bool_decide (is_Some pointerHeld)) (modify (set__ignoreClick true)) ;;
  let* this := gets id in
  if bool_decide (is_Some (_timeline this)) && rangeChangeIsPan properties then
    let targetTime := rangeChangeTargetTime this properties in
    when (bool_decide (is_Some (_pointerHeld this)))
         (_setTargetBarAppropriately targetTime) ;;
    emit (ThrottledSetViewDuringRangeChange targetTime properties)
  else ret tt.

(** [_createEventMediaQuerys] *)
Definition _createEventMediaQuerys (this : FrigateCardTimelineCore)
    (window_ : option TimelineWindow) : option MediaQueries :=
  match _timeline this, _timelineSource this with
  | Some timeline_, Some source =>
      let cacheFriendlyWindow :=
        getCacheFriendlyEventWindow source (default (getWindow timeline_) window_) in
      EventMediaQueries <$> getTimelineEventQueries source cacheFriendlyWindow
  | _, _ => None
  end.

(** [_createViewWithEventMediaQuery]: [targetView] and [selectedItem] are
    the two options. It awaits [createViewForEvents] and changes nothing
    of the element. *)
Definition _createViewWithEventMediaQuery (this : FrigateCardTimelineCore)
    (query_ : option MediaQueries) (targetView : option string)
    (selectedItem : option IdType) : option View :=
  match hass this, cameraManager this, cameras this, view this, query_ with
  | Some hass_, Some cameraManager_, Some cameras_, Some view_, Some query_ =>
      match createViewForEvents hass_ cameraManager_ cameras_ view_
              {| eo_query := query_;
                 eo_targetView := targetView;
                 eo_mediaType := timelineConfig this ≫= media |} with
      | None => None
      | Some newView =>
          match selectedItem ≫= (fun i => if IdType_truthy i then Some i else None) with
          | Some selected =>
              Some (select_in_view
                      (fun m => bool_decide (is_Some (cameras this)) &&
                                mediaID_is (getID m) selected)
                      newView)
          | None =>
              (* If not asked to select a new item, persist the currently
                 selected item if possible. *)
              match queryResults view_ ≫= getSelectedResult with
              | Some currentlySelectedResult =>
                  Some (select_in_view
                          (fun m => bool_decide (getID m = getID currentlySelectedResult))
                          newView)
              | None => Some newView
              end
          end
      end
  | _, _, _, _, _ => None
  end.

(** [_alreadyHasAcceptableMediaQuery] *)
Definition _alreadyHasAcceptableMediaQuery (this : FrigateCardTimelineCore)
    (freshMediaQuery : MediaQueries) : bool :=
  let currentQueries := (view this ≫= query) ≫= getQueries in
  let currentResultTimestamp := (view this ≫= queryResults) ≫= getResultsTimestamp in
  match cameraManager this, currentQueries, currentResultTimestamp with
  | Some cameraManager_, Some currentQueries, Some currentResultTimestamp =>
      bool_decide (Some currentQueries = getQueries freshMediaQuery) &&
      areMediaQueriesResultsFresh cameraManager_ currentQueries currentResultTimestamp
  | _, _, _ => false
  end.

(** [_setWindowInContext] *)
Definition _setWindowInContext (this : FrigateCardTimelineCore)
    (window_ : option TimelineWindow) : ViewContext :=
  let newWindow :=
    match window_ with
    | Some w => Some w
    | None => getWindow <$> _timeline this
    end in
  let old := ((view this ≫= context) ≫= timeline) ≫= window in
  {| timeline := Some {| window := merge_leaf old newWindow |};
     mediaViewer := None |}.

(** [_updateTimelineFromView], after its guard and up to the widget's
    window: the window to show is computed, the data is fetched, and the
    selection and the window of the widget are set. The window to show is
    returned. *)
Definition _updateTimelineFromView_widget (hass_ : ExtendedHomeAssistant)
    (view_ : View) (timeline_ : Timeline) : M TimelineWindow :=
  let* this := gets id in
  let timelineWindow := getWindow timeline_ in
  let media_ := queryResults view_ ≫= getSelectedResult in
  let mediaStartTime := media_ ≫= getStartTime in
  let mediaEndTime := media_ ≫= getEndTime in
  let mediaWindow :=
    match media_, mediaStartTime, mediaEndTime with
    | Some _, Some s, Some e => Some {| start := s; end_ := e |}
    | _, _, _ => None
    end in
  let context_ := context view_ ≫= timeline in
  let desiredWindow :=
    match context_ ≫= window with
    | Some w => w
    | None =>
        match media_, mediaWindow with
        | Some m, Some mediaWindow =>
            if negb (rangesOverlap mediaWindow timelineWindow) then
              default timelineWindow (_getPerfectWindowFromMedia this m)
            else timelineWindow
        | _, _ => timelineWindow
        end
    end in
  let prefetchedWindow := _getPrefetchWindow desiredWindow in
  let* pointerHeld := gets _pointerHeld in
  when (negb (bool_decide (is_Some pointerHeld)))
       (source_refresh hass_ prefetchedWindow) ;;
  let mediaID := media_ ≫= getID in
  let* pointerHeld := gets _pointerHeld in
  let* clustering := gets _isClustering in
  match media_, mediaID with
  | Some _, Some mediaID =>
      when (negb (bool_decide (is_Some pointerHeld)) &&
            negb (String.eqb mediaID "") && clustering)
           (source_rewriteEvent mediaID)
  | _, _ => ret tt
  end ;;
  let desiredId :=
    match media_ with
    | Some m => if ViewMediaClassifier.isEvent m then getID m else None
    | None => None
    end in
  match desiredId with
  | Some desiredId =>
      when (negb (String.eqb desiredId ""))
           (on_timeline (setSelection [IdString desiredId]))
  | None => ret tt
  end ;;
  let* pointerHeld := gets _pointerHeld in
  when (negb (bool_decide (is_Some pointerHeld)) &&
        negb (bool_decide (desiredWindow = timelineWindow)))
       (on_timeline (setWindow desiredWindow)) ;;
  ret desiredWindow.

(** [_updateTimelineFromView], its end: whether to query for the events of
    the window and dispatch a view with them. *)
Definition _updateTimelineFromView_query (view_ : View)
    (desiredWindow : TimelineWindow) : M unit :=
  let* this := gets id in
  let freshMediaQuery := _createEventMediaQuerys this (Some desiredWindow) in
  match freshMediaQuery with
  | Some freshMediaQuery =>
      if negb (mini this) &&
         negb (areRecordingQueries (query view_)) &&
         negb (_alreadyHasAcceptableMediaQuery this freshMediaQuery)
      then
        match _createViewWithEventMediaQuery this (Some freshMediaQuery) None None with
        | Some newView =>
            dispatchChangeEvent
              (mergeInContext (_setWindowInContext this (Some desiredWindow)) newView)
        | None => ret tt
        end
      else ret tt
  | None => ret tt
  end.

(** [_updateTimelineFromView] *)
Definition _updateTimelineFromView : M unit :=
  let* this := gets id in
  match hass this, cameras this, view this,
        timelineConfig this, _timelineSource this, _timeline this with
  | Some hass_, Some _, Some view_, Some _, Some _, Some timeline_ =>
      let* desiredWindow := _updateTimelineFromView_widget hass_ view_ timeline_ in
      _updateTimelineFromView_query view_ desiredWindow
  | _, _, _, _, _, _ => ret tt
  end.

(** [_timelineClickHandler] *)
Definition _timelineClickHandler (properties : TimelineEventPropertiesResult) : M unit :=
  let* this := gets id in
  when (_ignoreClick this ||
        match what properties with
        | Some w => bool_decide (w ∈ [item_; background; group_label; axis])
        | None => false
        end)
       (emit StopEventFromActivatingCardWideActions) ;;
  match (if _ignoreClick this then None else Some tt),
        hass this, _timeline this, cameras this,
        view this, cameraManager this, what properties with
  | Some _, Some hass_, Some timeline_, Some cameras_,
    Some view_, Some cameraManager_, Some what_ =>
      let show_recordings_ := truthy_bool (timelineConfig this ≫= show_recordings) in
      let newView : option View :=
        if show_recordings_ && bool_decide (what_ ∈ [background; group_label]) then
          createViewForRecordings hass_ cameraManager_ cameras_ view_
            {| ro_cameraIDs :=
                 match group properties with
                 | Some g =>
                     if IdType_truthy g then Some {[ IdType_to_string g ]} else None
                 | None => None
                 end;
               ro_start := None;
               ro_end := None;
               ro_targetTime :=
                 if bool_decide (what_ = background) then time properties
                 else end_ (getWindow timeline_) |}
        else if show_recordings_ && bool_decide (what_ = axis) then
          createViewForRecordings hass_ cameraManager_ cameras_ view_
            {| ro_cameraIDs := Some (_getAllCameraIDs this);
               ro_start := Some (startOfHour (time properties));
               ro_end := Some (endOfHour (time properties));
               ro_targetTime := time properties |}
        else
          match item properties with
          | Some clicked =>
              if IdType_truthy clicked && bool_decide (what_ = item_) then
                let newResults :=
                  (fun r =>
                     selectResultIfFound
                       (fun m => bool_decide (is_Some (cameras this)) &&
                                 mediaID_is (getID m) clicked)
                       (resetSelectedResult r)) <$> queryResults view_ in
                let fullEventView :=
                  match _createViewWithEventMediaQuery this
                          (_createEventMediaQuerys this None)
                          (Some "media") (Some clicked) with
                  | Some v =>
                      if default false (hasResults <$> queryResults v)
                      then Some v else None
                  | None => None
                  end in
                let selectedView :=
                  match newResults with
                  | Some r =>
                      if hasSelectedResult r then Some (evolve_queryResults r view_)
                      else fullEventView
                  | None => fullEventView
                  end in
                match selectedView with
                | Some v =>
                    if default false (hasResults <$> queryResults v) then
                      Some (mergeInContext
                              {| timeline := None;
                                 mediaViewer := Some {| seek := Some (time properties) |} |}
                              v)
                    else Some v
                | None => None
                end
              else None
          | None => None
          end in
      match newView with
      | Some v =>
          dispatchChangeEvent v ;;
          when (is_ "timeline" view_) (emit (FrigateCardEvent "thumbnails:open"))
      | None =>
          when (is_ "timeline" view_) (emit (FrigateCardEvent "thumbnails:close"))
      end ;;
      modify (set__ignoreClick false)
  | _, _, _, _, _, _, _ => ret tt
  end.

(** The [mouseDown] and [mouseUp] listeners that [updated] installs. *)
Definition mouseDown (ev : TimelineEventPropertiesResult) : M unit :=
  let* window_ := gets (fun this => getWindow <$> _timeline this) in
  modify (set__pointerHeld (Some {| held := ev; held_window := window_ |})) ;;
  modify (set__ignoreClick false).

Definition mouseUp : M unit :=
  modify (set__pointerHeld None) ;;
  _removeTargetBar.

(** The interpolation of the pointer's time by ratio: [t] lies in the window
    [new] at the fraction at which [anchorTime] lay in the window [old]. *)
Definition interpolates (old : TimelineWindow) (anchorTime : Date)
    (new : TimelineWindow) (t : Date) : Prop :=
  (inject_Z t == inject_Z (start new) +
     (inject_Z (anchorTime - start old) / inject_Z (len old)) * inject_Z (len new))%Q.

(** The element and the effects after a run of a method. *)
Definition state_after {A : Type} (m : M A) (this : FrigateCardTimelineCore)
  : FrigateCardTimelineCore := (m this).1.2.

Definition effects_of {A : Type} (m : M A) (this : FrigateCardTimelineCore)
  : list Effect := (m this).2.

Definition value_of {A : Type} (m : M A) (this : FrigateCardTimelineCore)
  : A := (m this).1.1.

(** The [freshMediaQuery] of a run of [_updateTimelineFromView]: the event
    query it builds for the window to show, once it has set the widget; no
    query when the run stops at the guard. *)
Definition freshMediaQueryOf (this : FrigateCardTimelineCore) : option MediaQueries :=
  match hass this, cameras this, view this,
        timelineConfig this, _timelineSource this, _timeline this with
  | Some hass_, Some _, Some view_, Some _, Some _, Some timeline_ =>
      let '(desiredWindow, this1, _) :=
        _updateTimelineFromView_widget hass_ view_ timeline_ this in
      _createEventMediaQuerys this1 (Some desiredWindow)
  | _, _, _, _, _, _ => None
  end.

(** The fields of the element other than the widget and the data source. *)
Definition frame (this this' : FrigateCardTimelineCore) : Prop :=
  hass this' = hass this /\ view this' = view this /\
  cameras this' = cameras this /\ timelineConfig this' = timelineConfig this /\
  mini this' = mini this /\ cameraIDs this' = cameraIDs this /\
  cameraManager this' = cameraManager this /\ _locked this' = _locked this /\
  _targetBarVisible this' = _targetBarVisible this /\
  _pointerHeld this' = _pointerHeld this /\ _ignoreClick this' = _ignoreClick this.

(** A method that leaves those fields alone and dispatches no view. *)
Definition quiet {A : Type} (m : M A) : Prop :=
  forall this,
    frame this (state_after m this) /\
    Forall (fun e => is_ViewChange e = false) (effects_of m this).

(** ** Facts about date-fns *)

Lemma toInteger_quot (n : Z) (d : positive) :
  toInteger (n # d) = Z.quot n (Z.pos d).
Proof.
  unfold toInteger, Qlt_bool, Qle_bool, Qceiling, Qfloor. cbn.
  rewrite Z.mul_1_r.
  replace (0 * Z.pos d) with 0 by lia.
  destruct (Z.leb_spec 0 n) as [Hn | Hn]; cbn.
  - symmetry. apply Z.quot_div_nonneg; lia.
  - rewrite <- (Z.quot_div_nonneg (- n) (Z.pos d)) by lia.
    rewrite Z.quot_opp_l by lia. lia.
Qed.

Lemma toInteger_inject_Z (z : Z) : toInteger (inject_Z z) = z.
Proof. unfold inject_Z. rewrite toInteger_quot. apply Z.quot_1_r. Qed.

Lemma differenceInSeconds_quot (l r : Date) :
  differenceInSeconds l r = Z.quot (l - r) 1000.
Proof.
  unfold differenceInSeconds, differenceInMilliseconds, Qdiv, Qmult, Qinv, inject_Z.
  cbn. rewrite toInteger_quot. f_equal; lia.
Qed.

Lemma Qlt_bool_iff (x y : Q) : Qlt_bool x y = true <-> (x < y)%Q.
Proof.
  unfold Qlt_bool. rewrite negb_true_iff, <- not_true_iff_false, Qle_bool_iff.
  split; [apply Qnot_le_lt | apply Qlt_not_le].
Qed.

Lemma Qlt_bool_comp (x x' y y' : Q) :
  (x == x')%Q -> (y == y')%Q -> Qlt_bool x y = Qlt_bool x' y'.
Proof.
  intros Hx Hy. apply eq_true_iff_eq. rewrite !Qlt_bool_iff, Hx, Hy. reflexivity.
Qed.

Lemma toInteger_comp (x y : Q) : (x == y)%Q -> toInteger x = toInteger y.
Proof.
  intros Hxy. unfold toInteger.
  rewrite (Qlt_bool_comp x y 0 0 Hxy (Qeq_refl 0)).
  destruct (Qlt_bool y 0); [unfold Qceiling|]; rewrite Hxy; reflexivity.
Qed.

(** Adding and subtracting a whole number of seconds. *)
Lemma add_whole (d : Date) (q : Q) (z : Z) :
  (q == inject_Z z)%Q -> add d {| seconds := q |} = d + z * 1000.
Proof.
  intros Hq. unfold add. cbn. rewrite (toInteger_comp _ _ Hq), toInteger_inject_Z.
  reflexivity.
Qed.

Lemma sub_whole (d : Date) (q : Q) (z : Z) :
  (q == inject_Z z)%Q -> sub d {| seconds := q |} = d - z * 1000.
Proof.
  intros Hq. unfold sub. cbn. rewrite (toInteger_comp _ _ Hq), toInteger_inject_Z.
  reflexivity.
Qed.

(** Half the gap between a window of [S] seconds and a span of [D]
    milliseconds, as a number of whole seconds. *)
Lemma toInteger_half_gap (windowSeconds : Q) (S D : Z) :
  (windowSeconds == inject_Z S)%Q ->
  toInteger ((windowSeconds - inject_Z D / 1000) / 2) = Z.quot (S * 1000 - D) 2000.
Proof.
  intros HS.
  rewrite (toInteger_comp _ ((S * 1000 - D) # 2000)).
  - apply toInteger_quot.
  - rewrite HS. unfold Qeq, Qdiv, Qminus, Qplus, Qmult, Qinv, Qopp, inject_Z. cbn. lia.
Qed.

Lemma findIndex_Some {A : Type} (func : A -> bool) (l : list A) (i : nat) :
  findIndex func l = Some i -> exists x, l !! i = Some x /\ func x = true.
Proof.
  revert i. induction l as [|a l IH]; intros i; cbn; [discriminate|].
  destruct (func a) eqn:Ha.
  - intros [= <-]. exists a. split; [reflexivity | assumption].
  - destruct (findIndex func l) as [j|]; cbn; [|discriminate].
    intros [= <-]. cbn. apply IH. reflexivity.
Qed.

Lemma findIndex_None {A : Type} (func : A -> bool) (l : list A) :
  findIndex func l = None -> forall x, x ∈ l -> func x = false.
Proof.
  induction l as [|a l IH]; cbn; intros Hnone x Hx.
  - inversion Hx.
  - destruct (func a) eqn:Ha; [discriminate|].
    destruct (findIndex func l) eqn:Hl; [discriminate|].
    apply elem_of_cons in Hx as [-> | Hx]; [assumption | apply IH; auto].
Qed.

(** ** The prefetch window *)

Lemma prefetch_start_end (w : TimelineWindow) :
  _getPrefetchWindow w =
  {| start := start w - Z.quot (len w) 1000 * 1000;
     end_ := end_ w + Z.quot (len w) 1000 * 1000 |}.
Proof.
  unfold _getPrefetchWindow, len.
  rewrite (sub_whole _ _ _ (Qeq_refl _)), (add_whole _ _ _ (Qeq_refl _)).
  rewrite differenceInSeconds_quot. reflexivity.
Qed.

(** C4, as the claim states it, fails: the window from 0 ms to 1500 ms is
    widened by one second on each side, not by its length of 1500 ms. *)
Lemma prefetch_window_not_three_lengths :
  let w := {| start := 0; end_ := 1500 |} in
  start w <= end_ w /\
  _getPrefetchWindow w = {| start := -1000; end_ := 2500 |} /\
  _getPrefetchWindow w <> {| start := start w - len w; end_ := end_ w + len w |} /\
  len (_getPrefetchWindow w) <> 3 * len w.
Proof. cbn. repeat split; try lia; try discriminate. Qed.

(** C4, amended: for every window [w] with [start <= end],
    [_getPrefetchWindow w] is [w] widened on each side by the whole seconds
    of its length (the length in milliseconds over 1000, rounded down). The
    result is centred on [w]; its length is at most three times the length
    of [w] and falls short of that by less than two seconds; and when the
    length of [w] is a whole number of seconds, the result is
    [{start - len w, end + len w}], of length exactly [3 * len w]. The
    function is a pure function of the window. *)
Theorem prefetch_window_whole_seconds (w : TimelineWindow) :
  start w <= end_ w ->
  let p := _getPrefetchWindow w in
  let delta := len w / 1000 in
  p = {| start := start w - delta * 1000; end_ := end_ w + delta * 1000 |} /\
  start w - start p = end_ p - end_ w /\
  3 * len w - 2000 < len p <= 3 * len w /\
  (len w mod 1000 = 0 ->
   p = {| start := start w - len w; end_ := end_ w + len w |} /\
   len p = 3 * len w).
Proof.
  intros Hle p delta. subst p delta.
  assert (Hlen : 0 <= len w) by (unfold len; lia).
  rewrite prefetch_start_end.
  rewrite (Z.quot_div_nonneg (len w) 1000) by lia.
  pose proof (Z.div_mod (len w) 1000 ltac:(lia)) as Hdm.
  pose proof (Z.mod_pos_bound (len w) 1000 ltac:(lia)) as Hm.
  unfold len in *. cbn.
  split; [reflexivity|]. split; [lia|]. split; [lia|].
  intros H0. split; [f_equal; lia | lia].
Qed.

Lemma prefetch_window_whole_seconds_witness :
  let w := {| start := 0; end_ := 1500 |} in
  _getPrefetchWindow w = {| start := -1000; end_ := 2500 |}.
Proof.
  intros w.
  destruct (prefetch_window_whole_seconds w ltac:(cbn; lia)) as [Hp _].
  exact Hp.
Defined.

(** ** The perfect window of a media item *)

Lemma Qlt_bool_window (windowSeconds : Q) (S D : Z) :
  (windowSeconds == inject_Z S)%Q ->
  Qlt_bool (windowSeconds * 1000) (inject_Z D) = (S * 1000 <? D).
Proof.
  intros HS. apply eq_true_iff_eq.
  rewrite Qlt_bool_iff, Z.ltb_lt, HS.
  unfold Qlt, Qmult, inject_Z. cbn. lia.
Qed.

(** C5, amended: for an event media item with known start and end times, of
    duration [D] milliseconds, and a configured window of [S] whole seconds:
    if [D] exceeds [S] seconds the window returned has length exactly [S]
    seconds and ends at the end of the event; otherwise the event is centred
    in the window returned, with the same padding before its start and
    after its end, which is half of what [S] seconds exceed [D] by, rounded
    down to whole seconds. The length of that window is at most [S] seconds
    and falls short of them by less than two seconds; it is exactly [S]
    seconds when [S] seconds exceed [D] by an even number of seconds. *)
Theorem perfect_window_of_event (this : FrigateCardTimelineCore) (m : ViewMedia)
    (s e : Date) (S : Z) :
  ViewMediaClassifier.isEvent m = true ->
  getStartTime m = Some s ->
  getEndTime m = Some e ->
  (_getConfiguredWindowSeconds this == inject_Z S)%Q ->
  (S * 1000 < e - s ->
   _getPerfectWindowFromMedia this m =
     Some {| start := e - S * 1000; end_ := e |}) /\
  (e - s <= S * 1000 ->
   let pad := (S * 1000 - (e - s)) / 2000 in
   exists w,
     _getPerfectWindowFromMedia this m = Some w /\
     w = {| start := s - pad * 1000; end_ := e + pad * 1000 |} /\
     s - start w = end_ w - e /\
     S * 1000 - 2000 < len w <= S * 1000 /\
     ((S * 1000 - (e - s)) mod 2000 = 0 -> len w = S * 1000)).
Proof.
  intros Hev Hs He HS.
  unfold _getPerfectWindowFromMedia, perfectWindowFromMedia.
  rewrite Hev, Hs, He, (Qlt_bool_window _ S (e - s) HS).
  split.
  - intros Hlt. apply Z.ltb_lt in Hlt. rewrite Hlt.
    rewrite (sub_whole _ _ _ HS). reflexivity.
  - intros Hle. cbv zeta.
    assert (Hnlt : (S * 1000 <? e - s) = false) by (apply Z.ltb_ge; lia).
    rewrite Hnlt. unfold sub, add. cbn.
    rewrite (toInteger_half_gap _ S (e - s) HS).
    rewrite (Z.quot_div_nonneg (S * 1000 - (e - s)) 2000) by lia.
    pose proof (Z.div_mod (S * 1000 - (e - s)) 2000 ltac:(lia)) as Hdm.
    pose proof (Z.mod_pos_bound (S * 1000 - (e - s)) 2000 ltac:(lia)) as Hm.
    set (pad := (S * 1000 - (e - s)) / 2000) in *.
    eexists. split; [reflexivity|]. split; [reflexivity|].
    unfold len. cbn. split; [lia|]. split; [lia|]. intros H0. lia.
Qed.

(** C6: for a recording media item with known start and end times,
    [_getPerfectWindowFromMedia] returns exactly its [{start, end}],
    whatever the configured window length. *)
Theorem perfect_window_of_recording (this : FrigateCardTimelineCore) (m : ViewMedia)
    (s e : Date) :
  ViewMediaClassifier.isRecording m = true ->
  getStartTime m = Some s ->
  getEndTime m = Some e ->
  _getPerfectWindowFromMedia this m = Some {| start := s; end_ := e |}.
Proof.
  intros Hrec Hs He.
  unfold _getPerfectWindowFromMedia, perfectWindowFromMedia.
  unfold ViewMediaClassifier.isRecording, ViewMediaClassifier.isEvent in *.
  apply bool_decide_eq_true in Hrec.
  rewrite Hrec, Hs, He. reflexivity.
Qed.

(** ** The clustering policy *)

Lemma isRecording_not_isEvent (m : ViewMedia) :
  ViewMediaClassifier.isRecording m = true -> ViewMediaClassifier.isEvent m = false.
Proof.
  unfold ViewMediaClassifier.isRecording, ViewMediaClassifier.isEvent.
  intros Hrec. apply bool_decide_eq_true in Hrec. rewrite Hrec. reflexivity.
Qed.

Lemma mediaID_is_same (x : string) : mediaID_is (Some x) (IdString x) = true.
Proof. cbn. apply String.eqb_refl. Qed.

(** C7: [clusterCriteria] is false for a pair of items when the id of
    either is the id of the currently selected media item, whatever their
    types and whatever [isGroupableWith] says of their media; and it is
    false when the media of either item is a recording. *)
Theorem cluster_excludes_selected_and_recordings (this : FrigateCardTimelineCore)
    (first second : FrigateCardTimelineItem) :
  (exists selected x,
      (view this ≫= queryResults) ≫= getSelectedResult = Some selected /\
      getID selected = Some x /\
      (item_id first = IdString x \/ item_id second = IdString x)) \/
  (exists m,
      (item_media first = Some m \/ item_media second = Some m) /\
      ViewMediaClassifier.isRecording m = true) ->
  clusterCriteria this first second = false.
Proof.
  intros Hcase. unfold clusterCriteria.
  destruct (cameras this) as [cams|]; [|reflexivity].
  destruct Hcase as [(selected & x & Hsel & Hid & Hfs) | (m & Hm & Hrec)].
  - rewrite Hsel. cbn. rewrite Hid.
    destruct Hfs as [-> | ->]; rewrite mediaID_is_same; cbn;
      rewrite ?andb_false_r; reflexivity.
  - apply isRecording_not_isEvent in Hrec.
    destruct Hm as [Hm | Hm]; rewrite Hm.
    + destruct (item_media second); rewrite ?Hrec, ?andb_false_r; reflexivity.
    + destruct (item_media first); rewrite ?Hrec, ?andb_false_r; reflexivity.
Qed.

(** C9: without a camera map, [clusterCriteria] is false for every pair of
    items. *)
Theorem cluster_needs_cameras (this : FrigateCardTimelineCore)
    (first second : FrigateCardTimelineItem) :
  cameras this = None ->
  clusterCriteria this first second = false.
Proof. intros Hnone. unfold clusterCriteria. rewrite Hnone. reflexivity. Qed.

(** ** Runs of methods *)

Lemma frame_refl (this : FrigateCardTimelineCore) : frame this this.
Proof. unfold frame. repeat split. Qed.

Lemma frame_trans (a b c : FrigateCardTimelineCore) :
  frame a b -> frame b c -> frame a c.
Proof. unfold frame. intros Hab Hbc. intuition congruence. Qed.

Lemma quiet_ret {A : Type} (a : A) : quiet (ret a).
Proof. intros this. split; [apply frame_refl | constructor]. Qed.

Lemma quiet_gets {A : Type} (f : FrigateCardTimelineCore -> A) : quiet (gets f).
Proof. intros this. split; [apply frame_refl | constructor]. Qed.

Lemma quiet_bind {A B : Type} (m : M A) (f : A -> M B) :
  quiet m -> (forall a, quiet (f a)) -> quiet (bind m f).
Proof.
  intros Hm Hf this. unfold state_after, effects_of, bind.
  specialize (Hm this). unfold state_after, effects_of in Hm.
  destruct (m this) as [[a this1] log1]. cbn in Hm.
  specialize (Hf a this1). unfold state_after, effects_of in Hf.
  destruct (f a this1) as [[b this2] log2]. cbn in *.
  destruct Hm as [Hm1 Hm2], Hf as [Hf1 Hf2].
  split; [eapply frame_trans; eassumption | apply Forall_app; split; assumption].
Qed.

Lemma quiet_when (b : bool) (m : M unit) : quiet m -> quiet (when b m).
Proof. destruct b; cbn; [trivial | intros _; apply quiet_ret]. Qed.

Lemma quiet_source_refresh (hass_ : ExtendedHomeAssistant) (w : TimelineWindow) :
  quiet (source_refresh hass_ w).
Proof.
  intros this. unfold source_refresh, state_after, effects_of, bind, gets, modify, emit.
  destruct (_timelineSource this); cbn;
    (split; [unfold frame; cbn; repeat split | repeat constructor]).
Qed.

Lemma quiet_source_rewriteEvent (id_ : string) : quiet (source_rewriteEvent id_).
Proof.
  intros this. unfold source_rewriteEvent, state_after, effects_of, bind, gets, modify, emit.
  destruct (_timelineSource this); cbn;
    (split; [unfold frame; cbn; repeat split | repeat constructor]).
Qed.

Lemma quiet_on_timeline (f : Timeline -> Timeline) : quiet (on_timeline f).
Proof.
  intros this. unfold on_timeline, state_after, effects_of, modify. cbn.
  split; [unfold frame; cbn; repeat split | constructor].
Qed.

Ltac quiet_step :=
  first
    [ apply quiet_ret | apply quiet_gets | apply quiet_source_refresh
    | apply quiet_source_rewriteEvent | apply quiet_on_timeline
    | apply quiet_when | apply quiet_bind; [| intros ?] ].

Lemma quiet_widget (hass_ : ExtendedHomeAssistant) (view_ : View) (timeline_ : Timeline) :
  quiet (_updateTimelineFromView_widget hass_ view_ timeline_).
Proof.
  unfold _updateTimelineFromView_widget.
  repeat first [ quiet_step | case_match ].
Qed.

Lemma acceptable_when_equal_and_fresh (this : FrigateCardTimelineCore)
    (fresh : MediaQueries) (cm : CameraManager) (currentQueries : list MediaQuery)
    (ts : Date) :
  (view this ≫= query) ≫= getQueries = Some currentQueries ->
  Some currentQueries = getQueries fresh ->
  cameraManager this = Some cm ->
  (view this ≫= queryResults) ≫= getResultsTimestamp = Some ts ->
  areMediaQueriesResultsFresh cm currentQueries ts = true ->
  _alreadyHasAcceptableMediaQuery this fresh = true.
Proof.
  intros Hq Heq Hcm Hts Hfresh. unfold _alreadyHasAcceptableMediaQuery.
  rewrite Hcm, Hq, Hts, Hfresh, andb_true_r.
  apply bool_decide_eq_true. exact Heq.
Qed.

(** ** The synchronisation cycle and the view it dispatches *)

(** C3: a run of [_updateTimelineFromView] dispatches no view change when
    the element is in mini mode, or the query of the view is a recordings
    query, or no event query can be built, or the event query freshly built
    has the queries of the view's query (deep equality) and the camera
    manager finds the results of the view, at their timestamp, fresh. *)
Theorem no_view_change_when_query_acceptable (this : FrigateCardTimelineCore) :
  mini this = true \/
  areRecordingQueries (view this ≫= query) = true \/
  freshMediaQueryOf this = None \/
  (exists fresh cm currentQueries ts,
      freshMediaQueryOf this = Some fresh /\
      (view this ≫= query) ≫= getQueries = Some currentQueries /\
      Some currentQueries = getQueries fresh /\
      cameraManager this = Some cm /\
      (view this ≫= queryResults) ≫= getResultsTimestamp = Some ts /\
      areMediaQueriesResultsFresh cm currentQueries ts = true) ->
  Forall (fun e => is_ViewChange e = false) (effects_of _updateTimelineFromView this).
Proof.
  intros Hcase.
  unfold effects_of, _updateTimelineFromView, freshMediaQueryOf in *.
  unfold bind at 1, gets at 1. cbn.
  destruct (hass this) as [hass_|]; [|constructor].
  destruct (cameras this) as [cameras_|]; [|constructor].
  destruct (view this) as [view_|] eqn:Hview; [|constructor].
  destruct (timelineConfig this) as [config|]; [|constructor].
  destruct (_timelineSource this) as [source|]; [|constructor].
  destruct (_timeline this) as [timeline_|]; [|constructor].
  unfold bind.
  destruct (quiet_widget hass_ view_ timeline_ this) as [Hframe Hlog].
  unfold state_after, effects_of in Hframe, Hlog.
  destruct (_updateTimelineFromView_widget hass_ view_ timeline_ this)
    as [[desiredWindow this1] log1].
  cbn in Hframe, Hlog, Hcase.
  destruct Hframe as (_ & Hview1 & _ & _ & Hmini1 & _ & Hcm1 & _).
  assert (Hquiet :
    _updateTimelineFromView_query view_ desiredWindow this1 = (tt, this1, [])).
  { unfold _updateTimelineFromView_query, bind, gets. cbn.
    destruct (_createEventMediaQuerys this1 (Some desiredWindow))
      as [fresh|] eqn:Hfresh; [|reflexivity].
    destruct Hcase as [Hmini | [Hrec | [Hnone | Hacc]]].
    - rewrite Hmini1, Hmini. reflexivity.
    - rewrite Hrec, andb_false_r. reflexivity.
    - discriminate.
    - destruct Hacc as (fresh' & cm & qs & ts & [= <-] & Hq & Heq & Hcm & Hts & Hf).
      rewrite (acceptable_when_equal_and_fresh this1 fresh cm qs ts),
        andb_false_r; [reflexivity | | assumption | congruence | | assumption].
      + rewrite Hview1, Hview. exact Hq.
      + rewrite Hview1, Hview. exact Hts. }
  rewrite Hquiet. cbn. rewrite app_nil_r. exact Hlog.
Qed.

(** ** The synchronisation cycle while the pointer is held *)

Lemma query_phase (view_ : View) (desiredWindow : TimelineWindow)
    (this : FrigateCardTimelineCore) :
  state_after (_updateTimelineFromView_query view_ desiredWindow) this = this /\
  Forall (fun e => is_ViewChange e = true)
         (effects_of (_updateTimelineFromView_query view_ desiredWindow) this).
Proof.
  unfold state_after, effects_of, _updateTimelineFromView_query, bind, gets,
    dispatchChangeEvent, emit, ret.
  cbn.
  destruct (_createEventMediaQuerys this (Some desiredWindow)) as [fresh|];
    [|split; [reflexivity | constructor]].
  destruct (negb (mini this) && negb (areRecordingQueries (query view_)) &&
            negb (_alreadyHasAcceptableMediaQuery this fresh));
    [|split; [reflexivity | constructor]].
  destruct (_createViewWithEventMediaQuery this (Some fresh) None None) as [newView|];
    split; try reflexivity; repeat constructor.
Qed.

Lemma widget_while_held (hass_ : ExtendedHomeAssistant) (view_ : View)
    (timeline_ : Timeline) (this : FrigateCardTimelineCore) (p : PointerHeld) :
  _pointerHeld this = Some p ->
  effects_of (_updateTimelineFromView_widget hass_ view_ timeline_) this = [] /\
  (state_after (_updateTimelineFromView_widget hass_ view_ timeline_) this = this \/
   exists m x,
     queryResults view_ ≫= getSelectedResult = Some m /\
     ViewMediaClassifier.isEvent m = true /\
     getID m = Some x /\ x <> "" /\
     state_after (_updateTimelineFromView_widget hass_ view_ timeline_) this =
       set__timeline (setSelection [IdString x] <$> _timeline this) this).
Proof.
  intros Hheld.
  unfold effects_of, state_after, _updateTimelineFromView_widget, bind, gets, when,
    ret, on_timeline, modify.
  repeat (progress (cbn; rewrite ?Hheld)).
  destruct (queryResults view_ ≫= getSelectedResult) as [m|] eqn:Hm;
    repeat (progress (cbn; rewrite ?Hheld));
    [|split; [reflexivity | left; reflexivity]].
  destruct (getID m) as [x|] eqn:Hx;
    repeat (progress (cbn; rewrite ?Hheld)).
  - destruct (ViewMediaClassifier.isEvent m) eqn:Hev;
      repeat (progress (cbn; rewrite ?Hheld));
      [|split; [reflexivity | left; reflexivity]].
    destruct (String.eqb x "") eqn:Hempty; repeat (progress (cbn; rewrite ?Hheld)).
    + split; [reflexivity | left; reflexivity].
    + apply String.eqb_neq in Hempty.
      split; [reflexivity | right; exists m, x; auto].
  - destruct (ViewMediaClassifier.isEvent m);
      repeat (progress (cbn; rewrite ?Hheld));
      (split; [reflexivity | left; reflexivity]).
Qed.

(** C1, amended: while a pointer hold is active ([_pointerHeld] is not
    null), a run of [_updateTimelineFromView] does not change the window of
    the widget, does not change the data source, and issues neither a
    refresh nor a rewrite on it. The selection of the widget is either left
    as it is or set to the id of the selected media item of the view, and
    it is set only when that item is an event with an id that is not the
    empty string. *)
Theorem held_pointer_keeps_window (this : FrigateCardTimelineCore) (p : PointerHeld) :
  _pointerHeld this = Some p ->
  let this' := state_after _updateTimelineFromView this in
  getWindow <$> _timeline this' = getWindow <$> _timeline this /\
  _timelineSource this' = _timelineSource this /\
  Forall (fun e => is_Refresh e = false /\ is_RewriteEvent e = false)
         (effects_of _updateTimelineFromView this) /\
  (getSelection <$> _timeline this' = getSelection <$> _timeline this \/
   exists m x,
     (view this ≫= queryResults) ≫= getSelectedResult = Some m /\
     ViewMediaClassifier.isEvent m = true /\
     getID m = Some x /\ x <> "" /\
     getSelection <$> _timeline this' = Some [IdString x]).
Proof.
  intros Hheld this'. subst this'.
  unfold state_after, effects_of, _updateTimelineFromView.
  unfold bind at 1 3 5 7 9, gets at 1 2 3 4 5. cbn.
  destruct (hass this) as [hass_|];
    [|cbn; repeat split; auto].
  destruct (cameras this) as [cameras_|];
    [|cbn; repeat split; auto].
  destruct (view this) as [view_|] eqn:Hview;
    [|cbn; repeat split; auto].
  destruct (timelineConfig this) as [config|];
    [|cbn; repeat split; auto].
  destruct (_timelineSource this) as [source|] eqn:Hsource;
    [|cbn; rewrite ?Hsource; repeat split; auto].
  destruct (_timeline this) as [timeline_|] eqn:Htimeline;
    [|cbn; rewrite ?Hsource, ?Htimeline; repeat split; auto].
  unfold bind.
  destruct (widget_while_held hass_ view_ timeline_ this p Hheld) as [Hlog Hstate].
  unfold state_after, effects_of in Hlog, Hstate.
  destruct (_updateTimelineFromView_widget hass_ view_ timeline_ this)
    as [[desiredWindow this1] log1].
  cbn in Hlog, Hstate. subst log1.
  destruct (query_phase view_ desiredWindow this1) as [Hsame Hviews].
  unfold state_after, effects_of in Hsame, Hviews.
  destruct (_updateTimelineFromView_query view_ desiredWindow this1)
    as [[u this2] log2].
  cbn in Hsame, Hviews. subst this2. cbn.
  assert (Hlog2 : Forall (fun e => is_Refresh e = false /\ is_RewriteEvent e = false) log2).
  { eapply Forall_impl; [exact Hviews|]. intros [] He; cbn in *; auto; discriminate. }
  destruct Hstate as [-> | (m & x & Hm & Hev & Hx & Hnonempty & ->)].
  - rewrite Hsource, Htimeline. repeat split; auto.
  - cbn. rewrite Hsource, Htimeline. cbn.
    split; [reflexivity|]. split; [reflexivity|]. split; [assumption|].
    right. exists m, x. auto.
Qed.

(** ** The click handler and the flag to ignore a click *)

Lemma state_after_bind {A B : Type} (m : M A) (f : A -> M B)
    (this : FrigateCardTimelineCore) :
  state_after (bind m f) this = state_after (f (value_of m this)) (state_after m this).
Proof.
  unfold state_after, value_of, bind.
  destruct (m this) as [[a this1] log1]. cbn.
  destruct (f a this1) as [[b this2] log2]. reflexivity.
Qed.

Lemma state_after_when_emit (b : bool) (e : Effect) (this : FrigateCardTimelineCore) :
  state_after (when b (emit e)) this = this.
Proof. destruct b; reflexivity. Qed.

Lemma click_ignored (properties : TimelineEventPropertiesResult)
    (this : FrigateCardTimelineCore) :
  _ignoreClick this = true ->
  _timelineClickHandler properties this =
    (tt, this, [StopEventFromActivatingCardWideActions]).
Proof.
  intros Hignore. unfold _timelineClickHandler, bind, gets. cbn.
  rewrite Hignore. reflexivity.
Qed.

(** C2, amended: when the flag [_ignoreClick] is not set as the click
    handler starts, it is false when the handler returns, on the path to
    the end of the handler, which resets it, and on the early returns for a
    missing collaborator or no click target. (When the flag is set as the
    handler starts, the handler returns early and leaves it set.) *)
Theorem click_handler_leaves_flag_clear (properties : TimelineEventPropertiesResult)
    (this : FrigateCardTimelineCore) :
  _ignoreClick this = false ->
  _ignoreClick (state_after (_timelineClickHandler properties) this) = false.
Proof.
  intros Hclear. unfold _timelineClickHandler.
  rewrite state_after_bind.
  change (state_after (gets id) this) with this.
  change (value_of (gets id) this) with this.
  rewrite state_after_bind, state_after_when_emit, Hclear.
  destruct (hass this) as [hass_|]; [|exact Hclear].
  destruct (_timeline this) as [timeline_|]; [|exact Hclear].
  destruct (cameras this) as [cameras_|]; [|exact Hclear].
  destruct (view this) as [view_|]; [|exact Hclear].
  destruct (cameraManager this) as [cameraManager_|]; [|exact Hclear].
  destruct (what properties) as [what_|]; [|exact Hclear].
  rewrite state_after_bind. reflexivity.
Qed.

(** ** The target time of a range change *)

Lemma setTargetBar_effects (targetTime : Date) (this : FrigateCardTimelineCore) :
  effects_of (_setTargetBarAppropriately targetTime) this = [].
Proof.
  unfold effects_of, _setTargetBarAppropriately, _removeTargetBar, bind, gets, when,
    modify, on_timeline, ret.
  cbn. destruct (_timeline this) as [timeline_|]; [|reflexivity].
  match goal with |- context [if ?c then _ else _] => destruct c end; cbn;
    [reflexivity|].
  destruct (_targetBarVisible this); reflexivity.
Qed.

Lemma rangeChange_effects (properties : TimelineRangeChange)
    (this : FrigateCardTimelineCore) (timeline_ : Timeline) :
  _timeline this = Some timeline_ ->
  rangeChangeIsPan properties = true ->
  effects_of (_timelineRangeChangeHandler properties) this =
    [ThrottledSetViewDuringRangeChange (rangeChangeTargetTime this properties) properties].
Proof.
  intros Htimeline Hpan.
  unfold effects_of, _timelineRangeChangeHandler, bind, gets, when, modify, emit, ret.
  cbn -[_setTargetBarAppropriately].
  destruct (_pointerHeld this) as [p|] eqn:Hheld; cbn -[_setTargetBarAppropriately];
    rewrite Htimeline, Hpan; cbn -[_setTargetBarAppropriately];
    rewrite ?Hheld; cbn -[_setTargetBarAppropriately]; [|reflexivity].
  match goal with
  | |- context [_setTargetBarAppropriately ?t ?s] =>
      pose proof (setTargetBar_effects t s) as Hbar;
      unfold effects_of in Hbar;
      destruct (_setTargetBarAppropriately t s) as [[u s'] log]
  end.
  cbn in Hbar. subst log. cbn.
  unfold rangeChangeTargetTime. cbn. rewrite Hheld. reflexivity.
Qed.

Lemma quot_whole_seconds (o : Z) : o mod 1000 = 0 -> Z.quot o 1000 * 1000 = o.
Proof.
  intros Hmod. apply Z.mod_divide in Hmod as [k ->]; [|lia].
  rewrite Z.quot_mul by lia. reflexivity.
Qed.

Lemma interpolates_same_length (old new : TimelineWindow) (anchorTime : Date) :
  len new = len old -> len old <> 0 ->
  interpolates old anchorTime new (start new + (anchorTime - start old)).
Proof.
  intros Hlen Hnz. unfold interpolates. rewrite Hlen, inject_Z_plus.
  assert (Hq : ~ (inject_Z (len old) == 0)%Q).
  { intros H0. apply Hnz. change 0%Q with (inject_Z 0) in H0.
    apply inject_Z_injective. exact H0. }
  field. exact Hq.
Qed.

(** C8, amended: for a range change made by the user that is neither a
    wheel nor a pinch zoom, the target time handed on is, when a pointer
    hold is active and holds the window at pointer down, the start of the
    new window plus the whole seconds (rounded towards zero) of the time
    from the start of the window at pointer down to the time under the
    pointer at pointer down: the offset is carried over as it is, not
    scaled to the new window. It is the interpolation by ratio when the new
    window is as long as the window at pointer down and the offset is a
    whole number of seconds. When no pointer hold is active, or the hold
    has no window, the target time is the end of the new window. *)
Theorem range_change_target_time (properties : TimelineRangeChange)
    (this : FrigateCardTimelineCore) (timeline_ : Timeline) :
  _timeline this = Some timeline_ ->
  rangeChangeIsPan properties = true ->
  exists targetTime,
    effects_of (_timelineRangeChangeHandler properties) this =
      [ThrottledSetViewDuringRangeChange targetTime properties] /\
    match _pointerHeld this with
    | Some p =>
        match held_window p with
        | Some w0 =>
            let offset := time (held p) - start w0 in
            targetTime = start (range properties) + Z.quot offset 1000 * 1000 /\
            (len (range properties) = len w0 -> len w0 <> 0 -> offset mod 1000 = 0 ->
             interpolates w0 (time (held p)) (range properties) targetTime)
        | None => targetTime = end_ (range properties)
        end
    | None => targetTime = end_ (range properties)
    end.
Proof.
  intros Htimeline Hpan.
  exists (rangeChangeTargetTime this properties).
  split; [eapply rangeChange_effects; eassumption|].
  unfold rangeChangeTargetTime.
  destruct (_pointerHeld this) as [p|]; [|reflexivity].
  cbn. destruct (held_window p) as [w0|]; [|reflexivity].
  cbn. unfold add. cbn.
  assert (Hsec :
    toInteger (inject_Z (time (held p) - start w0) / 1000) =
    Z.quot (time (held p) - start w0) 1000).
  { rewrite <- differenceInSeconds_quot. reflexivity. }
  rewrite Hsec. split; [reflexivity|].
  intros Hlen Hnz Hmod. rewrite (quot_whole_seconds _ Hmod).
  apply interpolates_same_length; assumption.
Qed.

(** ** The selection carried over to a new event query *)

Lemma selectResultIfFound_selects (func : ViewMedia -> bool) (r : MediaQueriesResults)
    (l : list ViewMedia) (m : ViewMedia) :
  getResults (selectResultIfFound func r) = Some l ->
  m ∈ l -> func m = true ->
  exists m', getSelectedResult (selectResultIfFound func r) = Some m' /\ func m' = true.
Proof.
  unfold selectResultIfFound.
  destruct (getResults r) as [l0|] eqn:Hl0.
  - destruct (findIndex func l0) as [i|] eqn:Hfind.
    + intros _ _ _. apply findIndex_Some in Hfind as (x & Hx & Hfx).
      exists x. unfold getSelectedResult. cbn. rewrite ?Hl0. auto.
    + rewrite ?Hl0. intros [= <-] Hin Hf.
      rewrite (findIndex_None _ _ Hfind m Hin) in Hf. discriminate.
  - rewrite ?Hl0. discriminate.
Qed.

(** C10: when [_createViewWithEventMediaQuery] is called without a
    [selectedItem] and the view has a selected media item, of id [x], then
    the view returned is the view that [createViewForEvents] has fetched,
    with the results of that new query, and in it the selected result is
    an item of the new results with id [x], whenever the new results
    contain an item of id [x]. *)
Theorem selection_persists_across_query (this : FrigateCardTimelineCore)
    (query_ : MediaQueries) (targetView : option string)
    (hass_ : ExtendedHomeAssistant) (cameraManager_ : CameraManager)
    (cameras_ : gmap string CameraConfig) (view_ fetched : View)
    (current : ViewMedia) (r0 : MediaQueriesResults)
    (l : list ViewMedia) (m : ViewMedia) :
  hass this = Some hass_ ->
  cameraManager this = Some cameraManager_ ->
  cameras this = Some cameras_ ->
  view this = Some view_ ->
  queryResults view_ ≫= getSelectedResult = Some current ->
  createViewForEvents hass_ cameraManager_ cameras_ view_
    {| eo_query := query_; eo_targetView := targetView;
       eo_mediaType := timelineConfig this ≫= media |} = Some fetched ->
  queryResults fetched = Some r0 ->
  getResults r0 = Some l ->
  m ∈ l ->
  getID m = getID current ->
  exists newView r selected,
    _createViewWithEventMediaQuery this (Some query_) targetView None = Some newView /\
    view_name newView = view_name fetched /\
    query newView = query fetched /\
    context newView = context fetched /\
    queryResults newView = Some r /\
    getResults r = Some l /\
    getResultsTimestamp r = getResultsTimestamp r0 /\
    getSelectedResult r = Some selected /\
    selected ∈ l /\
    getID selected = getID current.
Proof.
  intros Hhass Hmanager Hcameras Hview Hcurrent Hfetched Hr0 Hl Hin Hid.
  set (func := fun m0 : ViewMedia => bool_decide (getID m0 = getID current)).
  assert (Hresults : getResults (selectResultIfFound func r0) = Some l).
  { unfold selectResultIfFound. rewrite Hl.
    destruct (findIndex func l); [reflexivity | exact Hl]. }
  assert (Hstamp : getResultsTimestamp (selectResultIfFound func r0) =
                   getResultsTimestamp r0).
  { unfold selectResultIfFound. rewrite Hl.
    destruct (findIndex func l); reflexivity. }
  destruct (selectResultIfFound_selects func r0 l m Hresults Hin)
    as (selected & Hselected & Hfunc).
  { apply bool_decide_eq_true. exact Hid. }
  exists (select_in_view func fetched), (selectResultIfFound func r0), selected.
  split.
  { unfold _createViewWithEventMediaQuery.
    rewrite Hhass, Hmanager, Hcameras, Hview, Hfetched. cbn [mbind option_bind].
    rewrite Hcurrent. reflexivity. }
  split; [reflexivity|]. split; [reflexivity|]. split; [reflexivity|].
  split; [cbn; rewrite Hr0; reflexivity|].
  split; [exact Hresults|]. split; [exact Hstamp|].
  split; [exact Hselected|]. split.
  - unfold getSelectedResult in Hselected. rewrite Hresults in Hselected.
    destruct (getSelectedIndex (selectResultIfFound func r0)) as [i|];
      [|discriminate].
    apply list_elem_of_lookup. exists i. exact Hselected.
  - apply bool_decide_eq_true in Hfunc. exact Hfunc.
Qed.

(** * The rest of the element *)

Section Rest.

(** Further functions of the repository that are called here and defined
    elsewhere: of the view, of the query results (the comparison
    [newResults.getResult() !== results.getResult()] of two selected media
    by reference is [resultChanged]), of [utils/media-to-view] and of the
    camera manager, whose metadata of a camera is reduced to its title. *)
Inductive ClosestBound : Type := ByStart | ByEnd.

Variable isViewerView : View -> bool.
Variable findClosestMediaIndex :
  list ViewMedia -> Date -> gset string -> ClosestBound -> option nat.
Variable selectBestResult :
  (list ViewMedia -> option nat) -> MediaQueriesResults -> MediaQueriesResults.
Variable resultChanged : MediaQueriesResults -> MediaQueriesResults -> bool.
Variable isSupersetOf : MediaQueriesResults -> MediaQueriesResults -> bool.
Variable getCameraMetadata :
  CameraManager -> ExtendedHomeAssistant -> CameraConfig -> option string.

(** [cameraConfig.frigate.camera_name] and the constant [CAMERA_BIRDSEYE]. *)
Variable camera_name : CameraConfig -> option string.
Variable CAMERA_BIRDSEYE : string.

Definition set_view (v : option View) (this : FrigateCardTimelineCore) :=
  {| hass := hass this; view := v; cameras := cameras this;
     timelineConfig := timelineConfig this; mini := mini this;
     cameraIDs := cameraIDs this; cameraManager := cameraManager this;
     _locked := _locked this; _targetBarVisible := _targetBarVisible this;
     _timeline := _timeline this; _timelineSource := _timelineSource this;
     _pointerHeld := _pointerHeld this; _ignoreClick := _ignoreClick this |}.

(** [_setViewDuringRangeChange], the function behind the throttle. *)
Definition _setViewDuringRangeChange (targetTime : Date)
    (properties : TimelineRangeChange) : M unit :=
  let* this := gets id in
  let results := view this ≫= queryResults in
  let media_ := results ≫= getResults in
  match media_, results, _timeline this, view this, hass this, cameraManager this,
        additionalEvent (event properties) with
  | Some _, Some results, Some _, Some view_, Some _, Some _, Some additionalEvent_ =>
      if String.eqb additionalEvent_ "" then ret tt
      else
        let canSeek := isViewerView view_ in
        let newResults :=
          if _locked this then None
          else
            Some (selectBestResult
                    (fun media_ =>
                       findClosestMediaIndex media_ targetTime
                         (_getTimelineCameraIDs this)
                         (if String.eqb additionalEvent_ "panright"
                          then ByEnd else ByStart))
                    (resetSelectedResult results)) in
        let selected :=
          match newResults with
          | Some r => if hasSelectedResult r then Some r else None
          | None => None
          end in
        if canSeek ||
           match selected with
           | Some r => resultChanged r results
           | None => false
           end
        then
          let evolved :=
            match selected with
            | Some r => evolve_queryResults r view_
            | None => view_
            end in
          dispatchChangeEvent
            (mergeInContext
               {| timeline := timeline (_setWindowInContext this (Some (range properties)));
                  mediaViewer :=
                    if canSeek then Some {| seek := Some targetTime |} else None |}
               evolved)
        else ret tt
  | _, _, _, _, _, _, _ => ret tt
  end.

(** [_timelineRangeChangedHandler] *)
Definition _timelineRangeChangedHandler (properties : TimelineRangeChange) : M unit :=
  if negb (byUser properties) then ret tt
  else
    _removeTargetBar ;;
    let* this := gets id in
    match hass this, cameras this with
    | Some hass_, Some _ =>
        let prefetchedWindow := _getPrefetchWindow (range properties) in
        source_refresh hass_ prefetchedWindow ;;
        let* this := gets id in
        match _timeline this, view this with
        | Some timeline_, Some view_ =>
            if negb (areRecordingQueries (query view_)) then
              let newView :=
                _createViewWithEventMediaQuery this
                  (_createEventMediaQuerys this (Some (getWindow timeline_)))
                  None None in
              match newView with
              | Some newView =>
                  match queryResults newView with
                  | Some newResults =>
                      if negb (default false
                                 ((fun r => isSupersetOf r newResults) <$>
                                    queryResults view_))
                      then
                        dispatchChangeEvent
                          (mergeInContext (_setWindowInContext this None) newView)
                      else ret tt
                  | None => ret tt
                  end
              | None => ret tt
              end
            else ret tt
        | _, _ => ret tt
        end
    | _, _ => ret tt
    end.

(** [_destroy] *)
Definition _destroy : M unit :=
  modify (set__timeline None) ;;
  modify (set__targetBarVisible false).

(** [_getGroups]: a group for each camera in scope that has a
    configuration, metadata and a camera name other than birdseye. The
    camera ids are taken in the order of [elements], where the code follows
    the order of the camera map; no theorem here depends on the order. *)
Record FrigateCardGroupData : Type := {
  group_id : string;
  group_content : string;
}.

Definition _getGroups (this : FrigateCardTimelineCore) : list FrigateCardGroupData :=
  omap (fun cameraID =>
          match cameras this ≫= (fun m => m !! cameraID),
                hass this, cameraManager this with
          | Some cameraConfig, Some hass_, Some cameraManager_ =>
              match getCameraMetadata cameraManager_ hass_ cameraConfig,
                    camera_name cameraConfig with
              | Some title, Some name =>
                  if negb (String.eqb name "") &&
                     negb (String.eqb name CAMERA_BIRDSEYE)
                  then Some {| group_id := cameraID; group_content := title |}
                  else None
              | _, _ => None
              end
          | _, _, _ => None
          end)
       (elements (_getTimelineCameraIDs this)).

(** The request of the thumbnail in a tooltip for what it needs to render,
    and [_handleThumbnailDataRequest], which fills it in. *)
Record ThumbnailDataRequest : Type := {
  request_item : IdType;
  request_hass : option ExtendedHomeAssistant;
  request_cameraManager : option CameraManager;
  request_cameraConfig : option CameraConfig;
  request_media : option ViewMedia;
  request_view : option View;
}.

Definition _handleThumbnailDataRequest (this : FrigateCardTimelineCore)
    (request : ThumbnailDataRequest) : ThumbnailDataRequest :=
  let item_ := request_item request in
  let media_ := (_timelineSource this ≫= (fun d => dataset_get d item_)) ≫= item_media in
  {| request_item := item_;
     request_hass := hass this;
     request_cameraManager := cameraManager this;
     request_cameraConfig :=
       match media_ with
       | Some m => cameras this ≫= (fun c => c !! getCameraID m)
       | None => None
       end;
     request_media := media_;
     request_view := view this |}.

(** What [FrigateCardTimelineThumbnail.render] gives a thumbnail to draw. *)
Record ThumbnailProperties : Type := {
  thumbnail_hass : ExtendedHomeAssistant;
  thumbnail_cameraManager : CameraManager;
  thumbnail_cameraConfig : CameraConfig;
  thumbnail_media : ViewMedia;
  thumbnail_view : View;
  thumbnail_details : bool;
}.

(** [FrigateCardTimelineThumbnail.render], for a thumbnail of attributes
    [item_] and [details] in the tooltip of the element [this], whose
    listener answers the request: empty ([None]) or a thumbnail. *)
Definition FrigateCardTimelineThumbnail_render (this : FrigateCardTimelineCore)
    (item_ : option IdType) (details : bool) : option ThumbnailProperties :=
  match item_ with
  | Some i =>
      if IdType_truthy i then
        let dataRequest :=
          _handleThumbnailDataRequest this
            {| request_item := i; request_hass := None;
               request_cameraManager := None; request_cameraConfig := None;
               request_media := None; request_view := None |} in
        match request_hass dataRequest, request_cameraManager dataRequest,
              request_cameraConfig dataRequest, request_media dataRequest,
              request_view dataRequest with
        | Some h, Some cm, Some cc, Some m, Some v =>
            Some {| thumbnail_hass := h; thumbnail_cameraManager := cm;
                    thumbnail_cameraConfig := cc; thumbnail_media := m;
                    thumbnail_view := v; thumbnail_details := details |}
        | _, _, _, _, _ => None
        end
      else None
  | None => None
  end.

(** The events of the widget and of the host that reach the element once
    [updated] has made the widget and installed its listeners: the four
    listeners, the final [rangechanged], and a new [view] property, upon
    which [updated] runs [_updateTimelineFromView]. *)
Inductive TimelineEvent : Type :=
| MouseDown (ev : TimelineEventPropertiesResult)
| MouseUp
| RangeChange (properties : TimelineRangeChange)
| RangeChanged (properties : TimelineRangeChange)
| Click (properties : TimelineEventPropertiesResult)
| ViewProperty (v : View).

Definition handle (e : TimelineEvent) : M unit :=
  match e with
  | MouseDown ev => mouseDown ev
  | MouseUp => mouseUp
  | RangeChange properties => _timelineRangeChangeHandler properties
  | RangeChanged properties => _timelineRangeChangedHandler properties
  | Click properties => _timelineClickHandler properties
  | ViewProperty v => modify (set_view (Some v)) ;; _updateTimelineFromView
  end.

(** The events in turn, each handler run to its end before the next event
    is handled. *)
Fixpoint handle_all (events : list TimelineEvent) : M unit :=
  match events with
  | [] => ret tt
  | e :: events' => handle e ;; handle_all events'
  end.

(** ** The click handler across its awaits

    [_timelineClickHandler] is asynchronous. Past its guard it asks for a
    view and waits for it, at [createViewForRecordings] (lines 476 and 493)
    or at [_createViewWithEventMediaQuery] (line 519); other events are
    handled while it waits; and it ends later, with lines 540 to 553. *)

(** The handler up to its await: the stop of lines 450 to 456, the guard
    of lines 458 to 468 and the request, none of which assigns a field. *)
Definition _timelineClickHandler_start (properties : TimelineEventPropertiesResult)
  : M unit :=
  let* this := gets id in
  when (_ignoreClick this ||
        match what properties with
        | Some w => bool_decide (w ∈ [item_; background; group_label; axis])
        | None => false
        end)
       (emit StopEventFromActivatingCardWideActions).

(** The handler from its await on, lines 540 to 553, with the view
    [newView] that it has in [view] by then; [this.view] is read when the
    handler resumes. *)
Definition _timelineClickHandler_end (newView : option View) : M unit :=
  let* this := gets id in
  match newView with
  | Some v =>
      dispatchChangeEvent v ;;
      when (default false (is_ "timeline" <$> view this))
           (emit (FrigateCardEvent "thumbnails:open"))
  | None =>
      when (default false (is_ "timeline" <$> view this))
           (emit (FrigateCardEvent "thumbnails:close"))
  end ;;
  modify (set__ignoreClick false).

(** What the element does next: it handles an event to the end of its
    handler, or a click handler runs up to its await, or a click handler
    that waited runs to its end. *)
Inductive TimelineStep : Type :=
| Handled (e : TimelineEvent)
| ClickAwaits (properties : TimelineEventPropertiesResult)
| ClickResumes (newView : option View).

Definition step (s : TimelineStep) : M unit :=
  match s with
  | Handled e => handle e
  | ClickAwaits properties => _timelineClickHandler_start properties
  | ClickResumes newView => _timelineClickHandler_end newView
  end.

Fixpoint steps (trace : list TimelineStep) : M unit :=
  match trace with
  | [] => ret tt
  | s :: trace' => step s ;; steps trace'
  end.

(** The pointer up, which ends the pointer hold. *)
Definition releases (s : TimelineStep) : bool :=
  match s with
  | Handled MouseUp => true
  | _ => false
  end.

(** The two steps that clear the flag [_ignoreClick] whatever it was: a
    pointer down (line 1131) and the end of a click handler that waited
    (line 553). *)
Definition rearms (s : TimelineStep) : bool :=
  match s with
  | Handled (MouseDown _) | ClickResumes _ => true
  | _ => false
  end.

(** The target bar is recorded as visible exactly when the widget has it,
    and only during a pointer hold. *)
Definition target_bar_consistent (this : FrigateCardTimelineCore) : Prop :=
  (forall t, _timeline this = Some t ->
     (_targetBarVisible this = true <->
      is_Some (customTimes t !! TIMELINE_TARGET_BAR_ID))) /\
  (_targetBarVisible this = true -> is_Some (_pointerHeld this)).

Definition is_RangeChange (e : TimelineEvent) : bool :=
  match e with RangeChange _ => true | _ => false end.

Definition is_MouseDown (e : TimelineEvent) : bool :=
  match e with MouseDown _ => true | _ => false end.

(** Whether [_timelineClickHandler] passes its guard, the flag apart. *)
Definition click_ready (properties : TimelineEventPropertiesResult)
    (this : FrigateCardTimelineCore) : Prop :=
  is_Some (hass this) /\ is_Some (_timeline this) /\ is_Some (cameras this) /\
  is_Some (view this) /\ is_Some (cameraManager this) /\ is_Some (what properties).

(** ** The surround

    The element [FrigateCardSurround] of [components/surround.ts], which
    hosts the thumbnail carousel and the mini timeline around a view. *)

(** The fields read of [ThumbnailsControlConfig] and of
    [MiniTimelineControlConfig], a [TimelineCoreConfig] with a [mode]. *)
Record ThumbnailsControlConfig : Type := {
  mode : string;
  show_details : option bool;
  size : option Q;
}.

Record MiniTimelineControlConfig : Type := {
  mini_mode : option string;
  mini_config : TimelineCoreConfig;
}.

(** [view.context?.thumbnails?.fetch], the entry of the context of a view
    that the surround declares. *)
Variable thumbnails_fetch : View -> option bool.

Record FrigateCardSurround : Type := {
  surround_hass : option ExtendedHomeAssistant;
  surround_view : option View;
  thumbnailConfig : option ThumbnailsControlConfig;
  surround_timelineConfig : option MiniTimelineControlConfig;
  inBackground : option bool;
  fetchMedia : option ClipsOrSnapshotsOrAll;
  surround_cameras : option (gmap string CameraConfig);
  surround_cameraManager : option CameraManager;
}.

(** A call of [changeViewToRecentEventsForCameraAndDependents]. *)
Record RecentEventsRequest : Type := {
  recent_hass : ExtendedHomeAssistant;
  recent_cameraManager : CameraManager;
  recent_cameras : gmap string CameraConfig;
  recent_view : View;
  recent_mediaType : ClipsOrSnapshotsOrAll;
}.

(** [_fetchMedia]: the call it makes, if any. *)
Definition _fetchMedia (this : FrigateCardSurround) : option RecentEventsRequest :=
  match surround_cameras this, surround_cameraManager this, fetchMedia this,
        surround_hass this, surround_view this, thumbnailConfig this with
  | Some cameras_, Some cameraManager_, Some fetchMedia_,
    Some hass_, Some view_, Some thumbnailConfig_ =>
      if truthy_bool (inBackground this) ||
         bool_decide (is_Some (query view_)) ||
         String.eqb (mode thumbnailConfig_) "none" ||
         negb (default true (thumbnails_fetch view_))
      then None
      else Some {| recent_hass := hass_; recent_cameraManager := cameraManager_;
                   recent_cameras := cameras_; recent_view := view_;
                   recent_mediaType := fetchMedia_ |}
  | _, _, _, _, _, _ => None
  end.

(** [_hasDrawer] *)
Definition _hasDrawer (this : FrigateCardSurround) : bool :=
  match thumbnailConfig this with
  | Some c => bool_decide (mode c ∈ ["left"; "right"])
  | None => false
  end.

(** [willUpdate] of the surround, for the names of the properties that
    changed: the fetch it makes, if any. *)
Definition surround_willUpdate (changedProperties : gset string)
    (this : FrigateCardSurround) : option RecentEventsRequest :=
  if existsb (fun prop => bool_decide (prop ∈ changedProperties))
             ["view"; "fetch"; "browseMediaParams"; "inBackground"]
  then _fetchMedia this
  else None.

(** The event [frigate-card:drawer:open] or [frigate-card:drawer:close] and
    the drawer it names. *)
Record DrawerEvent : Type := {
  drawer_event : string;
  drawer : string;
}.

(** [changeDrawer] of [render] *)
Definition changeDrawer (this : FrigateCardSurround) (action : string)
  : option DrawerEvent :=
  match thumbnailConfig this with
  | Some c =>
      if _hasDrawer this
      then Some {| drawer_event := "drawer:" +:+ action; drawer := mode c |}
      else None
  | None => None
  end.

(** The properties that [render] gives the timeline it hosts. *)
Record HostedTimeline : Type := {
  hosted_slot : string;
  hosted_hass : ExtendedHomeAssistant;
  hosted_view : View;
  hosted_cameras : option (gmap string CameraConfig);
  hosted_mini : bool;
  hosted_timelineConfig : MiniTimelineControlConfig;
  hosted_thumbnailDetails : option bool;
  hosted_thumbnailSize : option Q;
  hosted_cameraManager : option CameraManager;
}.

(** What [render] of the surround puts around its slot: the carousel, by
    the slot it goes to, and the timeline. *)
Record SurroundRendered : Type := {
  carousel : option string;
  hostedTimeline : option HostedTimeline;
}.

Definition surround_render (this : FrigateCardSurround) : option SurroundRendered :=
  match surround_hass this, surround_view this, thumbnailConfig this with
  | Some hass_, Some view_, Some thumbnailConfig_ =>
      Some {| carousel :=
                if negb (String.eqb (mode thumbnailConfig_) "none") &&
                   negb (truthy_bool (inBackground this))
                then Some (mode thumbnailConfig_) else None;
              hostedTimeline :=
                match surround_timelineConfig this with
                | Some timelineConfig_ =>
                    match mini_mode timelineConfig_ with
                    | Some mode_ =>
                        if negb (String.eqb mode_ "") &&
                           negb (String.eqb mode_ "none") &&
                           negb (truthy_bool (inBackground this))
                        then
                          Some {| hosted_slot := mode_;
                                  hosted_hass := hass_;
                                  hosted_view := view_;
                                  hosted_cameras := surround_cameras this;
                                  hosted_mini := true;
                                  hosted_timelineConfig := timelineConfig_;
                                  hosted_thumbnailDetails :=
                                    show_details thumbnailConfig_;
                                  hosted_thumbnailSize := size thumbnailConfig_;
                                  hosted_cameraManager := surround_cameraManager this |}
                        else None
                    | None => None
                    end
                | None => None
                end |}
  | _, _, _ => None
  end.

(** The listeners of [render] for the events of the thumbnails that come
    up from what the surround holds: what the surround dispatches upon an
    effect of an element it holds. *)
Definition surround_catch (this : FrigateCardSurround) (e : Effect) : option DrawerEvent :=
  match surround_render this, e with
  | Some _, FrigateCardEvent name =>
      if String.eqb name "thumbnails:open" then changeDrawer this "open"
      else if String.eqb name "thumbnails:close" then changeDrawer this "close"
      else None
  | _, _ => None
  end.

(** An element with the properties that the surround gives the timeline it
    hosts. *)
Definition hosted_by (p : HostedTimeline) (this : FrigateCardTimelineCore) : Prop :=
  hass this = Some (hosted_hass p) /\ view this = Some (hosted_view p) /\
  cameras this = hosted_cameras p /\ mini this = hosted_mini p /\
  timelineConfig this = Some (mini_config (hosted_timelineConfig p)) /\
  cameraManager this = hosted_cameraManager p.

(** The window that a run of [_updateTimelineFromView] wants the widget to
    show ([desiredWindow]) and the id it wants selected ([desiredId], when
    it is truthy), as functions of the view, the widget and the
    configuration. *)
Definition desiredWindowOf (this : FrigateCardTimelineCore) (view_ : View)
    (timeline_ : Timeline) : TimelineWindow :=
  let timelineWindow := getWindow timeline_ in
  let media_ := queryResults view_ ≫= getSelectedResult in
  match (context view_ ≫= timeline) ≫= window with
  | Some w => w
  | None =>
      match media_, media_ ≫= getStartTime, media_ ≫= getEndTime with
      | Some m, Some s, Some e =>
          if negb (rangesOverlap {| start := s; end_ := e |} timelineWindow) then
            default timelineWindow (_getPerfectWindowFromMedia this m)
          else timelineWindow
      | _, _, _ => timelineWindow
      end
  end.

Definition desiredIdOf (view_ : View) : option string :=
  match queryResults view_ ≫= getSelectedResult with
  | Some m =>
      if ViewMediaClassifier.isEvent m then
        match getID m with
        | Some x => if String.eqb x "" then None else Some x
        | None => None
        end
      else None
  | None => None
  end.

(** Whether [_updateTimelineFromView] passes its guard. *)
Definition ready (this : FrigateCardTimelineCore) : Prop :=
  is_Some (hass this) /\ is_Some (cameras this) /\ is_Some (view this) /\
  is_Some (timelineConfig this) /\ is_Some (_timelineSource this) /\
  is_Some (_timeline this).

(** ** More on the window arithmetic *)

Lemma toInteger_nonneg (q : Q) : (0 <= q)%Q -> 0 <= toInteger q.
Proof using Type.
  destruct q as [n d]. intros Hq. rewrite toInteger_quot.
  unfold Qle in Hq. cbn in Hq. apply Z.quot_pos; lia.
Qed.

(** X1: the prefetch window of a window with [start <= end] contains the
    window. It is the window itself when the window is shorter than one
    second, and it is wider on both sides from one second on. *)
Theorem prefetch_contains_window (w : TimelineWindow) :
  start w <= end_ w ->
  let p := _getPrefetchWindow w in
  start p <= start w /\ end_ w <= end_ p /\
  (len w < 1000 -> p = w) /\
  (1000 <= len w -> start p < start w /\ end_ w < end_ p).
Proof using Type.
  intros Hle p. subst p. rewrite prefetch_start_end.
  assert (Hlen : 0 <= len w) by (unfold len; lia).
  rewrite (Z.quot_div_nonneg (len w) 1000) by lia.
  pose proof (Z.div_pos (len w) 1000 Hlen ltac:(lia)) as Hdiv.
  cbn. split; [lia|]. split; [lia|]. split.
  - intros Hshort. rewrite Z.div_small by lia. destruct w. cbn. f_equal; lia.
  - intros Hlong.
    assert (1 <= len w / 1000) by (apply Z.div_le_lower_bound; lia).
    lia.
Qed.

Lemma toInteger_half (windowSeconds : Q) (S : Z) :
  (windowSeconds == inject_Z S)%Q -> toInteger (windowSeconds / 2) = Z.quot S 2.
Proof using Type.
  intros HS. rewrite (toInteger_comp _ (S # 2)); [apply toInteger_quot|].
  rewrite HS. unfold Qeq, Qdiv, Qmult, Qinv, inject_Z. cbn. lia.
Qed.

(** X2: for an event that has a start time and no end time yet, and a
    configured window of [S] whole seconds, the perfect window is centred
    on the start time, with [S / 2] seconds, rounded towards zero, on each
    side. *)
Theorem perfect_window_of_open_event (this : FrigateCardTimelineCore) (m : ViewMedia)
    (s : Date) (S : Z) :
  ViewMediaClassifier.isEvent m = true ->
  getStartTime m = Some s ->
  getEndTime m = None ->
  (_getConfiguredWindowSeconds this == inject_Z S)%Q ->
  _getPerfectWindowFromMedia this m =
    Some {| start := s - Z.quot S 2 * 1000; end_ := s + Z.quot S 2 * 1000 |}.
Proof using Type.
  intros Hev Hs He HS.
  unfold _getPerfectWindowFromMedia, perfectWindowFromMedia.
  rewrite Hev, Hs, He. unfold sub, add. cbn.
  rewrite (toInteger_half _ S HS). reflexivity.
Qed.

(** X3: [_getPerfectWindowFromMedia] returns no window exactly when the
    media item has no start time, or is a recording without an end time. *)
Theorem perfect_window_absent (this : FrigateCardTimelineCore) (m : ViewMedia) :
  _getPerfectWindowFromMedia this m = None <->
  getStartTime m = None \/
  (ViewMediaClassifier.isRecording m = true /\ getEndTime m = None).
Proof using Type.
  unfold _getPerfectWindowFromMedia, perfectWindowFromMedia,
    ViewMediaClassifier.isEvent, ViewMediaClassifier.isRecording.
  destruct (getMediaType m), (getStartTime m), (getEndTime m); cbn;
    repeat case_match; split; intros Hnone; try discriminate; auto;
    destruct Hnone as [Hnone | [Hrec Hend]]; discriminate.
Qed.

(** X4: for an event with known start and end times and a configured
    window of [S >= 0] whole seconds, the perfect window reaches the end of
    the event, and it reaches back to the start of the event exactly when
    the event is no longer than the window. *)
Theorem perfect_window_covers_event (this : FrigateCardTimelineCore) (m : ViewMedia)
    (s e : Date) (S : Z) :
  ViewMediaClassifier.isEvent m = true ->
  getStartTime m = Some s ->
  getEndTime m = Some e ->
  (_getConfiguredWindowSeconds this == inject_Z S)%Q ->
  0 <= S ->
  exists w,
    _getPerfectWindowFromMedia this m = Some w /\
    e <= end_ w /\
    (s <= e -> start w <= e) /\
    (start w <= s <-> e - s <= S * 1000).
Proof using Type.
  intros Hev Hs He HS Hpos.
  unfold _getPerfectWindowFromMedia, perfectWindowFromMedia.
  rewrite Hev, Hs, He, (Qlt_bool_window _ S (e - s) HS).
  destruct (Z.ltb_spec (S * 1000) (e - s)) as [Hlong | Hshort].
  - rewrite (sub_whole _ _ _ HS). eexists. split; [reflexivity|]. cbn. lia.
  - unfold sub, add. cbn. rewrite (toInteger_half_gap _ S (e - s) HS).
    rewrite (Z.quot_div_nonneg (S * 1000 - (e - s)) 2000) by lia.
    pose proof (Z.div_pos (S * 1000 - (e - s)) 2000 ltac:(lia) ltac:(lia)).
    eexists. split; [reflexivity|]. cbn. lia.
Qed.

(** ** More on the synchronisation cycle *)

Ltac run_unfold :=
  unfold state_after, effects_of, value_of, bind, gets, when, ret, modify, emit,
    on_timeline, source_refresh, source_rewriteEvent, dispatchChangeEvent.

(** Decide a condition of the goal: by a hypothesis that gives it, or by
    cases. *)
Ltac decide_atom c :=
  first [ match goal with H : c = _ |- _ => rewrite H end | destruct c eqn:? ].

Ltac run_cases_step :=
  match goal with
  | |- context [bool_decide ?P] => decide_atom (bool_decide P)
  | |- context [String.eqb ?a ?b] => decide_atom (String.eqb a b)
  | |- context [ViewMediaClassifier.isEvent ?m] =>
      decide_atom (ViewMediaClassifier.isEvent m)
  | |- context [match getID ?m with _ => _ end] => decide_atom (getID m)
  | |- context [match timelineConfig ?x with _ => _ end] =>
      decide_atom (timelineConfig x)
  | |- context [match clustering_threshold ?c with _ => _ end] =>
      decide_atom (clustering_threshold c)
  | |- context [match ?o ≫= window with _ => _ end] => decide_atom (o ≫= window)
  | |- context [match getStartTime ?m with _ => _ end] => decide_atom (getStartTime m)
  | |- context [match getEndTime ?m with _ => _ end] => decide_atom (getEndTime m)
  | |- context [if ?c then _ else _] => decide_atom c
  end.

Lemma widget_run (hass_ : ExtendedHomeAssistant) (view_ : View) (timeline_ : Timeline)
    (this : FrigateCardTimelineCore) (source : TimelineDataSource) :
  _timelineSource this = Some source ->
  let held := bool_decide (is_Some (_pointerHeld this)) in
  let desired := desiredWindowOf this view_ timeline_ in
  value_of (_updateTimelineFromView_widget hass_ view_ timeline_) this = desired /\
  _timeline (state_after (_updateTimelineFromView_widget hass_ view_ timeline_) this) =
    (fun t =>
       {| getWindow :=
            if held || bool_decide (desired = getWindow timeline_)
            then getWindow t else desired;
          getSelection :=
            match desiredIdOf view_ with
            | Some x => [IdString x]
            | None => getSelection t
            end;
          customTimes := customTimes t |}) <$> _timeline this /\
  effects_of (_updateTimelineFromView_widget hass_ view_ timeline_) this =
    if held then []
    else
      Refresh hass_ (_getPrefetchWindow desired) ::
      match (queryResults view_ ≫= getSelectedResult) ≫= getID with
      | Some x =>
          if negb (String.eqb x "") && _isClustering this
          then [RewriteEvent x] else []
      | None => []
      end.
Proof using Type.
  intros Hsource held desired. subst held desired.
  unfold _updateTimelineFromView_widget, desiredWindowOf, desiredIdOf,
    _getPerfectWindowFromMedia, _isClustering.
  run_unfold.
  destruct (_pointerHeld this) as [p|] eqn:Hheld;
    destruct (_timeline this) as [t|] eqn:Htimeline;
    destruct (queryResults view_ ≫= getSelectedResult) as [m|] eqn:Hm;
    cbn -[perfectWindowFromMedia _getPrefetchWindow];
    rewrite ?Hheld, ?Hsource, ?Htimeline;
    cbn -[perfectWindowFromMedia _getPrefetchWindow].
  all: repeat
         (run_cases_step;
          cbn -[perfectWindowFromMedia _getPrefetchWindow] in *;
          rewrite ?Hheld, ?Hsource, ?Htimeline;
          cbn -[perfectWindowFromMedia _getPrefetchWindow] in *).
  all: rewrite ?Hheld in *; cbn -[perfectWindowFromMedia _getPrefetchWindow] in *.
  all: try congruence.
  all: rewrite ?Htimeline; repeat split; first [reflexivity | destruct t; reflexivity].
Qed.

Lemma cycle_unfold (this : FrigateCardTimelineCore) (hass_ : ExtendedHomeAssistant)
    (cameras_ : gmap string CameraConfig) (view_ : View) (config : TimelineCoreConfig)
    (source : TimelineDataSource) (timeline_ : Timeline) :
  hass this = Some hass_ -> cameras this = Some cameras_ -> view this = Some view_ ->
  timelineConfig this = Some config -> _timelineSource this = Some source ->
  _timeline this = Some timeline_ ->
  state_after _updateTimelineFromView this =
    state_after (_updateTimelineFromView_widget hass_ view_ timeline_) this /\
  effects_of _updateTimelineFromView this =
    effects_of (_updateTimelineFromView_widget hass_ view_ timeline_) this ++
    effects_of (_updateTimelineFromView_query view_
                  (value_of (_updateTimelineFromView_widget hass_ view_ timeline_) this))
               (state_after (_updateTimelineFromView_widget hass_ view_ timeline_) this).
Proof using Type.
  intros Hhass Hcameras Hview Hconfig Hsource Htimeline.
  assert (Hrun :
    _updateTimelineFromView this =
      bind (_updateTimelineFromView_widget hass_ view_ timeline_)
           (fun desiredWindow => _updateTimelineFromView_query view_ desiredWindow) this).
  { unfold _updateTimelineFromView. unfold bind at 1, gets at 1.
    cbn -[_updateTimelineFromView_widget _updateTimelineFromView_query bind].
    rewrite Hhass, Hcameras, Hview, Hconfig, Hsource, Htimeline.
    destruct (bind _ _ this) as [[u this2] log2]. reflexivity. }
  unfold state_after, effects_of, value_of. rewrite Hrun. unfold bind.
  destruct (_updateTimelineFromView_widget hass_ view_ timeline_ this)
    as [[desiredWindow this1] log1].
  destruct (query_phase view_ desiredWindow this1) as [Hsame _].
  unfold state_after in Hsame. cbn [fst snd] in *.
  destruct (_updateTimelineFromView_query view_ desiredWindow this1)
    as [[u this2] log2].
  cbn [fst snd] in *. subst this2. split; reflexivity.
Qed.

Lemma cycle_not_ready (this : FrigateCardTimelineCore) :
  ~ ready this -> _updateTimelineFromView this = (tt, this, []).
Proof using Type.
  intros Hnot. unfold _updateTimelineFromView, bind, gets. cbn.
  destruct (hass this) eqn:?, (cameras this) eqn:?, (view this) eqn:?,
    (timelineConfig this) eqn:?, (_timelineSource this) eqn:?,
    (_timeline this) eqn:?; try reflexivity.
  exfalso. apply Hnot. unfold ready. rewrite Heqo, Heqo0, Heqo1, Heqo2, Heqo3, Heqo4.
  repeat split; eexists; reflexivity.
Qed.

Lemma ready_fields (this : FrigateCardTimelineCore) :
  ready this ->
  exists hass_ cameras_ view_ config source timeline_,
    hass this = Some hass_ /\ cameras this = Some cameras_ /\ view this = Some view_ /\
    timelineConfig this = Some config /\ _timelineSource this = Some source /\
    _timeline this = Some timeline_.
Proof using Type.
  intros ([h Hh] & [c Hc] & [v Hv] & [g Hg] & [d Hd] & [t Ht]).
  exists h, c, v, g, d, t. repeat split; assumption.
Qed.

(** X5: when the element is ready and no pointer hold is active, a run of
    [_updateTimelineFromView] leaves the widget on the window it computes
    as the one to show, and the first thing it does is refresh the data
    source for the prefetch window of that window. An explicit window in
    the timeline context of the view is that window. *)
Theorem cycle_shows_and_fetches_desired_window (this : FrigateCardTimelineCore)
    (view_ : View) (timeline_ : Timeline) :
  ready this ->
  view this = Some view_ ->
  _timeline this = Some timeline_ ->
  _pointerHeld this = None ->
  exists hass_ shown rest,
    hass this = Some hass_ /\
    getWindow <$> _timeline (state_after _updateTimelineFromView this) = Some shown /\
    shown = desiredWindowOf this view_ timeline_ /\
    effects_of _updateTimelineFromView this =
      Refresh hass_ (_getPrefetchWindow shown) :: rest /\
    Forall (fun e => is_Refresh e = false) rest /\
    (forall w, (context view_ ≫= timeline) ≫= window = Some w -> shown = w).
Proof using Type.
  intros Hready Hview Htimeline Hheld.
  destruct (ready_fields this Hready)
    as (hass_ & cameras_ & v & config & source & t & Hh & Hc & Hv & Hg & Hd & Ht).
  assert (v = view_) by congruence. assert (t = timeline_) by congruence. subst v t.
  destruct (cycle_unfold this hass_ cameras_ view_ config source timeline_
              Hh Hc Hv Hg Hd Ht) as [Hstate Heffects].
  destruct (widget_run hass_ view_ timeline_ this source Hd) as (Hval & Htl & Hlog).
  rewrite Hheld in Htl, Hlog. cbn in Htl, Hlog.
  exists hass_, (desiredWindowOf this view_ timeline_).
  eexists. split; [exact Hh|]. split; [|split; [reflexivity|split; [|split]]].
  - rewrite Hstate, Htl, Ht. cbn.
    destruct (bool_decide_reflect
                (desiredWindowOf this view_ timeline_ = getWindow timeline_))
      as [Heq | Hne]; cbn; congruence.
  - rewrite Heffects, Hlog. cbn. reflexivity.
  - apply Forall_app. split.
    + repeat case_match; repeat constructor.
    + destruct (query_phase view_
                  (value_of (_updateTimelineFromView_widget hass_ view_ timeline_) this)
                  (state_after (_updateTimelineFromView_widget hass_ view_ timeline_) this))
        as [_ Hviews].
      eapply Forall_impl; [exact Hviews|]. intros [] He; cbn in *; auto; discriminate.
  - intros w Hw. unfold desiredWindowOf. rewrite Hw. reflexivity.
Qed.

Lemma cycle_timeline (this : FrigateCardTimelineCore) (view_ : View)
    (timeline_ : Timeline) :
  ready this ->
  view this = Some view_ ->
  _timeline this = Some timeline_ ->
  _timeline (state_after _updateTimelineFromView this) =
    Some {| getWindow :=
              if bool_decide (is_Some (_pointerHeld this))
              then getWindow timeline_ else desiredWindowOf this view_ timeline_;
            getSelection :=
              match desiredIdOf view_ with
              | Some x => [IdString x]
              | None => getSelection timeline_
              end;
            customTimes := customTimes timeline_ |}.
Proof using Type.
  intros Hready Hview Htimeline.
  destruct (ready_fields this Hready)
    as (hass_ & cameras_ & v & config & source & t & Hh & Hc & Hv & Hg & Hd & Ht).
  assert (v = view_) by congruence. assert (t = timeline_) by congruence. subst v t.
  destruct (cycle_unfold this hass_ cameras_ view_ config source timeline_
              Hh Hc Hv Hg Hd Ht) as [Hstate _].
  destruct (widget_run hass_ view_ timeline_ this source Hd) as (_ & Htl & _).
  rewrite Hstate, Htl, Ht. cbn. f_equal. f_equal.
  destruct (bool_decide (is_Some (_pointerHeld this))); [reflexivity|]. cbn.
  destruct (bool_decide_reflect
              (desiredWindowOf this view_ timeline_ = getWindow timeline_));
    congruence.
Qed.

(** X6: after a run of [_updateTimelineFromView] on a ready element, pointer
    held or not, the selection of the widget is the id of the selected media
    item of the view when that item is an event with a non-empty id, and it
    is the selection of before otherwise: for a recording, for no selected
    item, for an item without an id. *)
Theorem cycle_selects_selected_event (this : FrigateCardTimelineCore) (view_ : View)
    (timeline_ : Timeline) :
  ready this ->
  view this = Some view_ ->
  _timeline this = Some timeline_ ->
  getSelection <$> _timeline (state_after _updateTimelineFromView this) =
    Some match queryResults view_ ≫= getSelectedResult with
         | Some m =>
             match ViewMediaClassifier.isEvent m, getID m with
             | true, Some x =>
                 if String.eqb x "" then getSelection timeline_ else [IdString x]
             | _, _ => getSelection timeline_
             end
         | None => getSelection timeline_
         end.
Proof using Type.
  intros Hready Hview Htimeline.
  rewrite (cycle_timeline this view_ timeline_ Hready Hview Htimeline). cbn.
  unfold desiredIdOf. repeat case_match; congruence.
Qed.

Lemma desiredWindowOf_settled (this this1 : FrigateCardTimelineCore) (view_ : View)
    (t t1 : Timeline) :
  timelineConfig this1 = timelineConfig this ->
  getWindow t1 = desiredWindowOf this view_ t ->
  desiredWindowOf this1 view_ t1 = getWindow t1.
Proof using Type.
  intros Hconfig Hshown.
  assert (Hperfect : forall m,
    _getPerfectWindowFromMedia this1 m = _getPerfectWindowFromMedia this m).
  { intros m. unfold _getPerfectWindowFromMedia, _getConfiguredWindowSeconds.
    rewrite Hconfig. reflexivity. }
  unfold desiredWindowOf in *.
  destruct ((context view_ ≫= timeline) ≫= window) as [w|]; [congruence|].
  destruct (queryResults view_ ≫= getSelectedResult) as [m|]; [|reflexivity].
  cbn in *.
  destruct (getStartTime m) as [s|]; [|reflexivity].
  destruct (getEndTime m) as [e|]; [|reflexivity].
  rewrite Hperfect.
  destruct (rangesOverlap {| start := s; end_ := e |} (getWindow t1)) eqn:H1;
    [reflexivity|]. cbn.
  destruct (_getPerfectWindowFromMedia this m) as [p|]; [|reflexivity]. cbn in *.
  destruct (rangesOverlap {| start := s; end_ := e |} (getWindow t)) eqn:H0;
    cbn in Hshown; congruence.
Qed.

Lemma cycle_keeps_ready (this : FrigateCardTimelineCore) :
  ready this -> ready (state_after _updateTimelineFromView this).
Proof using Type.
  intros Hready.
  destruct (ready_fields this Hready)
    as (hass_ & cameras_ & view_ & config & source & timeline_
        & Hh & Hc & Hv & Hg & Hd & Ht).
  pose proof (cycle_timeline this view_ timeline_ Hready Hv Ht) as Htl.
  destruct (cycle_unfold this hass_ cameras_ view_ config source timeline_
              Hh Hc Hv Hg Hd Ht) as [Hstate _].
  destruct (quiet_widget hass_ view_ timeline_ this) as [Hframe _].
  rewrite <- Hstate in Hframe.
  destruct Hframe as (Hh1 & Hv1 & Hc1 & Hg1 & _).
  assert (Hsource1 : is_Some (_timelineSource (state_after _updateTimelineFromView this))).
  { rewrite Hstate.
    unfold _updateTimelineFromView_widget, _isClustering. run_unfold.
    destruct (_pointerHeld this) eqn:Hheld;
      destruct (queryResults view_ ≫= getSelectedResult) eqn:Hm;
      cbn; rewrite ?Hheld, ?Hd; cbn;
      repeat (run_cases_step; cbn; rewrite ?Hheld, ?Hd; cbn);
      rewrite ?Hd; eexists; reflexivity. }
  unfold ready. rewrite Hh1, Hv1, Hc1, Hg1, Htl, Hh, Hv, Hc, Hg.
  repeat split; try (eexists; reflexivity). exact Hsource1.
Qed.

(** X7: a second run of [_updateTimelineFromView], with the view and the
    pointer hold as they were, leaves the widget as the first run left it:
    its window, its selection and its custom time bars. *)
Theorem cycle_idempotent_on_widget (this : FrigateCardTimelineCore) :
  _timeline (state_after _updateTimelineFromView
               (state_after _updateTimelineFromView this)) =
  _timeline (state_after _updateTimelineFromView this).
Proof using Type.
  destruct (decide (ready this)) as [Hready | Hnot].
  2: { unfold state_after at 2 3. rewrite (cycle_not_ready this Hnot). cbn.
       unfold state_after. rewrite (cycle_not_ready this Hnot). reflexivity. }
  destruct (ready_fields this Hready)
    as (hass_ & cameras_ & view_ & config & source & timeline_
        & Hh & Hc & Hv & Hg & Hd & Ht).
  pose proof (cycle_timeline this view_ timeline_ Hready Hv Ht) as Htl.
  pose proof (cycle_keeps_ready this Hready) as Hready1.
  destruct (cycle_unfold this hass_ cameras_ view_ config source timeline_
              Hh Hc Hv Hg Hd Ht) as [Hstate _].
  destruct (quiet_widget hass_ view_ timeline_ this) as [Hframe _].
  rewrite <- Hstate in Hframe.
  destruct Hframe as (_ & Hv1 & _ & Hg1 & _ & _ & _ & _ & _ & Hheld1 & _).
  set (this1 := state_after _updateTimelineFromView this) in *.
  rewrite Hv in Hv1.
  rewrite (cycle_timeline this1 view_ _ Hready1 Hv1 Htl), Htl. cbn.
  rewrite Hheld1. f_equal. f_equal.
  - destruct (bool_decide (is_Some (_pointerHeld this))); [reflexivity|].
    apply (desiredWindowOf_settled this this1 view_ timeline_); [exact Hg1 | reflexivity].
  - destruct (desiredIdOf view_); reflexivity.
Qed.

Lemma query_effects (view_ : View) (desiredWindow : TimelineWindow)
    (this : FrigateCardTimelineCore) :
  effects_of (_updateTimelineFromView_query view_ desiredWindow) this = [] \/
  exists newView,
    effects_of (_updateTimelineFromView_query view_ desiredWindow) this =
      [ViewChange newView] /\
    mini this = false /\ areRecordingQueries (query view_) = false.
Proof using Type.
  unfold effects_of, _updateTimelineFromView_query, bind, gets, dispatchChangeEvent,
    emit, ret.
  cbn.
  destruct (_createEventMediaQuerys this (Some desiredWindow)) as [fresh|];
    [|left; reflexivity].
  destruct (mini this); [left; reflexivity|].
  destruct (areRecordingQueries (query view_)); [left; reflexivity|].
  destruct (_alreadyHasAcceptableMediaQuery this fresh); [left; reflexivity|]. cbn.
  destruct (_createViewWithEventMediaQuery this (Some fresh) None None) as [newView|];
    [|left; reflexivity].
  right. eexists. repeat split; reflexivity.
Qed.

(** X8: a run of [_updateTimelineFromView] issues at most one refresh, then
    at most one rewrite, then at most one view change, and nothing else. It
    refreshes and rewrites only when no pointer hold is active; it rewrites
    only when clustering is on, and then the id of the selected media item
    of the view; it dispatches a view only when the element is not in mini
    mode and the query of the view is not a recordings query. *)
Theorem cycle_effects_in_order (this : FrigateCardTimelineCore) :
  exists refreshes rewrites changes,
    effects_of _updateTimelineFromView this = refreshes ++ rewrites ++ changes /\
    (refreshes = [] \/
     exists hass_ w, refreshes = [Refresh hass_ w] /\ _pointerHeld this = None) /\
    (rewrites = [] \/
     exists x, rewrites = [RewriteEvent x] /\ _pointerHeld this = None /\
               _isClustering this = true /\
               ((view this ≫= queryResults) ≫= getSelectedResult) ≫= getID = Some x) /\
    (changes = [] \/
     exists v, changes = [ViewChange v] /\ mini this = false /\
               areRecordingQueries (view this ≫= query) = false).
Proof using Type.
  destruct (decide (ready this)) as [Hready | Hnot].
  2: { exists [], [], []. unfold effects_of. rewrite (cycle_not_ready this Hnot).
       repeat split; auto. }
  destruct (ready_fields this Hready)
    as (hass_ & cameras_ & view_ & config & source & timeline_
        & Hh & Hc & Hv & Hg & Hd & Ht).
  destruct (cycle_unfold this hass_ cameras_ view_ config source timeline_
              Hh Hc Hv Hg Hd Ht) as [_ Heffects].
  destruct (widget_run hass_ view_ timeline_ this source Hd) as (_ & _ & Hlog).
  destruct (quiet_widget hass_ view_ timeline_ this) as [Hframe _].
  destruct Hframe as (_ & _ & _ & _ & Hmini1 & _).
  rewrite Heffects, Hlog, Hv. cbn.
  set (changes := effects_of (_updateTimelineFromView_query view_ _) _).
  assert (Hchanges : changes = [] \/
     exists v, changes = [ViewChange v] /\ mini this = false /\
               areRecordingQueries (query view_) = false).
  { subst changes.
    match goal with
    | |- effects_of (_updateTimelineFromView_query ?v ?w) ?s = [] \/ _ =>
        destruct (query_effects v w s) as [Hnil | (nv & Hone & Hm & Hr)]
    end; [left; exact Hnil | right; exists nv].
    rewrite <- Hmini1. auto. }
  destruct (_pointerHeld this) as [p|] eqn:Hheld; cbn.
  - exists [], [], changes. repeat split; auto.
  - destruct ((queryResults view_ ≫= getSelectedResult) ≫= getID) as [x|] eqn:Hx.
    + destruct (negb (String.eqb x "") && _isClustering this) eqn:Hcond.
      * apply andb_true_iff in Hcond as [_ Hclu].
        exists [Refresh hass_ (_getPrefetchWindow (desiredWindowOf this view_ timeline_))],
          [RewriteEvent x], changes.
        split; [reflexivity|]. split; [right; eauto|]. split; [right; eauto|]. exact Hchanges.
      * exists [Refresh hass_ (_getPrefetchWindow (desiredWindowOf this view_ timeline_))],
          [], changes.
        split; [reflexivity|]. split; [right; eauto|]. split; [left; reflexivity|].
        exact Hchanges.
    + exists [Refresh hass_ (_getPrefetchWindow (desiredWindowOf this view_ timeline_))],
        [], changes.
      split; [reflexivity|]. split; [right; eauto|]. split; [left; reflexivity|].
      exact Hchanges.
Qed.

Lemma cycle_frame_holds (this : FrigateCardTimelineCore) :
  frame this (state_after _updateTimelineFromView this) /\
  customTimes <$> _timeline (state_after _updateTimelineFromView this) =
    customTimes <$> _timeline this.
Proof using Type.
  destruct (decide (ready this)) as [Hready | Hnot].
  2: { unfold state_after. rewrite (cycle_not_ready this Hnot). cbn.
       split; [apply frame_refl | reflexivity]. }
  destruct (ready_fields this Hready)
    as (hass_ & cameras_ & view_ & config & source & timeline_
        & Hh & Hc & Hv & Hg & Hd & Ht).
  split.
  - destruct (cycle_unfold this hass_ cameras_ view_ config source timeline_
                Hh Hc Hv Hg Hd Ht) as [Hstate _].
    rewrite Hstate. apply quiet_widget.
  - rewrite (cycle_timeline this view_ timeline_ Hready Hv Ht), Ht. reflexivity.
Qed.

(** X9: a run of [_updateTimelineFromView] changes nothing of the element
    but the data source and the window and selection of the widget: the
    custom time bars of the widget, the pointer hold, the flags and the
    properties of the element are as before. *)
Theorem cycle_frame (this : FrigateCardTimelineCore) :
  frame this (state_after _updateTimelineFromView this) /\
  customTimes <$> _timeline (state_after _updateTimelineFromView this) =
    customTimes <$> _timeline this.
Proof using Type. apply cycle_frame_holds. Qed.

(** ** More on the click handler *)

Lemma click_run (properties : TimelineEventPropertiesResult)
    (this : FrigateCardTimelineCore) (hass_ : ExtendedHomeAssistant)
    (timeline_ : Timeline) (cameras_ : gmap string CameraConfig) (view_ : View)
    (cameraManager_ : CameraManager) (what_ : WhatType) :
  _ignoreClick this = false ->
  hass this = Some hass_ -> _timeline this = Some timeline_ ->
  cameras this = Some cameras_ -> view this = Some view_ ->
  cameraManager this = Some cameraManager_ -> what properties = Some what_ ->
  exists newView : option View,
    _timelineClickHandler properties this =
      (tt, set__ignoreClick false this,
       (if bool_decide (what_ ∈ [item_; background; group_label; axis])
        then [StopEventFromActivatingCardWideActions] else []) ++
       match newView with
       | Some v =>
           ViewChange v ::
           (if is_ "timeline" view_ then [FrigateCardEvent "thumbnails:open"] else [])
       | None =>
           if is_ "timeline" view_ then [FrigateCardEvent "thumbnails:close"] else []
       end).
Proof using Type.
  intros Hignore Hh Ht Hc Hv Hm Hw.
  unfold _timelineClickHandler.
  unfold bind at 1, gets at 1. cbn [fst snd id].
  rewrite Hignore, Hh, Ht, Hc, Hv, Hm, Hw.
  match goal with
  | |- context [match ?nv with Some v => bind (dispatchChangeEvent v) _ | None => _ end] =>
      exists nv; destruct nv
  end;
    destruct (bool_decide (what_ ∈ [item_; background; group_label; axis]));
    destruct (is_ "timeline" view_); reflexivity.
Qed.

Lemma click_not_ready (properties : TimelineEventPropertiesResult)
    (this : FrigateCardTimelineCore) :
  _ignoreClick this = false ->
  ~ click_ready properties this ->
  _timelineClickHandler properties this =
    (tt, this,
     match what properties with
     | Some what_ =>
         if bool_decide (what_ ∈ [item_; background; group_label; axis])
         then [StopEventFromActivatingCardWideActions] else []
     | None => []
     end).
Proof using Type.
  intros Hignore Hnot. unfold _timelineClickHandler.
  unfold bind at 1, gets at 1. cbn [fst snd id]. rewrite Hignore.
  destruct (hass this) eqn:?, (_timeline this) eqn:?, (cameras this) eqn:?,
    (view this) eqn:?, (cameraManager this) eqn:?, (what properties) eqn:?;
    try (exfalso; apply Hnot; unfold click_ready;
         rewrite Heqo, Heqo0, Heqo1, Heqo2, Heqo3, Heqo4;
         repeat split; eexists; reflexivity);
    run_unfold; cbn;
    try match goal with
        | |- context [bool_decide ?P] => destruct (bool_decide P)
        end; reflexivity.
Qed.

(** X10: a click that is not ignored, with the collaborators present and a
    click target, in a view of name timeline, signals the thumbnails
    exactly once: it dispatches a view and then signals them to open, or it
    dispatches no view and signals them to close. Before that it stops the
    event from card-wide actions when the target is an item, the
    background, a group label or the axis, and it does nothing else. *)
Theorem click_opens_or_closes_thumbnails (properties : TimelineEventPropertiesResult)
    (this : FrigateCardTimelineCore) (view_ : View) (what_ : WhatType) :
  _ignoreClick this = false ->
  click_ready properties this ->
  view this = Some view_ ->
  what properties = Some what_ ->
  is_ "timeline" view_ = true ->
  let stop :=
    if bool_decide (what_ ∈ [item_; background; group_label; axis])
    then [StopEventFromActivatingCardWideActions] else [] in
  effects_of (_timelineClickHandler properties) this =
    stop ++ [FrigateCardEvent "thumbnails:close"] \/
  exists v,
    effects_of (_timelineClickHandler properties) this =
      stop ++ [ViewChange v; FrigateCardEvent "thumbnails:open"].
Proof using Type.
  intros Hignore ([h Hh] & [t Ht] & [c Hc] & [v Hv] & [m Hm] & [w Hw]) Hview Hwhat Htl.
  assert (v = view_) by congruence. assert (w = what_) by congruence. subst v w.
  destruct (click_run properties this h t c view_ m what_ Hignore Hh Ht Hc Hv Hm Hw)
    as [newView Hrun].
  unfold effects_of. rewrite Hrun, Htl. cbn.
  destruct newView as [nv|]; [right; exists nv; reflexivity | left; reflexivity].
Qed.

Lemma click_state (properties : TimelineEventPropertiesResult)
    (this : FrigateCardTimelineCore) :
  state_after (_timelineClickHandler properties) this = this \/
  state_after (_timelineClickHandler properties) this = set__ignoreClick false this.
Proof using Type.
  unfold state_after.
  destruct (_ignoreClick this) eqn:Hignore.
  - left. rewrite (click_ignored properties this Hignore). reflexivity.
  - destruct (decide (click_ready properties this))
      as [([h Hh] & [t Ht] & [c Hc] & [v Hv] & [m Hm] & [w Hw]) | Hnot].
    + right.
      destruct (click_run properties this h t c v m w Hignore Hh Ht Hc Hv Hm Hw)
        as [newView Hrun].
      rewrite Hrun. reflexivity.
    + left. rewrite (click_not_ready properties this Hignore Hnot). reflexivity.
Qed.

(** X11: the click handler changes nothing of the element but the flag
    [_ignoreClick]: the widget, the data source, the pointer hold and the
    target bar are as before. *)
Theorem click_touches_only_the_flag (properties : TimelineEventPropertiesResult)
    (this : FrigateCardTimelineCore) :
  state_after (_timelineClickHandler properties) this = this \/
  state_after (_timelineClickHandler properties) this = set__ignoreClick false this.
Proof using Type. apply click_state. Qed.

(** X12: when recordings are not shown ([show_recordings] is absent or
    false), a click on the background, on a group label or on the axis
    dispatches no view. *)
Theorem click_without_recordings_dispatches_nothing
    (properties : TimelineEventPropertiesResult) (this : FrigateCardTimelineCore)
    (what_ : WhatType) :
  truthy_bool (timelineConfig this ≫= show_recordings) = false ->
  what properties = Some what_ ->
  what_ = background \/ what_ = group_label \/ what_ = axis ->
  Forall (fun e => is_ViewChange e = false)
         (effects_of (_timelineClickHandler properties) this).
Proof using Type.
  intros Hoff Hwhat Hkind. unfold effects_of.
  destruct (_ignoreClick this) eqn:Hignore.
  { rewrite (click_ignored properties this Hignore). repeat constructor. }
  destruct (decide (click_ready properties this))
    as [([h Hh] & [t Ht] & [c Hc] & [v Hv] & [m Hm] & _) | Hnot].
  2: { rewrite (click_not_ready properties this Hignore Hnot).
       repeat case_match; repeat constructor. }
  unfold _timelineClickHandler.
  unfold bind at 1, gets at 1. cbn [fst snd id].
  rewrite Hignore, Hh, Ht, Hc, Hv, Hm, Hwhat, Hoff.
  destruct Hkind as [-> | [-> | ->]];
    cbn -[_createViewWithEventMediaQuery _createEventMediaQuerys];
    destruct (item properties) as [clicked|];
    rewrite ?andb_false_r; run_unfold; cbn;
    destruct (is_ "timeline" v); cbn; repeat constructor.
Qed.

Lemma selectResultIfFound_results (func : ViewMedia -> bool) (r : MediaQueriesResults) :
  getResults (selectResultIfFound func r) = getResults r.
Proof using Type.
  unfold selectResultIfFound.
  destruct (getResults r) as [l|] eqn:Hl; [|exact Hl].
  destruct (findIndex func l); [reflexivity | exact Hl].
Qed.

(** X13: a click on an item whose id is the id of a media item of the
    results of the view dispatches the view with that item selected in the
    same results and the same query, and with a seek to the time of the
    click in its context. *)
Theorem click_on_item_selects_it (properties : TimelineEventPropertiesResult)
    (this : FrigateCardTimelineCore) (view_ : View) (x : string)
    (r : MediaQueriesResults) (l : list ViewMedia) (m : ViewMedia) :
  _ignoreClick this = false ->
  click_ready properties this ->
  view this = Some view_ ->
  what properties = Some item_ ->
  item properties = Some (IdString x) ->
  x <> "" ->
  queryResults view_ = Some r ->
  getResults r = Some l ->
  m ∈ l ->
  getID m = Some x ->
  exists v selected,
    ViewChange v ∈ effects_of (_timelineClickHandler properties) this /\
    query v = query view_ /\
    (getResults <$> queryResults v) = Some (Some l) /\
    queryResults v ≫= getSelectedResult = Some selected /\
    getID selected = Some x /\
    (context v ≫= mediaViewer) ≫= seek = Some (time properties).
Proof using Type.
  intros Hignore ([h Hh] & [t Ht] & [c Hc] & [v Hv] & [cm Hm] & _) Hview Hwhat Hitem
    Hx Hr Hl Hin Hid.
  assert (v = view_) by congruence. subst v.
  set (func := fun m0 : ViewMedia =>
                 bool_decide (is_Some (Some c)) && mediaID_is (getID m0) (IdString x)).
  set (R := selectResultIfFound func (resetSelectedResult r)).
  assert (HRl : getResults R = Some l).
  { unfold R. rewrite selectResultIfFound_results. exact Hl. }
  assert (Hfm : func m = true).
  { unfold func. rewrite Hid. cbn. apply String.eqb_refl. }
  destruct (selectResultIfFound_selects func (resetSelectedResult r) l m HRl Hin Hfm)
    as (selected & Hsel & Hfsel).
  fold R in Hsel.
  assert (Hhas : hasSelectedResult R = true).
  { unfold hasSelectedResult. apply bool_decide_eq_true. rewrite Hsel. eexists; reflexivity. }
  assert (Hres : hasResults R = true).
  { unfold hasResults. rewrite HRl. destruct l; [inversion Hin | reflexivity]. }
  assert (Hselid : getID selected = Some x).
  { unfold func in Hfsel. apply andb_true_iff in Hfsel as [_ Hfsel].
    unfold mediaID_is in Hfsel. destruct (getID selected) as [y|]; [|discriminate].
    apply String.eqb_eq in Hfsel. congruence. }
  exists (mergeInContext
            {| timeline := None;
               mediaViewer := Some {| seek := Some (time properties) |} |}
            (evolve_queryResults R view_)), selected.
  split.
  - unfold effects_of, _timelineClickHandler.
    unfold bind at 1, gets at 1. cbn [fst snd id].
    rewrite Hignore, Hh, Ht, Hc, Hv, Hm, Hwhat, Hitem, Hr.
    change (bool_decide (item_ ∈ [background; group_label])) with false.
    change (bool_decide (item_ = axis)) with false.
    change (bool_decide (item_ = item_)) with true.
    rewrite !andb_false_r.
    assert (Htruthy : IdType_truthy (IdString x) = true).
    { cbn. apply negb_true_iff, String.eqb_neq. exact Hx. }
    rewrite Htruthy.
    cbn [andb fmap option_fmap option_map].
    fold func. fold R. rewrite Hhas.
    cbn [queryResults evolve_queryResults default fmap option_fmap option_map].
    rewrite Hres.
    run_unfold. cbn. destruct (is_ "timeline" view_); cbn; repeat constructor.
  - cbn. split; [reflexivity|]. rewrite HRl. split; [reflexivity|].
    split; [exact Hsel|]. split; [exact Hselid|].
    destruct (context view_) as [ctx|]; cbn; [|reflexivity].
    destruct (mediaViewer ctx); reflexivity.
Qed.

(** ** More on range changes and the target bar *)

Lemma removeTargetBar_run (this : FrigateCardTimelineCore) :
  _removeTargetBar this =
    (tt,
     if _targetBarVisible this
     then set__targetBarVisible false
            (set__timeline (removeCustomTime TIMELINE_TARGET_BAR_ID <$> _timeline this) this)
     else this,
     []).
Proof using Type.
  unfold _removeTargetBar. run_unfold. cbn.
  destruct (_targetBarVisible this); reflexivity.
Qed.

Lemma setTargetBar_run (targetTime : Date) (this : FrigateCardTimelineCore)
    (t : Timeline) :
  _timeline this = Some t ->
  exists targetBarOn : bool,
    (_locked this = false -> targetBarOn = true) /\
    (_locked this = true -> mini this = false -> targetBarOn = false) /\
    _setTargetBarAppropriately targetTime this =
      (tt,
       if targetBarOn
       then set__targetBarVisible true
              (set__timeline (Some (setCustomTime targetTime TIMELINE_TARGET_BAR_ID t)) this)
       else (_removeTargetBar this).1.2,
       []).
Proof using Type.
  intros Ht. unfold _setTargetBarAppropriately.
  unfold bind at 1, gets at 1. cbn [fst snd id]. rewrite Ht.
  match goal with
  | |- context [if ?c then _ else _removeTargetBar] => exists c; destruct c eqn:Hc
  end.
  - split; [reflexivity|]. split.
    + intros Hlocked Hmini. rewrite Hlocked, Hmini in Hc. discriminate.
    + run_unfold. cbn. rewrite Ht. reflexivity.
  - split; [|split; [reflexivity|]].
    + intros Hlocked. rewrite Hlocked in Hc. discriminate.
    + rewrite removeTargetBar_run. reflexivity.
Qed.

(** X14: a range change that is not made by the user, or is a wheel or a
    pinch zoom, has no effect on the collaborators and changes nothing of
    the element, the widget included, but the flag [_ignoreClick], which it
    sets when a pointer hold is active. *)
Theorem zoom_range_change_sets_only_the_flag (properties : TimelineRangeChange)
    (this : FrigateCardTimelineCore) :
  rangeChangeIsPan properties = false ->
  _timelineRangeChangeHandler properties this =
    (tt,
     match _pointerHeld this with
     | Some _ => set__ignoreClick true this
     | None => this
     end,
     []).
Proof using Type.
  intros Hzoom. unfold _timelineRangeChangeHandler. run_unfold.
  destruct (_pointerHeld this) eqn:Hheld; cbn; rewrite Hzoom, andb_false_r; reflexivity.
Qed.

Lemma rangeChange_state (properties : TimelineRangeChange)
    (this : FrigateCardTimelineCore) :
  state_after (_timelineRangeChangeHandler properties) this =
    match _pointerHeld this with
    | Some _ =>
        if bool_decide (is_Some (_timeline this)) && rangeChangeIsPan properties
        then state_after
               (_setTargetBarAppropriately
                  (rangeChangeTargetTime this properties))
               (set__ignoreClick true this)
        else set__ignoreClick true this
    | None => this
    end.
Proof using Type.
  unfold state_after, _timelineRangeChangeHandler, bind, gets, when, modify, emit, ret.
  cbn -[_setTargetBarAppropriately rangeChangeTargetTime].
  destruct (_pointerHeld this) as [p|] eqn:Hheld;
    cbn -[_setTargetBarAppropriately rangeChangeTargetTime];
    destruct (bool_decide (is_Some (_timeline this)) && rangeChangeIsPan properties);
    rewrite ?Hheld; cbn -[_setTargetBarAppropriately rangeChangeTargetTime];
    try reflexivity.
  change (rangeChangeTargetTime (set__ignoreClick true this) properties)
    with (rangeChangeTargetTime this properties).
  destruct (_setTargetBarAppropriately _ _) as [[u s'] log]. reflexivity.
Qed.

(** X15: a range change made by the user by a pan, while a pointer hold is
    active, puts the target bar of the widget at the target time when the
    timeline is not locked, and records it as visible; when the timeline is
    locked and the element is not in mini mode it records the target bar as
    not visible. The window and the selection of the widget are as before. *)
Theorem pan_moves_the_target_bar (properties : TimelineRangeChange)
    (this : FrigateCardTimelineCore) (t : Timeline) (p : PointerHeld) :
  _timeline this = Some t ->
  _pointerHeld this = Some p ->
  rangeChangeIsPan properties = true ->
  let this' := state_after (_timelineRangeChangeHandler properties) this in
  exists t',
    _timeline this' = Some t' /\
    getWindow t' = getWindow t /\ getSelection t' = getSelection t /\
    (_locked this = false ->
     _targetBarVisible this' = true /\
     customTimes t' !! TIMELINE_TARGET_BAR_ID =
       Some (rangeChangeTargetTime this properties)) /\
    (_locked this = true -> mini this = false -> _targetBarVisible this' = false).
Proof using Type.
  intros Ht Hheld Hpan this'. subst this'.
  rewrite rangeChange_state, Hheld, Ht, Hpan. cbn [andb].
  replace (bool_decide (is_Some (Some t))) with true
    by (symmetry; apply bool_decide_eq_true; eexists; reflexivity).
  destruct (setTargetBar_run (rangeChangeTargetTime this properties)
              (set__ignoreClick true this) t Ht)
    as (on & Hon & Hoff & Hrun).
  unfold state_after. rewrite Hrun. cbn [fst snd].
  destruct on.
  - eexists. split; [reflexivity|]. cbn. split; [reflexivity|]. split; [reflexivity|].
    split.
    + intros _. split; [reflexivity|]. apply lookup_insert_eq.
    + intros Hlocked Hmini. specialize (Hoff Hlocked Hmini). discriminate.
  - rewrite removeTargetBar_run. cbn.
    destruct (_targetBarVisible this) eqn:Hvis; cbn; rewrite ?Ht, ?Hvis; cbn;
      (eexists; split; [reflexivity|]; cbn;
       split; [reflexivity|]; split; [reflexivity|]; split;
       [intros Hlocked; specialize (Hon Hlocked); discriminate | reflexivity]).
Qed.

Lemma removeTargetBar_fields (this : FrigateCardTimelineCore) :
  let this1 := state_after _removeTargetBar this in
  frame (set__targetBarVisible false this) this1 /\
  _timelineSource this1 = _timelineSource this /\
  getWindow <$> _timeline this1 = getWindow <$> _timeline this /\
  getSelection <$> _timeline this1 = getSelection <$> _timeline this.
Proof using Type.
  unfold state_after. rewrite removeTargetBar_run. cbn.
  destruct (_targetBarVisible this) eqn:Hvis; cbn.
  - unfold frame. cbn. destruct (_timeline this); repeat split.
  - unfold frame. cbn. repeat split. exact Hvis.
Qed.

Lemma rangeChanged_unfold (properties : TimelineRangeChange)
    (this : FrigateCardTimelineCore) (hass_ : ExtendedHomeAssistant)
    (cameras_ : gmap string CameraConfig) (source : TimelineDataSource) :
  byUser properties = true ->
  hass this = Some hass_ -> cameras this = Some cameras_ ->
  _timelineSource this = Some source ->
  let this1 := state_after _removeTargetBar this in
  let this2 :=
    set__timelineSource
      (Some (refresh hass_ (_getPrefetchWindow (range properties)) source)) this1 in
  exists changes,
    _timelineRangeChangedHandler properties this =
      (tt, this2, Refresh hass_ (_getPrefetchWindow (range properties)) :: changes) /\
    (changes = [] \/
     exists view_ timeline_ newView newResults,
       view this = Some view_ /\ _timeline this2 = Some timeline_ /\
       areRecordingQueries (query view_) = false /\
       _createViewWithEventMediaQuery this2
         (_createEventMediaQuerys this2 (Some (getWindow timeline_))) None None =
         Some newView /\
       queryResults newView = Some newResults /\
       (forall r, queryResults view_ = Some r -> isSupersetOf r newResults = false) /\
       changes = [ViewChange (mergeInContext (_setWindowInContext this2 None) newView)]).
Proof using Type.
  intros Hby Hh Hc Hd this1 this2.
  destruct (removeTargetBar_fields this) as ((Hh1 & Hv1 & Hc1 & _) & Hd1 & _).
  fold this1 in Hh1, Hv1, Hc1, Hd1. cbn in Hh1, Hv1, Hc1.
  unfold _timelineRangeChangedHandler. rewrite Hby. cbn [negb].
  unfold bind at 1. unfold state_after in this1.
  destruct (_removeTargetBar this) as [[u s1] log1] eqn:Hremove.
  assert (log1 = []) by (rewrite removeTargetBar_run in Hremove; congruence).
  subst log1. cbn [fst snd] in this1. subst this1.
  unfold bind at 1, gets at 1. cbn [fst snd id].
  rewrite Hh1, Hc1, Hh, Hc.
  unfold bind at 1. unfold source_refresh at 1. run_unfold. cbn [fst snd id].
  rewrite Hd1, Hd. cbn [fst snd id app]. fold this2.
  assert (Hv2 : view this2 = view this) by (subst this2; cbn; exact Hv1).
  rewrite Hv2.
  destruct (_timeline this2) as [timeline_|] eqn:Ht2;
    [|eexists; split; [reflexivity | left; reflexivity]].
  destruct (view this) as [view_|] eqn:Hv;
    [|eexists; split; [reflexivity | left; reflexivity]].
  destruct (areRecordingQueries (query view_)) eqn:Hrec; cbn [negb];
    [eexists; split; [reflexivity | left; reflexivity]|].
  destruct (_createViewWithEventMediaQuery this2 _ None None) as [newView|] eqn:Hnew;
    [|eexists; split; [reflexivity | left; reflexivity]].
  destruct (queryResults newView) as [newResults|] eqn:Hnr;
    [|eexists; split; [reflexivity | left; reflexivity]].
  destruct (negb (default false ((fun r => isSupersetOf r newResults) <$>
                                   queryResults view_))) eqn:Hsuper;
    [|eexists; split; [reflexivity | left; reflexivity]].
  eexists. split; [reflexivity|]. right.
  exists view_, timeline_, newView, newResults.
  repeat split; try assumption; try reflexivity.
  intros r Hr. rewrite Hr in Hsuper. cbn in Hsuper.
  apply negb_true_iff in Hsuper. exact Hsuper.
Qed.

(** X16: a final range change that is not made by the user does nothing. One
    made by the user, with the home assistant, the cameras and the data
    source present, first refreshes the data source for the prefetch window
    of the final range and leaves the target bar recorded as not visible.
    On a view whose query is a recordings query that refresh is all it does.
    When it dispatches a view, the results of that view are not covered by
    the results of the current view, and its timeline context holds the
    window of the widget. *)
Theorem final_range_change (properties : TimelineRangeChange)
    (this : FrigateCardTimelineCore) (hass_ : ExtendedHomeAssistant)
    (source : TimelineDataSource) :
  hass this = Some hass_ -> is_Some (cameras this) ->
  _timelineSource this = Some source ->
  (byUser properties = false ->
   _timelineRangeChangedHandler properties this = (tt, this, [])) /\
  (byUser properties = true ->
   exists changes,
     effects_of (_timelineRangeChangedHandler properties) this =
       Refresh hass_ (_getPrefetchWindow (range properties)) :: changes /\
     _targetBarVisible (state_after (_timelineRangeChangedHandler properties) this)
       = false /\
     (forall view_, view this = Some view_ ->
        areRecordingQueries (query view_) = true -> changes = []) /\
     (changes = [] \/
      exists v newResults,
        changes = [ViewChange v] /\
        queryResults v = Some newResults /\
        (forall view_ r, view this = Some view_ -> queryResults view_ = Some r ->
           isSupersetOf r newResults = false) /\
        (context v ≫= timeline) ≫= window = getWindow <$> _timeline this)).
Proof using Type.
  intros Hh [cameras_ Hc] Hd. split.
  - intros Hby. unfold _timelineRangeChangedHandler. rewrite Hby. reflexivity.
  - intros Hby.
    destruct (rangeChanged_unfold properties this hass_ cameras_ source Hby Hh Hc Hd)
      as (changes & Hrun & Hchanges).
    destruct (removeTargetBar_fields this) as ((_ & _ & _ & _ & _ & _ & _ & _ & Hvis & _)
                                               & _ & Hwin & _).
    exists changes. unfold effects_of, state_after in *. rewrite Hrun. cbn [fst snd].
    split; [reflexivity|]. split; [exact Hvis|]. split.
    + intros view_ Hv Hrec.
      destruct Hchanges as [-> | (v' & t' & nv & nr & Hv' & _ & Hrec' & _)];
        [reflexivity | congruence].
    + destruct Hchanges as [-> | (v' & t' & nv & nr & Hv' & Ht' & _ & _ & Hnr & Hsup & ->)];
        [left; reflexivity | right].
      eexists. exists nr. split; [reflexivity|]. split; [exact Hnr|]. split.
      * intros view_ r Hv Hr. apply Hsup. congruence.
      * cbn in Ht'. rewrite <- Hwin.
        unfold _setWindowInContext. cbn. rewrite Ht'. cbn.
        destruct (context nv) as [ctx|]; cbn; [|reflexivity].
        destruct (timeline ctx); reflexivity.
Qed.

Lemma setViewDuringRangeChange_run (targetTime : Date) (properties : TimelineRangeChange)
    (this : FrigateCardTimelineCore) :
  _setViewDuringRangeChange targetTime properties this = (tt, this, []) \/
  exists view_ results (selected : option MediaQueriesResults),
    view this = Some view_ /\ queryResults view_ = Some results /\
    is_Some (additionalEvent (event properties)) /\
    (_locked this = true -> selected = None) /\
    (isViewerView view_ = false -> is_Some selected) /\
    _setViewDuringRangeChange targetTime properties this =
      (tt, this,
       [ViewChange
          (mergeInContext
             {| timeline :=
                  timeline (_setWindowInContext this (Some (range properties)));
                mediaViewer :=
                  if isViewerView view_ then Some {| seek := Some targetTime |}
                  else None |}
             match selected with
             | Some r => evolve_queryResults r view_
             | None => view_
             end)]).
Proof using Type.
  remember (_setViewDuringRangeChange targetTime properties this) as run eqn:Hrun.
  unfold _setViewDuringRangeChange, bind, gets in Hrun. cbn [fst snd id] in Hrun.
  destruct (view this) as [view_|] eqn:Hv; [|left; subst run; reflexivity].
  cbn [mbind option_bind] in Hrun.
  destruct (queryResults view_) as [results|] eqn:Hr; [|left; subst run; reflexivity].
  cbn [mbind option_bind] in Hrun.
  destruct (getResults results); [|left; subst run; reflexivity].
  destruct (_timeline this); [|left; subst run; reflexivity].
  destruct (hass this); [|left; subst run; reflexivity].
  destruct (cameraManager this); [|left; subst run; reflexivity].
  destruct (additionalEvent (event properties)) as [a|]; [|left; subst run; reflexivity].
  destruct (String.eqb a ""); [left; subst run; reflexivity|].
  match type of Hrun with
  | context [if isViewerView view_ || ?c then _ else _] =>
      destruct (isViewerView view_ || c) eqn:Hgo
  end; [|left; subst run; reflexivity].
  right. exists view_, results.
  destruct (_locked this) eqn:Hlocked.
  - exists None. rewrite orb_false_r in Hgo.
    split; [first [reflexivity | assumption]|].
    split; [first [reflexivity | assumption]|]. split; [eexists; reflexivity|].
    split; [reflexivity|]. split; [congruence | subst run; reflexivity].
  - match type of Hrun with
    | context [if hasSelectedResult ?r then Some ?r else None] =>
        destruct (hasSelectedResult r) eqn:Hsel;
        [exists (Some r) | exists None]
    end.
    + split; [first [reflexivity | assumption]|].
    split; [first [reflexivity | assumption]|]. split; [eexists; reflexivity|].
      split; [discriminate|]. split; [eexists; reflexivity | subst run; reflexivity].
    + rewrite orb_false_r in Hgo.
      split; [first [reflexivity | assumption]|].
    split; [first [reflexivity | assumption]|]. split; [eexists; reflexivity|].
      split; [reflexivity|]. split; [congruence | subst run; reflexivity].
Qed.

(** X17: while the timeline is locked, a range change under way never
    changes the selection: [_setViewDuringRangeChange] dispatches a view
    only when the view is a viewer view, and the view it dispatches has the
    query results of the current view. *)
Theorem locked_range_change_keeps_selection (targetTime : Date)
    (properties : TimelineRangeChange) (this : FrigateCardTimelineCore) (v : View) :
  _locked this = true ->
  ViewChange v ∈ effects_of (_setViewDuringRangeChange targetTime properties) this ->
  exists view_,
    view this = Some view_ /\ isViewerView view_ = true /\
    queryResults v = queryResults view_.
Proof using Type.
  intros Hlocked Hin. unfold effects_of in Hin.
  destruct (setViewDuringRangeChange_run targetTime properties this)
    as [Hrun | (view_ & results & selected & Hv & Hr & _ & Hsel & Hviewer & Hrun)];
    rewrite Hrun in Hin; cbn in Hin; [inversion Hin|].
  apply list_elem_of_singleton in Hin. injection Hin as ->.
  rewrite (Hsel Hlocked) in *. exists view_. split; [exact Hv|]. split.
  - destruct (isViewerView view_); [reflexivity|].
    destruct (Hviewer eq_refl) as [? ?]. discriminate.
  - reflexivity.
Qed.

(** X18: [_setViewDuringRangeChange] changes nothing of the element and
    dispatches at most one view. The view it dispatches holds the window of
    the range change in its timeline context; it holds a seek to the target
    time when the current view is a viewer view; and it is dispatched only
    for a range change with a pan direction ([additionalEvent]). *)
Theorem range_change_view_carries_window (targetTime : Date)
    (properties : TimelineRangeChange) (this : FrigateCardTimelineCore) :
  state_after (_setViewDuringRangeChange targetTime properties) this = this /\
  (effects_of (_setViewDuringRangeChange targetTime properties) this = [] \/
   exists v view_,
     effects_of (_setViewDuringRangeChange targetTime properties) this = [ViewChange v] /\
     view this = Some view_ /\
     is_Some (additionalEvent (event properties)) /\
     (context v ≫= timeline) ≫= window = Some (range properties) /\
     (isViewerView view_ = true ->
      (context v ≫= mediaViewer) ≫= seek = Some targetTime)).
Proof using Type.
  unfold state_after, effects_of.
  destruct (setViewDuringRangeChange_run targetTime properties this)
    as [Hrun | (view_ & results & selected & Hv & Hr & Hadd & _ & _ & Hrun)];
    rewrite Hrun; cbn [fst snd]; (split; [reflexivity|]); [left; reflexivity|].
  right. eexists. exists view_. split; [reflexivity|]. split; [exact Hv|].
  split; [exact Hadd|]. split.
  - destruct selected; cbn; destruct (context view_) as [ctx|]; cbn; try reflexivity;
      destruct (timeline ctx); reflexivity.
  - intros Hviewer. rewrite Hviewer.
    destruct selected; cbn; destruct (context view_) as [ctx|]; cbn; try reflexivity;
      destruct (mediaViewer ctx); reflexivity.
Qed.

(** ** Sequences of events *)

Lemma handle_all_app (events events' : list TimelineEvent)
    (this : FrigateCardTimelineCore) :
  state_after (handle_all (events ++ events')) this =
    state_after (handle_all events') (state_after (handle_all events) this).
Proof using Type.
  revert this. induction events as [|e events IH]; intros this; [reflexivity|].
  cbn [handle_all app]. rewrite !state_after_bind. apply IH.
Qed.

Lemma rangeChanged_state (properties : TimelineRangeChange)
    (this : FrigateCardTimelineCore) :
  let this1 := state_after _removeTargetBar this in
  state_after (_timelineRangeChangedHandler properties) this = this \/
  state_after (_timelineRangeChangedHandler properties) this = this1 \/
  exists source,
    state_after (_timelineRangeChangedHandler properties) this =
      set__timelineSource (Some source) this1.
Proof using Type.
  intros this1.
  destruct (byUser properties) eqn:Hby.
  2: { left. unfold state_after, _timelineRangeChangedHandler. rewrite Hby. reflexivity. }
  right.
  destruct (hass this) as [hass_|] eqn:Hh, (cameras this) as [cameras_|] eqn:Hc,
    (_timelineSource this) as [source|] eqn:Hd.
  1: { right.
       destruct (rangeChanged_unfold properties this hass_ cameras_ source Hby Hh Hc Hd)
         as (changes & Hrun & _).
       eexists. unfold state_after at 1. rewrite Hrun. reflexivity. }
  all: left; destruct (removeTargetBar_fields this) as ((Hh1 & _ & Hc1 & _) & Hd1 & _);
    fold this1 in Hh1, Hc1, Hd1; cbn in Hh1, Hc1;
    unfold state_after at 1, _timelineRangeChangedHandler; rewrite Hby; cbn [negb];
    unfold bind at 1; unfold state_after in this1;
    destruct (_removeTargetBar this) as [[u s1] log1]; cbn [fst snd] in this1;
    subst this1; unfold bind at 1, gets at 1; cbn [fst snd id];
    rewrite Hh1, Hc1, ?Hh, ?Hc; try reflexivity.
  run_unfold.
  cbn -[_createViewWithEventMediaQuery _createEventMediaQuerys mergeInContext
        _setWindowInContext].
  rewrite Hd1, Hd.
  cbn -[_createViewWithEventMediaQuery _createEventMediaQuerys mergeInContext
        _setWindowInContext].
  destruct (_timeline s1); [|reflexivity].
  destruct (view s1) as [view_|]; [|reflexivity].
  destruct (areRecordingQueries (query view_)); [reflexivity|]. cbn [negb].
  destruct (_createViewWithEventMediaQuery s1 _ None None) as [newView|];
    [|reflexivity].
  destruct (queryResults newView) as [newResults|]; [|reflexivity].
  destruct (negb _); reflexivity.
Qed.

Lemma setTargetBar_state (targetTime : Date) (this : FrigateCardTimelineCore) :
  state_after (_setTargetBarAppropriately targetTime) this = this \/
  state_after (_setTargetBarAppropriately targetTime) this =
    state_after _removeTargetBar this \/
  exists t,
    _timeline this = Some t /\
    state_after (_setTargetBarAppropriately targetTime) this =
      set__targetBarVisible true
        (set__timeline (Some (setCustomTime targetTime TIMELINE_TARGET_BAR_ID t)) this).
Proof using Type.
  destruct (_timeline this) as [t|] eqn:Ht.
  - destruct (setTargetBar_run targetTime this t Ht) as (on & _ & _ & Hrun).
    unfold state_after at 1 2 4. rewrite Hrun. cbn [fst snd]. destruct on.
    + right. right. exists t. split; reflexivity.
    + right. left. reflexivity.
  - left. unfold state_after, _setTargetBarAppropriately, bind, gets. cbn.
    rewrite Ht. reflexivity.
Qed.

(** What an event does to the pointer hold and to the flag [_ignoreClick]. *)
Lemma handle_flags (e : TimelineEvent) (this : FrigateCardTimelineCore) :
  let this' := state_after (handle e) this in
  _pointerHeld this' =
    match e with
    | MouseDown ev =>
        Some {| held := ev; held_window := getWindow <$> _timeline this |}
    | MouseUp => None
    | _ => _pointerHeld this
    end /\
  _ignoreClick this' =
    match e with
    | MouseDown _ => false
    | RangeChange _ => bool_decide (is_Some (_pointerHeld this)) || _ignoreClick this
    | _ => _ignoreClick this
    end.
Proof using Type.
  destruct e as [ev | | properties | properties | properties | v]; cbn [handle].
  - split; reflexivity.
  - unfold mouseUp. cbn zeta. rewrite state_after_bind.
    unfold state_after at 2. cbn [modify fst snd].
    unfold state_after. rewrite removeTargetBar_run. cbn.
    destruct (_targetBarVisible this); split; reflexivity.
  - cbn zeta. rewrite rangeChange_state.
    destruct (_pointerHeld this) as [p|] eqn:Hheld; [|split; [exact Hheld | reflexivity]].
    destruct (bool_decide (is_Some (_timeline this)) && rangeChangeIsPan properties);
      [|split; [exact Hheld | reflexivity]].
    destruct (setTargetBar_state (rangeChangeTargetTime this properties)
                (set__ignoreClick true this)) as [-> | [-> | (t & _ & ->)]];
      cbn; try (split; [exact Hheld | reflexivity]).
    unfold state_after. rewrite removeTargetBar_run. cbn.
    destruct (_targetBarVisible this); cbn; split; first [exact Hheld | reflexivity].
  - cbn zeta.
    destruct (rangeChanged_state properties this) as [-> | [-> | (d & ->)]];
      [split; reflexivity | |];
      unfold state_after; rewrite removeTargetBar_run; cbn;
      destruct (_targetBarVisible this); split; reflexivity.
  - cbn zeta. destruct (_ignoreClick this) eqn:Hignore.
    + unfold state_after. rewrite (click_ignored properties this Hignore). cbn.
      split; [reflexivity | exact Hignore].
    + destruct (click_state properties this) as [-> | ->];
        [split; [reflexivity | exact Hignore] | split; reflexivity].
  - cbn zeta. rewrite state_after_bind.
    unfold state_after at 2. cbn [modify fst snd].
    destruct (cycle_frame_holds (set_view (Some v) this)) as [Hframe _].
    destruct Hframe as (_ & _ & _ & _ & _ & _ & _ & _ & _ & Hheld & Hignore).
    split; [exact Hheld | exact Hignore].
Qed.

Lemma consistent_transfer (this this' : FrigateCardTimelineCore) :
  target_bar_consistent this ->
  _targetBarVisible this' = _targetBarVisible this ->
  _pointerHeld this' = _pointerHeld this ->
  customTimes <$> _timeline this' = customTimes <$> _timeline this ->
  target_bar_consistent this'.
Proof using Type.
  intros [Hbar Hheld] Hvis Hp Hct. split.
  - intros t' Ht'. rewrite Hvis. rewrite Ht' in Hct.
    destruct (_timeline this) as [t|]; [|discriminate].
    cbn in Hct. injection Hct as ->. apply Hbar. reflexivity.
  - rewrite Hvis, Hp. exact Hheld.
Qed.

Lemma removed_consistent (this : FrigateCardTimelineCore) :
  (forall t, _timeline this = Some t ->
     (_targetBarVisible this = true <->
      is_Some (customTimes t !! TIMELINE_TARGET_BAR_ID))) ->
  target_bar_consistent (state_after _removeTargetBar this).
Proof using Type.
  intros Hbar. unfold state_after. rewrite removeTargetBar_run. cbn [fst snd].
  destruct (_targetBarVisible this) eqn:Hvis; split; cbn.
  - intros t' Ht'. destruct (_timeline this) as [t|]; [|discriminate].
    cbn in Ht'. injection Ht' as <-. cbn. rewrite lookup_delete_eq.
    split; [discriminate | intros [? ?]; discriminate].
  - discriminate.
  - intros t Ht. rewrite Hvis. rewrite <- (Hbar t Ht). reflexivity.
  - rewrite Hvis. discriminate.
Qed.

Lemma handle_consistent (e : TimelineEvent) (this : FrigateCardTimelineCore) :
  target_bar_consistent this -> target_bar_consistent (state_after (handle e) this).
Proof using Type.
  intros Hcons. pose proof Hcons as [Hbar Hheld].
  destruct e as [ev | | properties | properties | properties | v]; cbn [handle].
  - split; [exact Hbar | intros _; eexists; reflexivity].
  - unfold mouseUp. rewrite state_after_bind.
    unfold state_after at 2. cbn [modify fst snd].
    apply removed_consistent. exact Hbar.
  - rewrite rangeChange_state.
    destruct (_pointerHeld this) as [p|] eqn:Hp; [|exact Hcons].
    assert (Hflag : target_bar_consistent (set__ignoreClick true this)).
    { apply (consistent_transfer this); [exact Hcons | reflexivity..]. }
    destruct (bool_decide (is_Some (_timeline this)) && rangeChangeIsPan properties);
      [|exact Hflag].
    destruct (setTargetBar_state (rangeChangeTargetTime this properties)
                (set__ignoreClick true this)) as [-> | [-> | (t & Ht & ->)]].
    + exact Hflag.
    + apply removed_consistent. exact Hbar.
    + split; cbn.
      * intros t' [= <-]. cbn. rewrite lookup_insert_eq.
        split; [intros _; eexists; reflexivity | reflexivity].
      * intros _. rewrite Hp. eexists; reflexivity.
  - destruct (rangeChanged_state properties this) as [-> | [-> | (d & ->)]].
    + exact Hcons.
    + apply removed_consistent. exact Hbar.
    + apply (consistent_transfer (state_after _removeTargetBar this));
        [apply removed_consistent; exact Hbar | reflexivity..].
  - destruct (click_state properties this) as [-> | ->]; [exact Hcons|].
    apply (consistent_transfer this); [exact Hcons | reflexivity..].
  - rewrite state_after_bind. unfold state_after at 2. cbn [modify fst snd].
    destruct (cycle_frame_holds (set_view (Some v) this)) as [Hframe Hct].
    destruct Hframe as (_ & _ & _ & _ & _ & _ & _ & _ & Hvis & Hp & _).
    apply (consistent_transfer this); [exact Hcons | exact Hvis | exact Hp | exact Hct].
Qed.

Lemma handle_all_consistent (events : list TimelineEvent)
    (this : FrigateCardTimelineCore) :
  target_bar_consistent this ->
  target_bar_consistent (state_after (handle_all events) this).
Proof using Type.
  revert this. induction events as [|e events IH]; intros this Hcons; [exact Hcons|].
  cbn [handle_all]. rewrite state_after_bind. apply IH, handle_consistent, Hcons.
Qed.

(** X19: through every sequence of events, the target bar is recorded as
    visible exactly when the widget has it, and it is visible only during a
    pointer hold, if that is so before the first event. *)
Theorem target_bar_stays_consistent (events : list TimelineEvent)
    (this : FrigateCardTimelineCore) :
  target_bar_consistent this ->
  target_bar_consistent (state_after (handle_all events) this).
Proof using Type. apply handle_all_consistent. Qed.

Lemma no_mouse_down_keeps_release (events : list TimelineEvent)
    (this : FrigateCardTimelineCore) :
  Forall (fun e => is_MouseDown e = false) events ->
  _pointerHeld this = None ->
  _pointerHeld (state_after (handle_all events) this) = None.
Proof using Type.
  revert this. induction events as [|e events IH]; intros this Hall Hnone;
    [exact Hnone|].
  apply Forall_cons in Hall as [He Hall].
  cbn [handle_all]. rewrite state_after_bind. apply IH; [exact Hall|].
  destruct (handle_flags e this) as [Hp _]. rewrite Hp.
  destruct e; try exact Hnone; [discriminate | reflexivity].
Qed.

(** X20: after a pointer up, and until the next pointer down, no pointer
    hold is active and the target bar is not visible, whatever events came
    before and whatever events follow. The target bar
    is taken to be recorded consistently before the first event. *)
Theorem pointer_up_releases (before after : list TimelineEvent)
    (this : FrigateCardTimelineCore) :
  target_bar_consistent this ->
  Forall (fun e => is_MouseDown e = false) after ->
  let this' := state_after (handle_all (before ++ MouseUp :: after)) this in
  _pointerHeld this' = None /\ _targetBarVisible this' = false.
Proof using Type.
  intros Hcons Hafter this'.
  assert (Hheld : _pointerHeld this' = None).
  { subst this'. rewrite handle_all_app. cbn [handle_all]. rewrite state_after_bind.
    apply no_mouse_down_keeps_release; [exact Hafter|].
    apply (handle_flags MouseUp). }
  split; [exact Hheld|].
  destruct (handle_all_consistent (before ++ MouseUp :: after) this Hcons)
    as [_ Hvis].
  fold this' in Hvis. destruct (_targetBarVisible this'); [|reflexivity].
  destruct (Hvis eq_refl) as [p Hp]. congruence.
Qed.

Lemma click_start_run (properties : TimelineEventPropertiesResult)
    (this : FrigateCardTimelineCore) :
  _timelineClickHandler_start properties this =
    (tt, this,
     if _ignoreClick this ||
        match what properties with
        | Some w => bool_decide (w ∈ [item_; background; group_label; axis])
        | None => false
        end
     then [StopEventFromActivatingCardWideActions] else []).
Proof using Type.
  unfold _timelineClickHandler_start. run_unfold. cbn.
  destruct (_ignoreClick this || _); reflexivity.
Qed.

Lemma click_end_run (newView : option View) (this : FrigateCardTimelineCore) :
  _timelineClickHandler_end newView this =
    (tt, set__ignoreClick false this,
     match newView with
     | Some v =>
         ViewChange v ::
         (if default false (is_ "timeline" <$> view this)
          then [FrigateCardEvent "thumbnails:open"] else [])
     | None =>
         if default false (is_ "timeline" <$> view this)
         then [FrigateCardEvent "thumbnails:close"] else []
     end).
Proof using Type.
  unfold _timelineClickHandler_end. run_unfold. cbn.
  destruct newView; destruct (default false (is_ "timeline" <$> view this));
    reflexivity.
Qed.

(** The two parts of the click handler, one after the other with nothing
    in between, are the click handler. *)
Lemma click_start_then_end (properties : TimelineEventPropertiesResult)
    (this : FrigateCardTimelineCore) :
  _ignoreClick this = false ->
  click_ready properties this ->
  exists newView,
    _timelineClickHandler properties this =
      (_timelineClickHandler_start properties ;; _timelineClickHandler_end newView) this.
Proof using Type.
  intros Hignore Hready.
  pose proof Hready as ([h Hh] & [t Ht] & [c Hc] & [v Hv] & [m Hm] & [w Hw]).
  destruct (click_run properties this h t c v m w Hignore Hh Ht Hc Hv Hm Hw)
    as [newView Hrun].
  exists newView. rewrite Hrun. unfold bind.
  rewrite click_start_run, click_end_run. cbn [fst snd].
  rewrite Hignore, Hw, Hv. cbn [orb default fmap option_fmap option_map].
  destruct newView; reflexivity.
Qed.

(** A click handler that does not pass its guard is over at its start. *)
Lemma click_start_alone (properties : TimelineEventPropertiesResult)
    (this : FrigateCardTimelineCore) :
  _ignoreClick this = true \/ ~ click_ready properties this ->
  _timelineClickHandler properties this = _timelineClickHandler_start properties this.
Proof using Type.
  intros Hguard. rewrite click_start_run.
  destruct (_ignoreClick this) eqn:Hignore.
  - rewrite (click_ignored properties this Hignore). reflexivity.
  - destruct Hguard as [? | Hnot]; [discriminate|].
    rewrite (click_not_ready properties this Hignore Hnot).
    destruct (what properties); reflexivity.
Qed.

Lemma steps_app (trace trace' : list TimelineStep) (this : FrigateCardTimelineCore) :
  state_after (steps (trace ++ trace')) this =
    state_after (steps trace') (state_after (steps trace) this).
Proof using Type.
  revert this. induction trace as [|s trace IH]; intros this; [reflexivity|].
  cbn [steps app]. rewrite !state_after_bind. apply IH.
Qed.

(** Events that are each handled to the end are the steps of [handle_all]. *)
Lemma steps_Handled (events : list TimelineEvent) :
  steps (Handled <$> events) = handle_all events.
Proof using Type.
  induction events as [|e events IH]; [reflexivity|].
  cbn [fmap list_fmap steps handle_all step]. cbn [fmap] in IH. rewrite IH.
  reflexivity.
Qed.

Lemma step_flags (s : TimelineStep) (this : FrigateCardTimelineCore) :
  let this' := state_after (step s) this in
  _pointerHeld this' =
    match s with
    | Handled (MouseDown ev) =>
        Some {| held := ev; held_window := getWindow <$> _timeline this |}
    | Handled MouseUp => None
    | _ => _pointerHeld this
    end /\
  _ignoreClick this' =
    match s with
    | Handled (MouseDown _) | ClickResumes _ => false
    | Handled (RangeChange _) =>
        bool_decide (is_Some (_pointerHeld this)) || _ignoreClick this
    | _ => _ignoreClick this
    end.
Proof using Type.
  destruct s as [e | properties | newView]; cbn [step].
  - destruct (handle_flags e this) as [Hheld Hignore].
    split; [rewrite Hheld | rewrite Hignore]; destruct e; reflexivity.
  - cbn zeta. unfold state_after. rewrite click_start_run. split; reflexivity.
  - cbn zeta. unfold state_after. rewrite click_end_run. split; reflexivity.
Qed.

Lemma held_until_release (trace : list TimelineStep) (this : FrigateCardTimelineCore) :
  Forall (fun s => releases s = false) trace ->
  is_Some (_pointerHeld this) ->
  is_Some (_pointerHeld (state_after (steps trace) this)).
Proof using Type.
  revert this. induction trace as [|s trace IH]; intros this Hall Hheld;
    [exact Hheld|].
  apply Forall_cons in Hall as [Hs Hall].
  cbn [steps]. rewrite state_after_bind. apply IH; [exact Hall|].
  destruct (step_flags s this) as [Hp _]. rewrite Hp.
  destruct s as [[]| |]; first [exact Hheld | discriminate | eexists; reflexivity].
Qed.

Lemma ignored_until_rearmed (trace : list TimelineStep) (this : FrigateCardTimelineCore) :
  Forall (fun s => rearms s = false) trace ->
  _ignoreClick this = true ->
  _ignoreClick (state_after (steps trace) this) = true.
Proof using Type.
  revert this. induction trace as [|s trace IH]; intros this Hall Hset;
    [exact Hset|].
  apply Forall_cons in Hall as [Hs Hall].
  cbn [steps]. rewrite state_after_bind. apply IH; [exact Hall|].
  destruct (step_flags s this) as [_ Hi]. rewrite Hi.
  destruct s as [[]| |]; first [exact Hset | discriminate | idtac].
  rewrite Hset. apply orb_true_r.
Qed.

(** X21: a click that follows a drag is ignored, unless a click handler
    that waited has ended since. Take any steps, a pointer down, steps
    without a pointer up, a range change, and then steps among which there
    is neither a pointer down nor the end of a click handler that waited:
    the click handler then stops the event from card-wide actions and does
    nothing else, it dispatches no view and changes nothing of the element.
    When a click handler that waited ends after those steps, the flag
    [_ignoreClick] is clear again, and the next click is not ignored. The
    steps are any steps, also such as no run of the element has: a click
    handler may end that never began. *)
Theorem click_after_drag_is_ignored (before held after : list TimelineStep)
    (ev click : TimelineEventPropertiesResult) (change : TimelineRangeChange)
    (this : FrigateCardTimelineCore) :
  Forall (fun s => releases s = false) held ->
  Forall (fun s => rearms s = false) after ->
  let trace :=
    before ++ Handled (MouseDown ev) :: held ++ Handled (RangeChange change) :: after in
  _timelineClickHandler click (state_after (steps trace) this) =
    (tt, state_after (steps trace) this, [StopEventFromActivatingCardWideActions]) /\
  forall newView,
    _ignoreClick (state_after (steps (trace ++ [ClickResumes newView])) this) = false.
Proof using Type.
  intros Hheld Hafter trace. split.
  - apply click_ignored. subst trace.
    rewrite steps_app. cbn [steps]. rewrite state_after_bind.
    rewrite steps_app. cbn [steps]. rewrite state_after_bind.
    set (down := state_after (step (Handled (MouseDown ev))) _).
    assert (Hdown : is_Some (_pointerHeld down)).
    { unfold down.
      destruct (step_flags (Handled (MouseDown ev))
                  (state_after (steps before) this)) as [Hp _].
      rewrite Hp. eexists; reflexivity. }
    apply ignored_until_rearmed; [exact Hafter|].
    destruct (step_flags (Handled (RangeChange change))
                (state_after (steps held) down)) as [_ Hi].
    rewrite Hi.
    rewrite (bool_decide_eq_true_2 _ (held_until_release held down Hheld Hdown)).
    reflexivity.
  - intros newView. rewrite steps_app. cbn [steps]. rewrite state_after_bind.
    change (state_after (ret tt) ?s) with s.
    destruct (step_flags (ClickResumes newView) (state_after (steps trace) this))
      as [_ Hi].
    exact Hi.
Qed.

Lemma no_range_change_keeps_flag_clear (events : list TimelineEvent)
    (this : FrigateCardTimelineCore) :
  Forall (fun e => is_RangeChange e = false) events ->
  _ignoreClick this = false ->
  _ignoreClick (state_after (handle_all events) this) = false.
Proof using Type.
  revert this. induction events as [|e events IH]; intros this Hall Hclear;
    [exact Hclear|].
  apply Forall_cons in Hall as [He Hall].
  cbn [handle_all]. rewrite state_after_bind. apply IH; [exact Hall|].
  destruct (handle_flags e this) as [_ Hi]. rewrite Hi.
  destruct e; try exact Hclear; [reflexivity | discriminate].
Qed.

(** X22: a pointer down re-arms the click: after a pointer down, whatever
    came before, the flag [_ignoreClick] is false for as long as no range
    change comes. *)
Theorem pointer_down_rearms_click (before after : list TimelineEvent)
    (ev : TimelineEventPropertiesResult) (this : FrigateCardTimelineCore) :
  Forall (fun e => is_RangeChange e = false) after ->
  _ignoreClick (state_after (handle_all (before ++ MouseDown ev :: after)) this) = false.
Proof using Type.
  intros Hafter. rewrite handle_all_app. cbn [handle_all]. rewrite state_after_bind.
  apply no_range_change_keeps_flag_clear; [exact Hafter|].
  apply (handle_flags (MouseDown ev)).
Qed.

(** ** The clustering policy, the thumbnails and the groups *)

(** X23: [clusterCriteria] does not depend on the order of the two items,
    when [isGroupableWith] does not depend on the order of the two media. *)
Theorem clusterCriteria_symmetric (this : FrigateCardTimelineCore)
    (first second : FrigateCardTimelineItem) :
  (forall a b, isGroupableWith a b = isGroupableWith b a) ->
  clusterCriteria this first second = clusterCriteria this second first.
Proof using Type.
  intros Hsym. unfold clusterCriteria.
  destruct (cameras this); [|reflexivity].
  destruct (item_media first) as [fm|], (item_media second) as [sm|];
    rewrite ?andb_false_r; try reflexivity.
  rewrite (Hsym fm sm).
  destruct (decide (item_type first = item_type second)) as [Heq | Hne].
  - rewrite Heq.
    rewrite (bool_decide_eq_true_2 (item_type second = item_type second)) by reflexivity.
    destruct (negb (bool_decide (item_type second = Some "background")));
      destruct (mediaID_is _ (item_id first)), (mediaID_is _ (item_id second));
      destruct (ViewMediaClassifier.isEvent fm), (ViewMediaClassifier.isEvent sm);
      reflexivity.
  - rewrite (bool_decide_eq_false_2 _ Hne),
      (bool_decide_eq_false_2 (item_type second = item_type first))
      by congruence.
    rewrite !andb_false_r. reflexivity.
Qed.

(** X24: the thumbnail of a tooltip is drawn exactly when its item is a
    truthy id of an item of the data set that has a media item, the camera
    of that media item is in the camera map, and the home assistant, the
    camera manager and the view are present; it is then drawn for that media
    item, that camera configuration and those three. *)
Theorem thumbnail_drawn_iff (this : FrigateCardTimelineCore) (item_ : option IdType)
    (details : bool) (props : ThumbnailProperties) :
  FrigateCardTimelineThumbnail_render this item_ details = Some props <->
  exists i source it,
    item_ = Some i /\ IdType_truthy i = true /\
    _timelineSource this = Some source /\ dataset_get source i = Some it /\
    item_media it = Some (thumbnail_media props) /\
    cameras this ≫= (fun c => c !! getCameraID (thumbnail_media props)) =
      Some (thumbnail_cameraConfig props) /\
    hass this = Some (thumbnail_hass props) /\
    cameraManager this = Some (thumbnail_cameraManager props) /\
    view this = Some (thumbnail_view props) /\
    thumbnail_details props = details.
Proof using Type.
  unfold FrigateCardTimelineThumbnail_render, _handleThumbnailDataRequest. split.
  - destruct item_ as [i|]; [|discriminate].
    destruct (IdType_truthy i) eqn:Htruthy; [|discriminate]. cbn.
    destruct (hass this) as [h|]; [|discriminate].
    destruct (cameraManager this) as [cm|]; [|discriminate].
    destruct (_timelineSource this) as [source|]; cbn; [|discriminate].
    destruct (dataset_get source i) as [it|] eqn:Hit; cbn; [|discriminate].
    destruct (item_media it) as [m|] eqn:Hm; [|discriminate].
    destruct (cameras this ≫= (fun c => c !! getCameraID m)) as [cc|] eqn:Hcc;
      [|discriminate].
    destruct (view this) as [v|]; [|discriminate].
    intros [= <-]. exists i, source, it. cbn. repeat split; assumption.
  - intros (i & source & it & -> & Htruthy & Hd & Hit & Hm & Hcc & Hh & Hcm & Hv & Hdet).
    rewrite Htruthy. cbn. rewrite Hh, Hcm, Hd. cbn. rewrite Hit. cbn.
    rewrite Hm, Hcc, Hv. destruct props. cbn in *. congruence.
Qed.

Lemma omap_group_ids_NoDup {A : Type} (f : string -> option FrigateCardGroupData)
    (l : list string) :
  (forall x g, f x = Some g -> group_id g = x) ->
  NoDup l -> NoDup (group_id <$> omap f l).
Proof using Type.
  intros Hid Hnd. induction Hnd as [|x l Hnotin Hnd IH]; cbn; [constructor|].
  destruct (f x) as [g|] eqn:Hfx; [|exact IH].
  cbn. constructor; [|exact IH].
  rewrite (Hid x g Hfx). intros Hin.
  apply list_elem_of_fmap in Hin as (g' & Hg' & Hin).
  apply list_elem_of_omap in Hin as (y & Hy & Hfy).
  rewrite (Hid y g' Hfy) in Hg'. subst y. contradiction.
Qed.

Lemma groups_have_distinct_ids (this : FrigateCardTimelineCore) :
  NoDup (group_id <$> _getGroups this).
Proof using Type.
  unfold _getGroups. apply (omap_group_ids_NoDup (A := unit)); [|apply NoDup_elements].
  intros x g Hg. repeat case_match; try discriminate. injection Hg as <-. reflexivity.
Qed.

Lemma NoDup_fmap_elem_inj {A B : Type} (f : A -> B) (l : list A) (x y : A) :
  NoDup (f <$> l) -> x ∈ l -> y ∈ l -> f x = f y -> x = y.
Proof using Type.
  induction l as [|a l IH]; cbn; intros Hnd Hx Hy Hf; [inversion Hx|].
  apply NoDup_cons in Hnd as [Hnotin Hnd].
  apply elem_of_cons in Hx as [-> | Hx]; apply elem_of_cons in Hy as [-> | Hy].
  - reflexivity.
  - exfalso. apply Hnotin. rewrite Hf. apply list_elem_of_fmap. exists y. auto.
  - exfalso. apply Hnotin. rewrite <- Hf. apply list_elem_of_fmap. exists x. auto.
  - apply IH; assumption.
Qed.

(** X25: every group that [_getGroups] makes is for a camera in scope that
    has a configuration in the camera map, metadata from the camera manager,
    and a camera name that is not birdseye; its content is the title of the
    metadata, and no other group has its id. *)
Theorem groups_are_configured_cameras (this : FrigateCardTimelineCore)
    (g : FrigateCardGroupData) :
  g ∈ _getGroups this ->
  group_id g ∈ _getTimelineCameraIDs this /\
  (exists cameras_ cameraConfig hass_ cameraManager_ name,
     cameras this = Some cameras_ /\ cameras_ !! group_id g = Some cameraConfig /\
     hass this = Some hass_ /\ cameraManager this = Some cameraManager_ /\
     getCameraMetadata cameraManager_ hass_ cameraConfig = Some (group_content g) /\
     camera_name cameraConfig = Some name /\ name <> "" /\ name <> CAMERA_BIRDSEYE) /\
  (forall g', g' ∈ _getGroups this -> group_id g' = group_id g -> g' = g).
Proof using Type.
  intros Hin.
  assert (Hunique : forall g', g' ∈ _getGroups this -> group_id g' = group_id g -> g' = g).
  { intros g' Hin' Hsame.
    exact (NoDup_fmap_elem_inj group_id _ g' g (groups_have_distinct_ids this)
             Hin' Hin Hsame). }
  unfold _getGroups in Hin.
  apply list_elem_of_omap in Hin as (cameraID & Hid & Hsome).
  apply elem_of_elements in Hid.
  destruct (cameras this) as [cameras_|]; [|discriminate]. cbn in Hsome.
  destruct (cameras_ !! cameraID) as [cameraConfig|] eqn:Hcc; [|discriminate].
  destruct (hass this) as [hass_|]; [|discriminate].
  destruct (cameraManager this) as [cameraManager_|]; [|discriminate].
  destruct (getCameraMetadata cameraManager_ hass_ cameraConfig) as [title|] eqn:Hmeta;
    [|discriminate].
  destruct (camera_name cameraConfig) as [name|] eqn:Hname; [|discriminate].
  destruct (String.eqb name "") eqn:Hempty; [discriminate|].
  destruct (String.eqb name CAMERA_BIRDSEYE) eqn:Hbird; [discriminate|].
  cbn in Hsome. injection Hsome as <-. cbn.
  split; [exact Hid|]. split; [|exact Hunique].
  exists cameras_, cameraConfig, hass_, cameraManager_, name.
  apply String.eqb_neq in Hempty, Hbird. repeat split; assumption.
Qed.

(** X26: when [_createViewWithEventMediaQuery] is called with a truthy
    [selectedItem] that is the id of an item of the results of the view it
    returns, the selected result of that view has that id, whatever is
    selected in the current view. *)
Theorem requested_item_is_selected (this : FrigateCardTimelineCore)
    (query_ : option MediaQueries) (targetView : option string) (x : string)
    (newView : View) (r : MediaQueriesResults) (l : list ViewMedia) (m : ViewMedia) :
  x <> "" ->
  _createViewWithEventMediaQuery this query_ targetView (Some (IdString x)) =
    Some newView ->
  queryResults newView = Some r ->
  getResults r = Some l ->
  m ∈ l ->
  getID m = Some x ->
  exists selected, getSelectedResult r = Some selected /\ getID selected = Some x.
Proof using Type.
  intros Hx Hcreate Hr Hl Hin Hid.
  unfold _createViewWithEventMediaQuery in Hcreate.
  destruct (hass this) as [hass_|]; [|discriminate].
  destruct (cameraManager this) as [cameraManager_|]; [|discriminate].
  destruct (cameras this) as [cameras_|]; [|discriminate].
  destruct (view this) as [view_|]; [|discriminate].
  destruct query_ as [q|]; [|discriminate].
  destruct (createViewForEvents _ _ _ _ _) as [created|]; [|discriminate].
  cbn [mbind option_bind] in Hcreate.
  assert (Htruthy : IdType_truthy (IdString x) = true).
  { cbn. apply negb_true_iff, String.eqb_neq. exact Hx. }
  rewrite Htruthy in Hcreate. injection Hcreate as <-. cbn in Hr.
  destruct (queryResults created) as [r0|]; [|discriminate].
  cbn in Hr. injection Hr as <-.
  destruct (selectResultIfFound_selects _ r0 l m Hl Hin) as (selected & Hsel & Hf).
  - rewrite Hid. cbn. apply String.eqb_refl.
  - exists selected. split; [exact Hsel|].
    unfold mediaID_is in Hf. cbn in Hf.
    destruct (getID selected) as [y|]; [|discriminate].
    apply String.eqb_eq in Hf. congruence.
Qed.

(** X27: the target time follows the pointer. After a pointer down at the
    time [time ev] with the widget on the window [w], a range change by a
    pan hands on a target time that lies as many whole seconds after the
    start of the new window as [time ev] lay after the start of [w]; when
    that is a whole number of seconds, the target time is [time ev] moved
    by as much as the start of the window has moved. *)
Theorem target_time_follows_pointer (ev : TimelineEventPropertiesResult)
    (properties : TimelineRangeChange) (this : FrigateCardTimelineCore) (t : Timeline) :
  _timeline this = Some t ->
  rangeChangeIsPan properties = true ->
  let down := state_after (handle (MouseDown ev)) this in
  let offset := time ev - start (getWindow t) in
  exists targetTime,
    effects_of (handle (RangeChange properties)) down =
      [ThrottledSetViewDuringRangeChange targetTime properties] /\
    targetTime = start (range properties) + Z.quot offset 1000 * 1000 /\
    (offset mod 1000 = 0 ->
     targetTime - time ev = start (range properties) - start (getWindow t)).
Proof using Type.
  intros Ht Hpan down offset.
  assert (Htd : _timeline down = Some t) by exact Ht.
  exists (rangeChangeTargetTime down properties).
  split; [exact (rangeChange_effects properties down t Htd Hpan)|].
  assert (Htarget : rangeChangeTargetTime down properties =
                    start (range properties) + Z.quot offset 1000 * 1000).
  { unfold rangeChangeTargetTime, down. cbn. rewrite Ht. cbn. unfold add. cbn.
    change (toInteger (inject_Z (time ev - start (getWindow t)) / 1000))
      with (differenceInSeconds (time ev) (start (getWindow t))).
    rewrite differenceInSeconds_quot. reflexivity. }
  split; [exact Htarget|].
  intros Hmod. rewrite Htarget, (quot_whole_seconds _ Hmod). unfold offset. lia.
Qed.

(** ** The surround *)

Lemma cycle_effects_mini (this : FrigateCardTimelineCore) :
  mini this = true ->
  Forall (fun e => is_ViewChange e = false) (effects_of _updateTimelineFromView this).
Proof using Type.
  intros Hmini.
  destruct (decide (ready this)) as [Hready | Hnot].
  2: { unfold effects_of. rewrite (cycle_not_ready this Hnot). constructor. }
  destruct (ready_fields this Hready)
    as (hass_ & cameras_ & view_ & config & source & timeline_
        & Hh & Hc & Hv & Hg & Hd & Ht).
  destruct (cycle_unfold this hass_ cameras_ view_ config source timeline_
              Hh Hc Hv Hg Hd Ht) as [_ Heffects].
  destruct (quiet_widget hass_ view_ timeline_ this) as [Hframe Hquiet].
  destruct Hframe as (_ & _ & _ & _ & Hmini1 & _).
  rewrite Heffects. apply Forall_app. split; [exact Hquiet|].
  match goal with
  | |- Forall _ (effects_of (_updateTimelineFromView_query ?v ?w) ?s) =>
      destruct (query_effects v w s) as [-> | (nv & _ & Hm & _)]
  end; [constructor | congruence].
Qed.

(** X28: the timeline that the surround hosts is a mini timeline, outside
    the background, and a run of [_updateTimelineFromView] of an element
    with the properties the surround gives it dispatches no view. *)
Theorem hosted_timeline_dispatches_nothing (surround : FrigateCardSurround)
    (rendered : SurroundRendered) (p : HostedTimeline) (this : FrigateCardTimelineCore) :
  surround_render surround = Some rendered ->
  hostedTimeline rendered = Some p ->
  hosted_by p this ->
  hosted_mini p = true /\
  truthy_bool (inBackground surround) = false /\
  Forall (fun e => is_ViewChange e = false) (effects_of _updateTimelineFromView this).
Proof using Type.
  intros Hrender Hhosted (_ & _ & _ & Hmini & _).
  unfold surround_render in Hrender.
  destruct (surround_hass surround), (surround_view surround),
    (thumbnailConfig surround); try discriminate.
  injection Hrender as <-. cbn in Hhosted.
  destruct (surround_timelineConfig surround) as [tc|]; [|discriminate].
  destruct (mini_mode tc) as [md|]; [|discriminate].
  destruct (truthy_bool (inBackground surround));
    [rewrite andb_false_r in Hhosted; discriminate|].
  destruct (negb (String.eqb md "") && negb (String.eqb md "none")); [|discriminate].
  cbn in Hhosted. injection Hhosted as <-. cbn in Hmini.
  split; [reflexivity|]. split; [reflexivity|].
  apply cycle_effects_mini. exact Hmini.
Qed.

(** X29: the surround answers the signals of a click in a timeline view that
    it holds with at most one drawer event, and with one only when the
    thumbnails are docked left or right: the event names that side, and it
    is an opening when the click dispatched a view and a closing when it
    did not. *)
Theorem click_moves_the_drawer (surround : FrigateCardSurround)
    (properties : TimelineEventPropertiesResult) (this : FrigateCardTimelineCore)
    (view_ : View) :
  _ignoreClick this = false ->
  click_ready properties this ->
  view this = Some view_ ->
  is_ "timeline" view_ = true ->
  let effects := effects_of (_timelineClickHandler properties) this in
  let caught := omap (surround_catch surround) effects in
  (caught = [] /\
   (is_Some (surround_render surround) -> _hasDrawer surround = false)) \/
  exists c,
    thumbnailConfig surround = Some c /\ (mode c = "left" \/ mode c = "right") /\
    ((caught = [{| drawer_event := "drawer:open"; drawer := mode c |}] /\
      exists v, ViewChange v ∈ effects) \/
     (caught = [{| drawer_event := "drawer:close"; drawer := mode c |}] /\
      Forall (fun e => is_ViewChange e = false) effects)).
Proof using Type.
  intros Hignore Hready Hview Htl effects caught.
  pose proof Hready as ([h Hh] & [t Ht] & [c Hc] & [v Hv] & [m Hm] & [w Hw]).
  assert (v = view_) by congruence. subst v.
  destruct (click_run properties this h t c view_ m w Hignore Hh Ht Hc Hv Hm Hw)
    as [newView Hrun].
  subst caught effects. unfold effects_of. rewrite Hrun, Htl. cbn [fst snd].
  rewrite omap_app.
  assert (Hstop : omap (surround_catch surround)
                    (if bool_decide (w ∈ [item_; background; group_label; axis])
                     then [StopEventFromActivatingCardWideActions] else []) = []).
  { destruct (bool_decide _); cbn; [|reflexivity].
    unfold surround_catch. destruct (surround_render surround); reflexivity. }
  rewrite Hstop. cbn [app].
  unfold surround_catch, changeDrawer, _hasDrawer.
  destruct (surround_render surround) as [r|] eqn:Hrender.
  2: { left. split; [destruct newView; reflexivity | intros [? ?]; discriminate]. }
  destruct (thumbnailConfig surround) as [tc|] eqn:Htc.
  2: { left. split; [destruct newView; reflexivity | reflexivity]. }
  destruct (bool_decide_reflect (mode tc ∈ ["left"; "right"])) as [Hdocked | Hnot].
  2: { left. split; [destruct newView; reflexivity | reflexivity]. }
  right. exists tc. split; [reflexivity|]. split.
  { apply elem_of_cons in Hdocked as [Hleft | Hright]; [left; exact Hleft|].
    apply elem_of_cons in Hright as [Hright | Hnone]; [right; exact Hright|].
    inversion Hnone. }
  destruct newView as [nv|]; cbn.
  - left. split; [reflexivity|]. exists nv.
    apply elem_of_app. right. constructor.
  - right. split; [reflexivity|].
    apply Forall_app. split; [destruct (bool_decide _)|]; repeat constructor.
Qed.

(** X30: the surround fetches media only when one of the properties [view]
    and [inBackground] (or one of the names [fetch] and [browseMediaParams])
    has changed, it is not in the background, thumbnails are shown, and the
    view has no query yet and does not forbid the fetch in its context; it
    then asks for the recent events of the media type [fetchMedia] for that
    view. In the background it fetches nothing and draws neither the
    carousel nor the timeline. *)
Theorem surround_fetches_for_a_bare_view (changedProperties : gset string)
    (this : FrigateCardSurround) :
  (forall request,
     surround_willUpdate changedProperties this = Some request ->
     (exists prop, prop ∈ changedProperties /\
                   prop ∈ ["view"; "fetch"; "browseMediaParams"; "inBackground"]) /\
     truthy_bool (inBackground this) = false /\
     surround_view this = Some (recent_view request) /\
     query (recent_view request) = None /\
     thumbnails_fetch (recent_view request) <> Some false /\
     fetchMedia this = Some (recent_mediaType request) /\
     exists c, thumbnailConfig this = Some c /\ mode c <> "none") /\
  (truthy_bool (inBackground this) = true ->
   surround_willUpdate changedProperties this = None /\
   forall rendered,
     surround_render this = Some rendered ->
     carousel rendered = None /\ hostedTimeline rendered = None).
Proof using Type.
  split.
  - intros request Hfetch. unfold surround_willUpdate in Hfetch.
    destruct (existsb _ _) eqn:Hchanged; [|discriminate].
    apply existsb_exists in Hchanged as (prop & Hin & Hprop).
    apply bool_decide_eq_true in Hprop.
    split; [exists prop; split; [exact Hprop | apply list_elem_of_In; exact Hin]|].
    unfold _fetchMedia in Hfetch.
    destruct (surround_cameras this), (surround_cameraManager this),
      (fetchMedia this), (surround_hass this), (surround_view this) as [v|],
      (thumbnailConfig this) as [tc|]; try discriminate.
    destruct (truthy_bool (inBackground this)); [discriminate|].
    destruct (bool_decide_reflect (is_Some (query v))) as [Hq | Hq]; [discriminate|].
    destruct (String.eqb (mode tc) "none") eqn:Hmode; [discriminate|].
    destruct (thumbnails_fetch v) as [[|]|] eqn:Hf; cbn in Hfetch; try discriminate;
      injection Hfetch as <-; cbn;
      (split; [reflexivity|]; split; [reflexivity|]; split;
       [destruct (query v); [exfalso; apply Hq; eexists; reflexivity | reflexivity]|];
       split; [rewrite Hf; discriminate|]; split; [reflexivity|];
       exists tc; split; [reflexivity | apply String.eqb_neq; exact Hmode]).
  - intros Hbg. split.
    + unfold surround_willUpdate, _fetchMedia. rewrite Hbg. cbn [orb].
      destruct (existsb _ _), (surround_cameras this), (surround_cameraManager this),
        (fetchMedia this), (surround_hass this), (surround_view this),
        (thumbnailConfig this); reflexivity.
    + intros rendered Hrender. unfold surround_render in Hrender. rewrite Hbg in Hrender.
      destruct (surround_hass this), (surround_view this),
        (thumbnailConfig this); try discriminate.
      injection Hrender as <-. cbn. rewrite !andb_false_r.
      split; [reflexivity|].
      destruct (surround_timelineConfig this) as [mc|]; [|reflexivity].
      destruct (mini_mode mc); [|reflexivity].
      rewrite andb_false_r. reflexivity.
Qed.
End Rest.

End TimelineCore.

(** * Concrete runs

    An element over collaborators that hold nothing: a data source whose
    refresh and rewrite leave it as it is and whose event queries for a
    window is the one query [7]; a camera manager that finds every result
    fresh; and an event fetch that returns the two events [event_a] and
    [event_b] with none selected. *)

Definition event_a : ViewMedia :=
  {| getMediaType := EventMedia; getID := Some "a";
     getStartTime := Some 1000000; getEndTime := Some 1199001;
     getCameraID := "front" |}.

Definition event_b : ViewMedia :=
  {| getMediaType := EventMedia; getID := Some "b";
     getStartTime := Some 2000000; getEndTime := Some 2200000;
     getCameraID := "front" |}.

Definition recording_c : ViewMedia :=
  {| getMediaType := RecordingMedia; getID := Some "c";
     getStartTime := Some 3600000; getEndTime := Some 7200000;
     getCameraID := "front" |}.

Definition overlap (a b : TimelineWindow) : bool :=
  (start a <=? end_ b) && (start b <=? end_ a).

Definition fetched_events (_ _ : unit) (_ : gmap string unit) (v : @View nat)
    (o : @EventsOptions nat) : option (@View nat) :=
  Some {| view_name := default (view_name v) (eo_targetView o);
          query := Some (eo_query o);
          queryResults :=
            Some {| getResults := Some [event_a; event_b];
                    getSelectedIndex := None;
                    getResultsTimestamp := Some 5000000 |};
          context := context v |}.

Definition no_recordings (_ _ : unit) (_ : gmap string unit) (_ : @View nat)
    (_ : RecordingsOptions) : option (@View nat) := None.

Definition run_updateTimelineFromView : @M unit unit unit unit nat unit :=
  _updateTimelineFromView overlap (fun _ _ d => d) (fun _ d => d) (fun _ w => w)
    (fun _ _ => Some [7%nat]) (fun _ _ _ => true) fetched_events 3600%Q.

Definition run_freshMediaQueryOf
    (this : @FrigateCardTimelineCore unit unit unit unit nat) : option MediaQueries :=
  freshMediaQueryOf overlap (fun _ _ d => d) (fun _ d => d) (fun _ w => w)
    (fun _ _ => Some [7%nat]) 3600%Q this.

Definition run_timelineClickHandler (properties : TimelineEventPropertiesResult)
  : @M unit unit unit unit nat unit :=
  _timelineClickHandler (fun _ w => w) (fun _ _ => Some [7%nat]) fetched_events
    no_recordings (fun t => t) (fun t => t) properties.

Definition run_timelineRangeChangeHandler (properties : TimelineRangeChange)
  : @M unit unit unit unit nat unit :=
  _timelineRangeChangeHandler (fun _ _ => None) properties.

Definition a_config : TimelineCoreConfig :=
  {| window_seconds := Some 600%Q; clustering_threshold := Some 3%Q;
     show_recordings := Some true; media := Some all |}.

(** A view of the events [event_a] and [event_b], with [event_b] selected. *)
Definition a_view : @View nat :=
  {| view_name := "timeline";
     query := Some (EventMediaQueries [7%nat]);
     queryResults :=
       Some {| getResults := Some [event_a; event_b];
               getSelectedIndex := Some 1%nat;
               getResultsTimestamp := Some 4000000 |};
     context := None |}.

Definition a_timeline : Timeline :=
  {| getWindow := {| start := 0; end_ := 10000 |};
     getSelection := [];
     customTimes := ∅ |}.

Definition pointer_down : PointerHeld :=
  {| held := {| what := Some background; item := None; group := None; time := 5000 |};
     held_window := Some {| start := 0; end_ := 10000 |} |}.

Definition pointer_down_at_5500 : PointerHeld :=
  {| held := {| what := Some background; item := None; group := None; time := 5500 |};
     held_window := Some {| start := 0; end_ := 10000 |} |}.

(** The element at rest, then with the pointer held, then after a drag. *)
Definition an_element : @FrigateCardTimelineCore unit unit unit unit nat :=
  {| hass := Some tt; view := Some a_view; cameras := Some {[ "front" := tt ]};
     timelineConfig := Some a_config; mini := false; cameraIDs := None;
     cameraManager := Some tt; _locked := false; _targetBarVisible := false;
     _timeline := Some a_timeline; _timelineSource := Some tt;
     _pointerHeld := None; _ignoreClick := false |}.

Definition an_element_held : @FrigateCardTimelineCore unit unit unit unit nat :=
  set__pointerHeld (Some pointer_down) an_element.

Definition an_element_held_at_5500 : @FrigateCardTimelineCore unit unit unit unit nat :=
  set__pointerHeld (Some pointer_down_at_5500) an_element.

Definition an_element_after_drag : @FrigateCardTimelineCore unit unit unit unit nat :=
  set__ignoreClick true an_element.

Definition an_element_without_cameras : @FrigateCardTimelineCore unit unit unit unit nat :=
  {| hass := Some tt; view := Some a_view; cameras := None;
     timelineConfig := Some a_config; mini := false; cameraIDs := None;
     cameraManager := Some tt; _locked := false; _targetBarVisible := false;
     _timeline := Some a_timeline; _timelineSource := Some tt;
     _pointerHeld := None; _ignoreClick := false |}.

Definition a_click : TimelineEventPropertiesResult :=
  {| what := Some item_; item := Some (IdString "a"); group := None; time := 1100000 |}.

Definition a_pan (w : TimelineWindow) : TimelineRangeChange :=
  {| range := w;
     event := {| type := "panmove"; additionalEvent := Some "panright" |};
     byUser := true |}.

Definition item_of (m : ViewMedia) (tag : string) : FrigateCardTimelineItem :=
  {| item_id := IdString (default "" (getID m)); item_type := Some tag;
     item_start := default 0 (getStartTime m); item_end := getEndTime m;
     item_media := Some m |}.

(** ** The rest of the element, concretely

    A data set without items, results that are never a superset of others,
    every view a viewer view, no closest media item, and a camera manager
    that titles every camera [Front door]. *)

Definition run_setViewDuringRangeChange (targetTime : Date)
    (properties : TimelineRangeChange) : @M unit unit unit unit nat unit :=
  _setViewDuringRangeChange (fun _ => true) (fun _ _ _ _ => None) (fun _ r => r)
    (fun _ _ => false) targetTime properties.

Definition run_timelineRangeChangedHandler (properties : TimelineRangeChange)
  : @M unit unit unit unit nat unit :=
  _timelineRangeChangedHandler (fun _ _ d => d) (fun _ w => w)
    (fun _ _ => Some [7%nat]) fetched_events (fun _ _ => false) properties.

Definition run_handle (e : @TimelineEvent nat) : @M unit unit unit unit nat unit :=
  handle overlap (fun _ _ d => d) (fun _ d => d) (fun _ w => w)
    (fun _ _ => Some [7%nat]) (fun _ _ => None) (fun _ _ _ => true) fetched_events
    no_recordings (fun t => t) (fun t => t) 3600%Q (fun _ _ => false) e.

Definition run_handle_all (events : list (@TimelineEvent nat))
  : @M unit unit unit unit nat unit :=
  handle_all overlap (fun _ _ d => d) (fun _ d => d) (fun _ w => w)
    (fun _ _ => Some [7%nat]) (fun _ _ => None) (fun _ _ _ => true) fetched_events
    no_recordings (fun t => t) (fun t => t) 3600%Q (fun _ _ => false) events.

Definition run_steps (trace : list (@TimelineStep nat))
  : @M unit unit unit unit nat unit :=
  steps overlap (fun _ _ d => d) (fun _ d => d) (fun _ w => w)
    (fun _ _ => Some [7%nat]) (fun _ _ => None) (fun _ _ _ => true) fetched_events
    no_recordings (fun t => t) (fun t => t) 3600%Q (fun _ _ => false) trace.

Definition run_getGroups (this : @FrigateCardTimelineCore unit unit unit unit nat)
  : list FrigateCardGroupData :=
  _getGroups (fun _ _ _ => Some "Front door") (fun _ => Some "front") "birdseye" this.

(** An event that has not ended. *)
Definition event_open : ViewMedia :=
  {| getMediaType := EventMedia; getID := Some "o";
     getStartTime := Some 3000000; getEndTime := None;
     getCameraID := "front" |}.

Definition a_config_without_recordings : TimelineCoreConfig :=
  {| window_seconds := Some 600%Q; clustering_threshold := Some 3%Q;
     show_recordings := Some false; media := Some all |}.

Definition an_element_without_recordings
  : @FrigateCardTimelineCore unit unit unit unit nat :=
  {| hass := Some tt; view := Some a_view; cameras := Some {[ "front" := tt ]};
     timelineConfig := Some a_config_without_recordings; mini := false;
     cameraIDs := None; cameraManager := Some tt; _locked := false;
     _targetBarVisible := false; _timeline := Some a_timeline;
     _timelineSource := Some tt; _pointerHeld := None; _ignoreClick := false |}.

Definition an_element_locked : @FrigateCardTimelineCore unit unit unit unit nat :=
  {| hass := Some tt; view := Some a_view; cameras := Some {[ "front" := tt ]};
     timelineConfig := Some a_config; mini := false; cameraIDs := None;
     cameraManager := Some tt; _locked := true; _targetBarVisible := false;
     _timeline := Some a_timeline; _timelineSource := Some tt;
     _pointerHeld := None; _ignoreClick := false |}.

Definition a_mini_element : @FrigateCardTimelineCore unit unit unit unit nat :=
  {| hass := Some tt; view := Some a_view; cameras := Some {[ "front" := tt ]};
     timelineConfig := Some a_config; mini := true; cameraIDs := None;
     cameraManager := Some tt; _locked := false; _targetBarVisible := false;
     _timeline := Some a_timeline; _timelineSource := Some tt;
     _pointerHeld := None; _ignoreClick := false |}.

Definition a_pointer : TimelineEventPropertiesResult :=
  {| what := Some background; item := None; group := None; time := 5000 |}.

Definition a_background_click : TimelineEventPropertiesResult :=
  {| what := Some background; item := None; group := None; time := 1100000 |}.

Definition a_zoom (w : TimelineWindow) : TimelineRangeChange :=
  {| range := w;
     event := {| type := "wheel"; additionalEvent := None |};
     byUser := true |}.

(** A surround with the thumbnails in the left drawer and a mini timeline
    below. *)
Definition a_surround : @FrigateCardSurround unit unit unit nat :=
  {| surround_hass := Some tt; surround_view := Some a_view;
     thumbnailConfig :=
       Some {| mode := "left"; show_details := Some true; size := Some 100%Q |};
     surround_timelineConfig :=
       Some {| mini_mode := Some "below"; mini_config := a_config |};
     inBackground := None; fetchMedia := Some clips;
     surround_cameras := Some {[ "front" := tt ]};
     surround_cameraManager := Some tt |}.

(** ** The claims as first stated, where the element departs from them *)

(** C1, as the claim states it, fails on the selection: with the pointer
    held and the event [event_b] selected in the view, a run sets the
    selection of the widget, which was empty, to the id of [event_b]. *)
Lemma held_pointer_selection_changes :
  _pointerHeld an_element_held <> None /\
  getSelection <$> _timeline an_element_held = Some [] /\
  getSelection <$> _timeline (state_after run_updateTimelineFromView an_element_held)
    = Some [IdString "b"] /\
  getSelection <$> _timeline (state_after run_updateTimelineFromView an_element_held)
    <> getSelection <$> _timeline an_element_held.
Proof.
  split; [discriminate|]. split; [reflexivity|].
  split; [vm_compute; reflexivity | vm_compute; discriminate].
Qed.

(** C2, as the claim states it, fails on the early return for a set flag:
    a click that follows a drag returns at once and the flag is still set. *)
Lemma click_after_drag_leaves_flag_set :
  _ignoreClick an_element_after_drag = true /\
  run_timelineClickHandler a_click an_element_after_drag =
    (tt, an_element_after_drag, [StopEventFromActivatingCardWideActions]) /\
  _ignoreClick (state_after (run_timelineClickHandler a_click) an_element_after_drag)
    <> false.
Proof.
  split; [reflexivity|]. split.
  - apply click_ignored. reflexivity.
  - unfold state_after, run_timelineClickHandler.
    rewrite click_ignored by reflexivity. discriminate.
Qed.

(** C5, as the claim states it, fails: with a window of 600 seconds, the
    event [event_a] of 199.001 seconds is padded by 200 seconds on each
    side, for a window of 599.001 seconds, not of 600. *)
Lemma perfect_window_shorter_than_configured :
  ViewMediaClassifier.isEvent event_a = true /\
  getStartTime event_a = Some 1000000 /\
  getEndTime event_a = Some 1199001 /\
  (_getConfiguredWindowSeconds 3600 an_element == 600)%Q /\
  _getPerfectWindowFromMedia 3600 an_element event_a =
    Some {| start := 800000; end_ := 1399001 |} /\
  len {| start := 800000; end_ := 1399001 |} <> 600 * 1000.
Proof.
  repeat split; try reflexivity. vm_compute. discriminate.
Qed.

(** C8, as the claim states it, fails. With the pointer down at 5000 ms in
    the window from 0 to 10000 ms, a range change to the window from 0 to
    20000 ms has the target time 5000 ms, where the ratio gives 10000 ms;
    and with the pointer down at 5500 ms, a range change to the window from
    1000 to 11000 ms has the target time 6000 ms, where the ratio gives
    6500 ms. *)
Lemma target_time_is_not_interpolated :
  rangeChangeIsPan (a_pan {| start := 0; end_ := 20000 |}) = true /\
  effects_of (run_timelineRangeChangeHandler (a_pan {| start := 0; end_ := 20000 |}))
             an_element_held =
    [ThrottledSetViewDuringRangeChange 5000 (a_pan {| start := 0; end_ := 20000 |})] /\
  interpolates {| start := 0; end_ := 10000 |} 5000 {| start := 0; end_ := 20000 |} 10000 /\
  ~ interpolates {| start := 0; end_ := 10000 |} 5000 {| start := 0; end_ := 20000 |} 5000 /\
  effects_of (run_timelineRangeChangeHandler (a_pan {| start := 1000; end_ := 11000 |}))
             an_element_held_at_5500 =
    [ThrottledSetViewDuringRangeChange 6000 (a_pan {| start := 1000; end_ := 11000 |})] /\
  interpolates {| start := 0; end_ := 10000 |} 5500 {| start := 1000; end_ := 11000 |} 6500 /\
  ~ interpolates {| start := 0; end_ := 10000 |} 5500 {| start := 1000; end_ := 11000 |} 6000.
Proof.
  split; [reflexivity|]. split; [vm_compute; reflexivity|].
  split; [vm_compute; reflexivity|]. split; [vm_compute; discriminate|].
  split; [vm_compute; reflexivity|].
  split; [vm_compute; reflexivity | vm_compute; discriminate].
Qed.

(** ** The theorems at the concrete element *)

Lemma held_pointer_keeps_window_witness :
  getWindow <$> _timeline (state_after run_updateTimelineFromView an_element_held)
    = getWindow <$> _timeline an_element_held.
Proof.
  exact (proj1 (held_pointer_keeps_window overlap (fun _ _ d => d) (fun _ d => d)
                  (fun _ w => w) (fun _ _ => Some [7%nat]) (fun _ _ _ => true)
                  fetched_events 3600%Q an_element_held pointer_down eq_refl)).
Defined.

Lemma click_handler_leaves_flag_clear_witness :
  _ignoreClick (state_after (run_timelineClickHandler a_click) an_element) = false.
Proof.
  exact (click_handler_leaves_flag_clear (fun _ w => w) (fun _ _ => Some [7%nat])
           fetched_events no_recordings (fun t => t) (fun t => t)
           a_click an_element eq_refl).
Defined.

Lemma no_view_change_when_query_acceptable_witness :
  Forall (fun e => is_ViewChange e = false)
         (effects_of run_updateTimelineFromView an_element).
Proof.
  apply (no_view_change_when_query_acceptable overlap (fun _ _ d => d) (fun _ d => d)
           (fun _ w => w) (fun _ _ => Some [7%nat]) (fun _ _ _ => true)
           fetched_events 3600%Q an_element).
  right. right. right.
  exists (EventMediaQueries [7%nat]), tt, [7%nat], 4000000.
  repeat split; vm_compute; reflexivity.
Defined.

Lemma perfect_window_of_event_witness :
  _getPerfectWindowFromMedia 3600 an_element event_b =
    Some {| start := 1800000; end_ := 2400000 |}.
Proof.
  destruct (perfect_window_of_event 3600%Q an_element event_b 2000000 2200000 600
              eq_refl eq_refl eq_refl (Qeq_refl _)) as [_ Hcentred].
  destruct (Hcentred ltac:(lia)) as (w & Hw & Hshape & _).
  rewrite Hw, Hshape. reflexivity.
Defined.

Lemma perfect_window_of_recording_witness :
  _getPerfectWindowFromMedia 3600 an_element recording_c =
    Some {| start := 3600000; end_ := 7200000 |}.
Proof.
  exact (perfect_window_of_recording 3600%Q an_element recording_c 3600000 7200000
           eq_refl eq_refl eq_refl).
Defined.

Lemma cluster_excludes_selected_and_recordings_witness :
  clusterCriteria (fun _ _ => true) an_element
    (item_of event_a "person") (item_of event_b "person") = false.
Proof.
  apply cluster_excludes_selected_and_recordings.
  left. exists event_b, "b". split; [reflexivity|]. split; [reflexivity|].
  right. reflexivity.
Defined.

Lemma cluster_needs_cameras_witness :
  clusterCriteria (fun _ _ => true) an_element_without_cameras
    (item_of event_a "person") (item_of event_a "person") = false.
Proof. apply cluster_needs_cameras. reflexivity. Defined.

Lemma range_change_target_time_witness :
  exists targetTime,
    effects_of (run_timelineRangeChangeHandler (a_pan {| start := 1000; end_ := 11000 |}))
               an_element_held =
      [ThrottledSetViewDuringRangeChange targetTime
         (a_pan {| start := 1000; end_ := 11000 |})] /\
    targetTime = 6000 /\
    interpolates {| start := 0; end_ := 10000 |} 5000
                 {| start := 1000; end_ := 11000 |} targetTime.
Proof.
  destruct (range_change_target_time (fun _ _ => None)
              (a_pan {| start := 1000; end_ := 11000 |}) an_element_held a_timeline
              eq_refl eq_refl) as (targetTime & Heffects & Htime & Hratio).
  exists targetTime. split; [exact Heffects|]. split; [exact Htime|].
  apply Hratio; [reflexivity | discriminate | reflexivity].
Defined.

Lemma selection_persists_across_query_witness :
  exists newView r selected,
    _createViewWithEventMediaQuery fetched_events an_element
      (Some (EventMediaQueries [7%nat])) None None = Some newView /\
    queryResults newView = Some r /\
    getResults r = Some [event_a; event_b] /\
    getSelectedResult r = Some selected /\
    getID selected = getID event_b.
Proof.
  destruct (selection_persists_across_query fetched_events an_element
              (EventMediaQueries [7%nat]) None tt tt {[ "front" := tt ]} a_view
              {| view_name := "timeline";
                 query := Some (EventMediaQueries [7%nat]);
                 queryResults :=
                   Some {| getResults := Some [event_a; event_b];
                           getSelectedIndex := None;
                           getResultsTimestamp := Some 5000000 |};
                 context := None |}
              event_b
              {| getResults := Some [event_a; event_b];
                 getSelectedIndex := None;
                 getResultsTimestamp := Some 5000000 |}
              [event_a; event_b] event_b
              eq_refl eq_refl eq_refl eq_refl eq_refl eq_refl eq_refl eq_refl
              ltac:(do 2 constructor) eq_refl)
    as (newView & r & selected & Hcall & _ & _ & _ & Hr & Hl & _ & Hsel & _ & Hid).
  exists newView, r, selected. repeat split; assumption.
Defined.

(** ** The rest of the element at the concrete element *)

Lemma an_element_ready : ready an_element.
Proof. repeat split; eexists; reflexivity. Qed.

Lemma a_click_ready : click_ready a_click an_element.
Proof. repeat split; eexists; reflexivity. Qed.

Lemma an_element_consistent : target_bar_consistent an_element.
Proof.
  split.
  - intros t [= <-]. split; [discriminate|]. intros [x Hx]. discriminate.
  - discriminate.
Qed.

Lemma prefetch_contains_window_witness :
  start (_getPrefetchWindow {| start := 0; end_ := 10000 |}) < 0 /\
  10000 < end_ (_getPrefetchWindow {| start := 0; end_ := 10000 |}).
Proof.
  pose proof (prefetch_contains_window {| start := 0; end_ := 10000 |}
                ltac:(cbn; lia)) as Hp.
  cbv zeta in Hp. destruct Hp as (_ & _ & _ & Hstrict).
  apply Hstrict. unfold len. cbn. lia.
Defined.

Lemma perfect_window_of_open_event_witness :
  _getPerfectWindowFromMedia 3600 an_element event_open =
    Some {| start := 3000000 - Z.quot 600 2 * 1000;
            end_ := 3000000 + Z.quot 600 2 * 1000 |}.
Proof.
  exact (perfect_window_of_open_event 3600%Q an_element event_open 3000000 600
           eq_refl eq_refl eq_refl (Qeq_refl _)).
Defined.

Lemma perfect_window_covers_event_witness :
  exists w,
    _getPerfectWindowFromMedia 3600 an_element event_b = Some w /\
    2200000 <= end_ w /\ start w <= 2000000.
Proof.
  destruct (perfect_window_covers_event 3600%Q an_element event_b 2000000 2200000 600
              eq_refl eq_refl eq_refl (Qeq_refl _) ltac:(lia))
    as (w & Hw & Hend & _ & Hstart).
  exists w. split; [exact Hw|]. split; [exact Hend|]. apply Hstart. lia.
Defined.

Lemma cycle_shows_and_fetches_desired_window_witness :
  exists shown rest,
    getWindow <$> _timeline (state_after run_updateTimelineFromView an_element)
      = Some shown /\
    effects_of run_updateTimelineFromView an_element =
      Refresh tt (_getPrefetchWindow shown) :: rest /\
    Forall (fun e => is_Refresh e = false) rest.
Proof.
  destruct (cycle_shows_and_fetches_desired_window overlap (fun _ _ d => d)
              (fun _ d => d) (fun _ w => w) (fun _ _ => Some [7%nat])
              (fun _ _ _ => true) fetched_events 3600%Q an_element a_view a_timeline
              an_element_ready eq_refl eq_refl eq_refl)
    as (hass_ & shown & rest & _ & Hshown & _ & Heffects & Hrest & _).
  exists shown, rest. destruct hass_.
  split; [exact Hshown|]. split; [exact Heffects | exact Hrest].
Defined.

Lemma cycle_selects_selected_event_witness :
  getSelection <$> _timeline (state_after run_updateTimelineFromView an_element)
    = Some [IdString "b"].
Proof.
  exact (cycle_selects_selected_event overlap (fun _ _ d => d) (fun _ d => d)
           (fun _ w => w) (fun _ _ => Some [7%nat]) (fun _ _ _ => true)
           fetched_events 3600%Q an_element a_view a_timeline
           an_element_ready eq_refl eq_refl).
Defined.

Lemma click_opens_or_closes_thumbnails_witness :
  effects_of (run_timelineClickHandler a_click) an_element =
    [StopEventFromActivatingCardWideActions; FrigateCardEvent "thumbnails:close"] \/
  exists v,
    effects_of (run_timelineClickHandler a_click) an_element =
      [StopEventFromActivatingCardWideActions; ViewChange v;
       FrigateCardEvent "thumbnails:open"].
Proof.
  exact (click_opens_or_closes_thumbnails (fun _ w => w) (fun _ _ => Some [7%nat])
           fetched_events no_recordings (fun t => t) (fun t => t)
           a_click an_element a_view item_ eq_refl a_click_ready eq_refl eq_refl
           eq_refl).
Defined.

Lemma click_without_recordings_dispatches_nothing_witness :
  Forall (fun e => is_ViewChange e = false)
         (effects_of (run_timelineClickHandler a_background_click)
                     an_element_without_recordings).
Proof.
  exact (click_without_recordings_dispatches_nothing (fun _ w => w)
           (fun _ _ => Some [7%nat]) fetched_events no_recordings (fun t => t)
           (fun t => t) a_background_click an_element_without_recordings background
           eq_refl eq_refl (or_introl eq_refl)).
Defined.

Lemma click_on_item_selects_it_witness :
  exists v selected,
    ViewChange v ∈ effects_of (run_timelineClickHandler a_click) an_element /\
    query v = query a_view /\
    queryResults v ≫= getSelectedResult = Some selected /\
    getID selected = Some "a" /\
    (context v ≫= mediaViewer) ≫= seek = Some 1100000.
Proof.
  destruct (click_on_item_selects_it (fun _ w => w) (fun _ _ => Some [7%nat])
              fetched_events no_recordings (fun t => t) (fun t => t)
              a_click an_element a_view "a"
              {| getResults := Some [event_a; event_b];
                 getSelectedIndex := Some 1%nat;
                 getResultsTimestamp := Some 4000000 |}
              [event_a; event_b] event_a
              eq_refl a_click_ready eq_refl eq_refl eq_refl ltac:(discriminate)
              eq_refl eq_refl ltac:(constructor) eq_refl)
    as (v & selected & Hin & Hquery & _ & Hselected & Hid & Hseek).
  exists v, selected. repeat split; assumption.
Defined.

Lemma zoom_range_change_sets_only_the_flag_witness :
  run_timelineRangeChangeHandler (a_zoom {| start := 0; end_ := 20000 |})
                                 an_element_held =
    (tt, set__ignoreClick true an_element_held, []).
Proof.
  exact (zoom_range_change_sets_only_the_flag (fun _ _ => None)
           (a_zoom {| start := 0; end_ := 20000 |}) an_element_held eq_refl).
Defined.

Lemma pan_moves_the_target_bar_witness :
  exists t',
    _timeline (state_after
                 (run_timelineRangeChangeHandler (a_pan {| start := 1000; end_ := 11000 |}))
                 an_element_held) = Some t' /\
    getWindow t' = getWindow a_timeline /\
    customTimes t' !! TIMELINE_TARGET_BAR_ID = Some 6000.
Proof.
  pose proof (pan_moves_the_target_bar (fun _ _ => None)
                (a_pan {| start := 1000; end_ := 11000 |}) an_element_held
                a_timeline pointer_down eq_refl eq_refl eq_refl) as Hpan.
  cbv zeta in Hpan. destruct Hpan as (t' & Ht' & Hwindow & _ & Hunlocked & _).
  exists t'. split; [exact Ht'|]. split; [exact Hwindow|].
  destruct (Hunlocked eq_refl) as [_ Hbar]. exact Hbar.
Defined.

Lemma final_range_change_witness :
  exists changes,
    effects_of (run_timelineRangeChangedHandler (a_pan {| start := 1000; end_ := 11000 |}))
               an_element =
      Refresh tt (_getPrefetchWindow {| start := 1000; end_ := 11000 |}) :: changes.
Proof.
  destruct (final_range_change (fun _ _ d => d) (fun _ w => w)
              (fun _ _ => Some [7%nat]) fetched_events (fun _ _ => false)
              (a_pan {| start := 1000; end_ := 11000 |}) an_element tt tt
              eq_refl ltac:(eexists; reflexivity) eq_refl) as [_ Huser].
  destruct (Huser eq_refl) as (changes & Heffects & _).
  exists changes. exact Heffects.
Defined.

Lemma locked_range_change_keeps_selection_witness :
  exists v,
    effects_of (run_setViewDuringRangeChange 6000 (a_pan {| start := 1000; end_ := 11000 |}))
               an_element_locked = [ViewChange v] /\
    queryResults v = queryResults a_view.
Proof.
  assert (Hrun : exists v,
             effects_of (run_setViewDuringRangeChange 6000
                           (a_pan {| start := 1000; end_ := 11000 |}))
                        an_element_locked = [ViewChange v])
    by (eexists; reflexivity).
  destruct Hrun as [v Hv]. exists v. split; [exact Hv|].
  destruct (locked_range_change_keeps_selection (fun _ => true) (fun _ _ _ _ => None)
              (fun _ r => r) (fun _ _ => false) 6000
              (a_pan {| start := 1000; end_ := 11000 |}) an_element_locked v eq_refl)
    as (view_ & Hview & _ & Hresults).
  - unfold run_setViewDuringRangeChange in Hv. rewrite Hv. constructor.
  - injection Hview as <-. exact Hresults.
Defined.

Lemma target_bar_stays_consistent_witness :
  target_bar_consistent
    (state_after (run_handle_all [MouseDown a_pointer;
                                  RangeChange (a_pan {| start := 1000; end_ := 11000 |});
                                  Click a_click])
                 an_element).
Proof.
  exact (target_bar_stays_consistent overlap (fun _ _ d => d) (fun _ d => d)
           (fun _ w => w) (fun _ _ => Some [7%nat]) (fun _ _ => None)
           (fun _ _ _ => true) fetched_events no_recordings (fun t => t) (fun t => t)
           3600%Q (fun _ _ => false)
           [MouseDown a_pointer;
            RangeChange (a_pan {| start := 1000; end_ := 11000 |});
            Click a_click]
           an_element an_element_consistent).
Defined.

Lemma pointer_up_releases_witness :
  _pointerHeld
    (state_after (run_handle_all [MouseDown a_pointer;
                                  RangeChange (a_pan {| start := 1000; end_ := 11000 |});
                                  MouseUp;
                                  RangeChanged (a_pan {| start := 1000; end_ := 11000 |});
                                  Click a_click])
                 an_element) = None /\
  _targetBarVisible
    (state_after (run_handle_all [MouseDown a_pointer;
                                  RangeChange (a_pan {| start := 1000; end_ := 11000 |});
                                  MouseUp;
                                  RangeChanged (a_pan {| start := 1000; end_ := 11000 |});
                                  Click a_click])
                 an_element) = false.
Proof.
  exact (pointer_up_releases overlap (fun _ _ d => d) (fun _ d => d)
           (fun _ w => w) (fun _ _ => Some [7%nat]) (fun _ _ => None)
           (fun _ _ _ => true) fetched_events no_recordings (fun t => t) (fun t => t)
           3600%Q (fun _ _ => false)
           [MouseDown a_pointer; RangeChange (a_pan {| start := 1000; end_ := 11000 |})]
           [RangeChanged (a_pan {| start := 1000; end_ := 11000 |}); Click a_click]
           an_element an_element_consistent
           ltac:(repeat constructor)).
Defined.

Lemma click_after_drag_is_ignored_witness :
  run_timelineClickHandler a_click
    (state_after
       (run_steps [ClickAwaits a_background_click;
                   Handled (MouseDown a_pointer);
                   Handled (RangeChange (a_pan {| start := 500; end_ := 10500 |}));
                   ClickResumes None;
                   Handled (RangeChange (a_pan {| start := 1000; end_ := 11000 |}));
                   Handled (RangeChanged (a_pan {| start := 1000; end_ := 11000 |}));
                   Handled MouseUp])
       an_element) =
    (tt,
     state_after
       (run_steps [ClickAwaits a_background_click;
                   Handled (MouseDown a_pointer);
                   Handled (RangeChange (a_pan {| start := 500; end_ := 10500 |}));
                   ClickResumes None;
                   Handled (RangeChange (a_pan {| start := 1000; end_ := 11000 |}));
                   Handled (RangeChanged (a_pan {| start := 1000; end_ := 11000 |}));
                   Handled MouseUp])
       an_element,
     [StopEventFromActivatingCardWideActions]).
Proof.
  exact (proj1
           (click_after_drag_is_ignored overlap (fun _ _ d => d) (fun _ d => d)
              (fun _ w => w) (fun _ _ => Some [7%nat]) (fun _ _ => None)
              (fun _ _ _ => true) fetched_events no_recordings (fun t => t)
              (fun t => t) 3600%Q (fun _ _ => false)
              [ClickAwaits a_background_click]
              [Handled (RangeChange (a_pan {| start := 500; end_ := 10500 |}));
               ClickResumes None]
              [Handled (RangeChanged (a_pan {| start := 1000; end_ := 11000 |}));
               Handled MouseUp]
              a_pointer a_click (a_pan {| start := 1000; end_ := 11000 |}) an_element
              ltac:(repeat constructor) ltac:(repeat constructor))).
Defined.

Lemma pointer_down_rearms_click_witness :
  _ignoreClick
    (state_after (run_handle_all [MouseDown a_pointer;
                                  RangeChange (a_pan {| start := 1000; end_ := 11000 |});
                                  MouseUp;
                                  MouseDown a_pointer;
                                  MouseUp])
                 an_element) = false.
Proof.
  exact (pointer_down_rearms_click overlap (fun _ _ d => d) (fun _ d => d)
           (fun _ w => w) (fun _ _ => Some [7%nat]) (fun _ _ => None)
           (fun _ _ _ => true) fetched_events no_recordings (fun t => t) (fun t => t)
           3600%Q (fun _ _ => false)
           [MouseDown a_pointer;
            RangeChange (a_pan {| start := 1000; end_ := 11000 |});
            MouseUp]
           [MouseUp] a_pointer an_element
           ltac:(repeat constructor)).
Defined.

Lemma clusterCriteria_symmetric_witness :
  clusterCriteria (fun _ _ => true) an_element
    (item_of event_a "person") (item_of event_b "person") =
  clusterCriteria (fun _ _ => true) an_element
    (item_of event_b "person") (item_of event_a "person").
Proof.
  exact (clusterCriteria_symmetric (fun _ _ => true) an_element
           (item_of event_a "person") (item_of event_b "person")
           (fun _ _ => eq_refl)).
Defined.

Lemma groups_are_configured_cameras_witness :
  group_id {| group_id := "front"; group_content := "Front door" |}
    ∈ _getTimelineCameraIDs an_element /\
  forall g', g' ∈ run_getGroups an_element -> group_id g' = "front" ->
             g' = {| group_id := "front"; group_content := "Front door" |}.
Proof.
  destruct (groups_are_configured_cameras (fun _ _ _ => Some "Front door")
              (fun _ => Some "front") "birdseye" an_element
              {| group_id := "front"; group_content := "Front door" |}
              ltac:(vm_compute; constructor))
    as (Hscope & _ & Hunique).
  split; [exact Hscope | exact Hunique].
Defined.

Lemma requested_item_is_selected_witness :
  exists selected,
    getSelectedResult {| getResults := Some [event_a; event_b];
                         getSelectedIndex := Some 0%nat;
                         getResultsTimestamp := Some 5000000 |} = Some selected /\
    getID selected = Some "a".
Proof.
  eapply (requested_item_is_selected fetched_events an_element
            (Some (EventMediaQueries [7%nat])) None "a" _ _
            [event_a; event_b] event_a);
    try reflexivity.
  - discriminate.
  - constructor.
Defined.

Lemma target_time_follows_pointer_witness :
  effects_of (run_handle (RangeChange (a_pan {| start := 1000; end_ := 11000 |})))
             (state_after (run_handle (MouseDown a_pointer)) an_element) =
    [ThrottledSetViewDuringRangeChange 6000 (a_pan {| start := 1000; end_ := 11000 |})].
Proof.
  pose proof (target_time_follows_pointer overlap (fun _ _ d => d) (fun _ d => d)
                (fun _ w => w) (fun _ _ => Some [7%nat]) (fun _ _ => None)
                (fun _ _ _ => true) fetched_events no_recordings (fun t => t)
                (fun t => t) 3600%Q (fun _ _ => false) a_pointer
                (a_pan {| start := 1000; end_ := 11000 |}) an_element a_timeline
                eq_refl eq_refl) as Htarget.
  cbv zeta in Htarget. destruct Htarget as (targetTime & Heffects & Htime & _).
  unfold run_handle. rewrite Heffects, Htime. reflexivity.
Defined.

Lemma hosted_timeline_dispatches_nothing_witness :
  Forall (fun e => is_ViewChange e = false)
         (effects_of run_updateTimelineFromView a_mini_element).
Proof.
  eapply (hosted_timeline_dispatches_nothing overlap (fun _ _ d => d) (fun _ d => d)
            (fun _ w => w) (fun _ _ => Some [7%nat]) (fun _ _ _ => true)
            fetched_events 3600%Q a_surround _ _ a_mini_element).
  - reflexivity.
  - reflexivity.
  - repeat split.
Defined.

Lemma click_moves_the_drawer_witness :
  exists caught,
    omap (surround_catch a_surround)
         (effects_of (run_timelineClickHandler a_click) an_element) = [caught] /\
    drawer caught = "left".
Proof.
  pose proof (click_moves_the_drawer (fun _ w => w) (fun _ _ => Some [7%nat])
                fetched_events no_recordings (fun t => t) (fun t => t)
                a_surround a_click an_element a_view
                eq_refl a_click_ready eq_refl eq_refl) as Hdrawer.
  cbv zeta in Hdrawer.
  destruct Hdrawer as [[_ Hnone] | (c & Hc & _ & [[Hcaught _] | [Hcaught _]])].
  - discriminate Hnone. eexists. reflexivity.
  - injection Hc as <-. eexists. split; [exact Hcaught | reflexivity].
  - injection Hc as <-. eexists. split; [exact Hcaught | reflexivity].
Defined.
